(** * QUIP packet codec (qpaceQUIP.py): a shallow embedding and its properties

    The Python module [Scripts/qpaceQUIP.py] defines three classes: [Packet]
    (a fixed 256-byte frame with a triple-redundant header tail and payload),
    [Encoder] (file to packet units) and [Decoder] (packet units to file, with
    a text scaffold and a ledger of missing pids).  The embedding below keeps
    the names of the source.  Conventions:

    - a Python [int] is a [Z]; a [bytes]/[bytearray] value is a [list Z] whose
      elements are meant to lie in [0,256); a [str] is the [list Z] of its
      code points;
    - a call that may raise returns a [res]; the exception classes that the
      module can meet are the constructors of [exn];
    - class attributes of [Packet] that the code assigns ([last_id],
      [overflow]) live in an explicit [pstate] threaded through every
      constructor call;
    - the unit store is a finite map from pids to frames and an optional
      [init.qp]; reads of present units succeed, absent ones raise
      [FileNotFoundError]; writes succeed;
    - the order in which [set] enumerates its elements is a parameter
      ([set_iter]) of everything that votes.

    Not embedded: the constructors of [Encoder] and [Decoder] (checks on the
    shape of the paths), [Decoder.asyncDecode], [Controller] and the command
    line. *)

From Stdlib Require Import ZArith Lia List Bool String Ascii QArith Qround.
From stdpp Require Import base option list gmap.

Local Open Scope Z_scope.

(** ** Python values and exceptions *)

Abbreviation bytes := (list Z) (only parsing).
Abbreviation pystr := (list Z) (only parsing).

Inductive exn : Type :=
| ValueError_pid_invalid      (* "Packet pid is invalid. Must be a positive number." *)
| ValueError_pid_out_of_order (* "Packet pid out of order." *)
| ValueError_too_large        (* "Packet size is too large ..." *)
| ValueError                  (* any other ValueError *)
| UnicodeDecodeError          (* subclass of ValueError *)
| UnicodeEncodeError          (* subclass of ValueError *)
| TypeError
| IndexError
| AttributeError
| OverflowError
| FileNotFoundError           (* subclass of OSError *)
| OSError
| Warning
| StructError                 (* struct.error *)
| Diverged.                   (* not a Python exception: a loop of the model ran out of fuel *)

Inductive res (A : Type) : Type :=
| Ok (a : A)
| Raise (e : exn).
Arguments Ok {A} a.
Arguments Raise {A} e.

#[global] Instance res_ret : MRet res := fun A a => Ok a.
#[global] Instance res_bind : MBind res := fun A B f m =>
  match m with
  | Ok a => f a
  | Raise e => Raise e
  end.

(** [except OSError] also catches [FileNotFoundError]; [except ValueError]
    also catches the two Unicode errors. *)
Definition is_OSError (e : exn) : bool :=
  match e with
  | FileNotFoundError | OSError => true
  | _ => false
  end.

Definition is_FileNotFoundError (e : exn) : bool :=
  match e with
  | FileNotFoundError => true
  | _ => false
  end.

Definition is_ValueError (e : exn) : bool :=
  match e with
  | ValueError_pid_invalid | ValueError_pid_out_of_order
  | ValueError_too_large | ValueError
  | UnicodeDecodeError | UnicodeEncodeError => true
  | _ => false
  end.

Definition is_Warning (e : exn) : bool :=
  match e with
  | Warning => true
  | _ => false
  end.

(** [len(x)] as a Python int. *)
Definition len {A} (l : list A) : Z := Z.of_nat (length l).

(** [l[i]] for a Python int [i]: negative indices count from the end. *)
Definition py_index {A} (l : list A) (i : Z) : res A :=
  let j := if i <? 0 then i + len l else i in
  if j <? 0 then Raise IndexError
  else match l !! Z.to_nat j with
       | Some x => Ok x
       | None => Raise IndexError
       end.

(** [l[lo:hi]] with step 1, following the clamping rules of slices. *)
Definition py_slice {A} (l : list A) (lo hi : Z) : list A :=
  let norm i := if i <? 0 then Z.max 0 (i + len l) else Z.min i (len l) in
  let lo' := norm lo in
  let hi' := norm hi in
  take (Z.to_nat (hi' - lo')) (drop (Z.to_nat lo') l).

(** [t.count(v)] *)
Definition py_count (t : list Z) (v : Z) : nat :=
  length (filter (fun x => x = v) t).

(** [max(it, key=f)]: the first item whose key is maximal; an empty iterable
    raises [ValueError]. *)
Fixpoint max_from (key : Z -> nat) (best : Z) (l : list Z) : Z :=
  match l with
  | [] => best
  | x :: tl => max_from key (if (key best <? key x)%nat then x else best) tl
  end.

Definition py_max_key (key : Z -> nat) (l : list Z) : res Z :=
  match l with
  | [] => Raise ValueError
  | x :: tl => Ok (max_from key x tl)
  end.

(** [for i in range(0, n)] threading an accumulator through a body that may
    raise. *)
Fixpoint for_range {A} (body : A -> Z -> res A) (acc : A) (idxs : list Z) : res A :=
  match idxs with
  | [] => Ok acc
  | i :: tl => acc' ← body acc i; for_range body acc' tl
  end.

Definition range (n : Z) : list Z := seqZ 0 n.

(** A [str] literal of the source, as code points. *)
Definition lit (s : string) : pystr :=
  map (fun c => Z.of_N (N_of_ascii c)) (list_ascii_of_string s).

(** [l * n] for a sequence [l] *)
Definition py_mul {A} (l : list A) (n : Z) : list A :=
  concat (replicate (Z.to_nat n) l).

(** [x.to_bytes(length, byteorder='big')] for an unsigned conversion. *)
Fixpoint be_bytes (length : nat) (x : Z) : bytes :=
  match length with
  | O => []
  | S k => be_bytes k (x / 256) ++ [x mod 256]
  end.

Definition to_bytes (x : Z) (length : nat) : res bytes :=
  if (x <? 0) || (256 ^ Z.of_nat length <=? x) then Raise OverflowError
  else Ok (be_bytes length x).

(** [x.bit_length()] *)
Definition bit_length (x : Z) : Z :=
  if x =? 0 then 0 else Z.log2 (Z.abs x) + 1.

(** [struct.unpack('>L', b)[0]] *)
Definition unpack_L (b : bytes) : res Z :=
  if (length b =? 4)%nat then Ok (fold_left (fun acc x => acc * 256 + x) b 0)
  else Raise StructError.

(** Digits of a non-negative [n] in a base, most significant first; the
    number of binary digits bounds the number of digits in any base. *)
Definition digit_char (d : Z) : Z :=
  if d <? 10 then 48 + d else 87 + d.

Fixpoint digits_from (fuel : nat) (base n : Z) (acc : pystr) : pystr :=
  match fuel with
  | O => acc
  | S f =>
      let acc' := digit_char (n mod base) :: acc in
      if n / base =? 0 then acc' else digits_from f base (n / base) acc'
  end.

Definition digits (base n : Z) : pystr :=
  digits_from (S (Z.to_nat (Z.log2 n))) base n [].

(** [str(n)] and [hex(n)] for an int *)
Definition py_str (n : Z) : pystr :=
  if n <? 0 then lit "-" ++ digits 10 (- n) else digits 10 n.

Definition py_hex (n : Z) : pystr :=
  if n <? 0 then lit "-0x" ++ digits 16 (- n) else lit "0x" ++ digits 16 n.

(** ASCII classes used by [int()], [fromhex()] *)
Definition is_space (c : Z) : bool :=
  (c =? 32) || ((9 <=? c) && (c <=? 13)).

Definition is_digit (c : Z) : bool := (48 <=? c) && (c <=? 57).

Definition hexval (c : Z) : option Z :=
  if (48 <=? c) && (c <=? 57) then Some (c - 48)
  else if (97 <=? c) && (c <=? 102) then Some (c - 87)
  else if (65 <=? c) && (c <=? 70) then Some (c - 55)
  else None.

(** [bytearray.fromhex(s)]: pairs of hexadecimal digits, ASCII whitespace
    allowed between the pairs; anything else raises [ValueError]. *)
Fixpoint fromhex_from (s : pystr) (acc : bytes) : res bytes :=
  match s with
  | [] => Ok acc
  | c :: tl =>
      if is_space c then fromhex_from tl acc
      else match hexval c, tl with
           | Some hi, c2 :: tl2 =>
               match hexval c2 with
               | Some lo => fromhex_from tl2 (acc ++ [hi * 16 + lo])
               | None => Raise ValueError
               end
           | _, _ => Raise ValueError
           end
  end.

Definition fromhex (s : pystr) : res bytes := fromhex_from s [].

(** [bytearray(map(ord, s))]: every code point has to fit a byte. *)
Fixpoint bytearray_of_ords (s : pystr) : res bytes :=
  match s with
  | [] => Ok []
  | c :: tl =>
      if (0 <=? c) && (c <? 256)
      then tl' ← bytearray_of_ords tl; Ok (c :: tl')
      else Raise ValueError
  end.

(** [int(s)] on the ASCII fragment of its grammar: surrounding whitespace,
    an optional sign, decimal digits with single underscores between them.
    Decimal digits outside ASCII, which [int] also accepts, are not modelled
    and raise [ValueError] here. *)
Fixpoint parse_digits (s : pystr) (acc : Z) (prev_digit : bool) : res Z :=
  match s with
  | [] => if prev_digit then Ok acc else Raise ValueError
  | c :: tl =>
      if is_digit c then parse_digits tl (acc * 10 + (c - 48)) true
      else if (c =? 95) && prev_digit then parse_digits tl acc false
      else Raise ValueError
  end.

Fixpoint lstrip (s : pystr) : pystr :=
  match s with
  | c :: tl => if is_space c then lstrip tl else s
  | [] => []
  end.

Definition strip (s : pystr) : pystr := rev (lstrip (rev (lstrip s))).

Definition py_int (s : pystr) : res Z :=
  match strip s with
  | 45 :: tl => n ← parse_digits tl 0 false; Ok (- n)
  | 43 :: tl => parse_digits tl 0 false
  | s' => parse_digits s' 0 false
  end.

(** [s.split(sep)] for a one-character separator, and [sep.join(parts)]. *)
Fixpoint split_from (sep : Z) (s : pystr) (cur : pystr) : list pystr :=
  match s with
  | [] => [cur]
  | c :: tl => if c =? sep then cur :: split_from sep tl [] else split_from sep tl (cur ++ [c])
  end.

Definition split (sep : Z) (s : pystr) : list pystr := split_from sep s [].

Fixpoint join (sep : pystr) (parts : list pystr) : pystr :=
  match parts with
  | [] => []
  | [p] => p
  | p :: tl => p ++ sep ++ join sep tl
  end.

(** [hay.find(sub)]: the lowest index at which [sub] occurs, or -1. *)
Fixpoint starts_with (sub hay : bytes) : bool :=
  match sub, hay with
  | [], _ => true
  | x :: sub', y :: hay' => (x =? y) && starts_with sub' hay'
  | _ :: _, [] => false
  end.

Fixpoint find_from (sub hay : bytes) (i : Z) : Z :=
  match hay with
  | [] => if starts_with sub [] then i else -1
  | _ :: tl => if starts_with sub hay then i else find_from sub tl (i + 1)
  end.

Definition find (hay sub : bytes) : Z := find_from sub hay 0.

(** [b.decode('utf-8')] with the default strict error handler: shortest
    forms only, no surrogates, nothing above U+10FFFF. *)
Definition is_cont (b : Z) : bool := (128 <=? b) && (b <=? 191).

Fixpoint utf8_decode (b : bytes) : res pystr :=
  match b with
  | [] => Ok []
  | b0 :: r0 =>
      if (0 <=? b0) && (b0 <? 128) then
        s ← utf8_decode r0; Ok (b0 :: s)
      else match r0 with
      | [] => Raise UnicodeDecodeError
      | b1 :: r1 =>
          if (194 <=? b0) && (b0 <=? 223) then
            if is_cont b1 then
              s ← utf8_decode r1; Ok (((b0 - 192) * 64 + (b1 - 128)) :: s)
            else Raise UnicodeDecodeError
          else match r1 with
          | [] => Raise UnicodeDecodeError
          | b2 :: r2 =>
              if (224 <=? b0) && (b0 <=? 239) then
                if ((if b0 =? 224 then 160 else 128) <=? b1)
                   && (b1 <=? (if b0 =? 237 then 159 else 191))
                   && is_cont b2 then
                  s ← utf8_decode r2;
                  Ok (((b0 - 224) * 4096 + (b1 - 128) * 64 + (b2 - 128)) :: s)
                else Raise UnicodeDecodeError
              else match r2 with
              | [] => Raise UnicodeDecodeError
              | b3 :: r3 =>
                  if (240 <=? b0) && (b0 <=? 244) then
                    if ((if b0 =? 240 then 144 else 128) <=? b1)
                       && (b1 <=? (if b0 =? 244 then 143 else 191))
                       && is_cont b2 && is_cont b3 then
                      s ← utf8_decode r3;
                      Ok (((b0 - 240) * 262144 + (b1 - 128) * 4096
                           + (b2 - 128) * 64 + (b3 - 128)) :: s)
                    else Raise UnicodeDecodeError
                  else Raise UnicodeDecodeError
              end
          end
      end
  end.

(** [bytearray(s, 'utf-8')] *)
Definition utf8_encode_char (c : Z) : res bytes :=
  if c <? 0 then Raise UnicodeEncodeError
  else if c <? 128 then Ok [c]
  else if c <? 2048 then Ok [192 + c / 64; 128 + c mod 64]
  else if c <? 65536 then
    if (55296 <=? c) && (c <=? 57343) then Raise UnicodeEncodeError
    else Ok [224 + c / 4096; 128 + (c / 64) mod 64; 128 + c mod 64]
  else if c <? 1114112 then
    Ok [240 + c / 262144; 128 + (c / 4096) mod 64; 128 + (c / 64) mod 64; 128 + c mod 64]
  else Raise UnicodeEncodeError.

Fixpoint utf8_encode (s : pystr) : res bytes :=
  match s with
  | [] => Ok []
  | c :: tl => b ← utf8_encode_char c; r ← utf8_encode tl; Ok (b ++ r)
  end.

(** The grouping idiom of [ammendScaffoldData] ([zip_longest] over [n]
    references to one iterator of [s], each tuple joined, fill value the empty
    string): the consecutive pieces of [s] of [n] items each, the last one
    possibly shorter. *)
Fixpoint chunks_from {A} (fuel n : nat) (s : list A) : list (list A) :=
  match fuel with
  | O => []
  | S f =>
      match s with
      | [] => []
      | _ :: _ => take n s :: chunks_from f n (drop n s)
      end
  end.

Definition chunks {A} (n : nat) (s : list A) : list (list A) :=
  chunks_from (length s) n s.

(** [l[i] = v] on a list: negative indices count from the end, an index out
    of range raises [IndexError]. *)
Definition py_setitem {A} (l : list A) (i : Z) (v : A) : res (list A) :=
  let j := if i <? 0 then i + len l else i in
  if (j <? 0) || (len l <=? j) then Raise IndexError
  else Ok (<[Z.to_nat j := v]> l).

(** [l[lo:]] *)
Definition py_slice_from {A} (l : list A) (lo : Z) : list A :=
  py_slice l lo (len l).

(** A Python number is an [int] or a [float].  A float is kept as the exact
    rational that the double approximates: the code below only ever asks
    whether a value is one, never for its digits. *)
Inductive pynum : Type :=
| PInt (z : Z)
| PFloat (q : Q).

(** [a / b] on ints (true division, a float) and [x % m] on a float. *)
Definition py_truediv (a b : Z) : Q := Qdiv (inject_Z a) (inject_Z b).

Definition float_mod (x : Q) (m : Z) : Q :=
  Qminus x (Qmult (inject_Z m) (inject_Z (Qfloor (Qdiv x (inject_Z m))))).

(** [x << n]: defined on ints only. *)
Definition py_lshift (x : pynum) (n : Z) : res Z :=
  match x with
  | PInt z => Ok (Z.shiftl z n)
  | PFloat _ => Raise TypeError
  end.

(** ** class Packet *)

Module Packet.

Definition sync : Z := 0xFFFF.
Definition start : Z := 0xABCD.
Definition end_ : Z := 0xDCBA.
Definition id_bits : Z := 32.
Definition placeholder_bits : Z := 4.
Definition max_size : Z := 256.
Definition data_size : Z := 77.
Definition max_id : Z := 0xFFFFFFFF.

(** The class attributes that the code assigns: they are shared by every
    instance and every caller in the process. *)
Record pstate : Type := { last_id : Z; overflow : pynum }.

Definition initial : pstate := {| last_id := -1; overflow := PInt 0 |}.

(** The instance attributes. *)
Record t : Type := { op_code : Z; pid : Z; data : bytes; nbytes : Z }.

(** The [data] argument of the constructor, by its run-time type
    ([bytes] and [bytearray] are not told apart). *)
Inductive arg : Type :=
| DInt (n : Z)
| DBytes (b : bytes)
| DStr (s : pystr).

Definition to_bytearray (data : arg) : res bytes :=
  match data with
  | DInt n => to_bytes n (Z.to_nat (bit_length n / 8 + 1))
  | DBytes b => Ok b
  | DStr s =>
      match fromhex s with
      | Ok b => Ok b
      | Raise e => if is_ValueError e then bytearray_of_ords s else Raise e
      end
  end.

(** [Packet.__init__(self, data, pid, **kwargs)]; [kw_op_code] is
    [kwargs['op_code']] when given.  No class attribute is assigned on a path
    that raises, so a raise leaves the class state as it was. *)
Definition init (st : pstate) (data : arg) (pid : Z) (kw_op_code : option Z)
  : res (t * pstate) :=
  if pid <? 0 then Raise ValueError_pid_invalid
  else
    data ← to_bytearray data;
    let op_code := match kw_op_code with Some c => c | None => 0x0 end in
    let data_in_bytes := len data in
    if data_in_bytes <=? data_size then
      '(self_pid, st) ←
        (if (op_code =? 0x0) || ((op_code =? 0x7) && (last_id st + 1 =? pid))
         then Ok (pid mod max_id, {| last_id := pid; overflow := overflow st |})
         else if (op_code >? 0x0) && (op_code <? 0x7)
         then Ok (0, st)
         else Raise ValueError_pid_out_of_order);
      let st := if pid >? max_id
                then {| last_id := last_id st;
                        overflow := PFloat (float_mod (py_truediv max_id pid) 2) |}
                else st in
      Ok ({| op_code := op_code; pid := self_pid; data := data;
             nbytes := data_in_bytes |}, st)
    else Raise ValueError_too_large.

Definition buildHeader (st : pstate) (self : t) : res bytes :=
  sync ← to_bytes sync 2;
  start ← to_bytes start 2;
  pid ← to_bytes (pid self) 4;
  ov ← py_lshift (overflow st) 7;
  header_end ← to_bytes (Z.lor ov (Z.shiftl (op_code self) 4)) 1;
  Ok (sync ++ start ++ py_mul (pid ++ header_end) 3).

Definition buildData (self : t) : bytes := py_mul (data self) 3.

Definition buildFooter : res bytes :=
  sync ← to_bytes sync 2;
  end_ ← to_bytes end_ 2;
  Ok (end_ ++ sync).

(** [while len(packet) < Packet.max_size: packet += bytearray.fromhex('ff')];
    every round adds one byte, so [max_size] rounds are enough. *)
Fixpoint pad (fuel : nat) (packet : bytes) : bytes :=
  match fuel with
  | O => packet
  | S f => if len packet <? max_size then pad f (packet ++ [0xFF]) else packet
  end.

Definition build (st : pstate) (self : t) : res bytes :=
  header ← buildHeader st self;
  let data := buildData self in
  footer ← buildFooter;
  let packet := header ++ data ++ footer in
  Ok (pad (Z.to_nat max_size) packet).

End Packet.

(** ** Files and the effects of the two coders *)

(** The packet directory holds the data units ["<pid>.qp"], keyed here by
    their pid, and ["init.qp"]; every other file is kept by its path.  The
    packet directory is taken not to alias the other paths. *)
Record filesys : Type := {
  units : gmap Z bytes;
  init_qp : option bytes;
  files : gmap pystr bytes
}.

Record world : Type := { cls : Packet.pstate; fs : filesys }.

(** Computations that read and write the world and may raise: the world at
    the point of a raise is kept. *)
Definition M (A : Type) : Type := world -> res A * world.

#[global] Instance M_ret : MRet M := fun A a w => (Ok a, w).
#[global] Instance M_bind : MBind M := fun A B f m w =>
  match m w with
  | (Ok a, w') => f a w'
  | (Raise e, w') => (Raise e, w')
  end.

Definition raise {A} (e : exn) : M A := fun w => (Raise e, w).

Definition lift {A} (r : res A) : M A := fun w => (r, w).

(** [try: body  except <class>: handler] *)
Definition try_except {A} (body : M A) (catches : exn -> bool) (handler : M A) : M A :=
  fun w =>
    match body w with
    | (Raise e, w') => if catches e then handler w' else (Raise e, w')
    | r => r
    end.

Definition set_units (f : gmap Z bytes -> gmap Z bytes) : M unit := fun w =>
  (Ok tt, {| cls := cls w;
             fs := {| units := f (units (fs w)); init_qp := init_qp (fs w);
                      files := files (fs w) |} |}).

Definition set_init_qp (b : option bytes) : M unit := fun w =>
  (Ok tt, {| cls := cls w;
             fs := {| units := units (fs w); init_qp := b; files := files (fs w) |} |}).

Definition set_files (f : gmap pystr bytes -> gmap pystr bytes) : M unit := fun w =>
  (Ok tt, {| cls := cls w;
             fs := {| units := units (fs w); init_qp := init_qp (fs w);
                      files := f (files (fs w)) |} |}).

(** [open(path, 'rb').read()] of a plain file, [os.path.exists],
    [os.remove], [os.rename], [os.path.getsize]. *)
Definition read_file (path : pystr) : M bytes := fun w =>
  match files (fs w) !! path with
  | Some b => (Ok b, w)
  | None => (Raise FileNotFoundError, w)
  end.

Definition path_exists (path : pystr) : M bool := fun w =>
  (Ok (bool_decide (is_Some (files (fs w) !! path))), w).

Definition os_remove (path : pystr) : M unit :=
  _ ← read_file path; set_files (delete path).

Definition os_rename (src dst : pystr) : M unit :=
  b ← read_file src; set_files (fun m => <[dst := b]> (delete src m)).

Definition getsize (path : pystr) : M Z :=
  b ← read_file path; mret (len b).

(** The same for a data unit, and the constructor and [build] of [Packet]
    against the class state of the world. *)
Definition read_unit (pid : Z) : M bytes := fun w =>
  match units (fs w) !! pid with
  | Some b => (Ok b, w)
  | None => (Raise FileNotFoundError, w)
  end.

Definition unit_exists (pid : Z) : M bool := fun w =>
  (Ok (bool_decide (is_Some (units (fs w) !! pid))), w).

Definition new_Packet (data : Packet.arg) (pid : Z) (kw_op_code : option Z)
  : M Packet.t := fun w =>
  match Packet.init (cls w) data pid kw_op_code with
  | Ok (p, st) => (Ok p, {| cls := st; fs := fs w |})
  | Raise e => (Raise e, w)
  end.

Definition build (p : Packet.t) : M bytes := fun w => (Packet.build (cls w) p, w).

(** ** class Encoder *)

Module Encoder.

(** [file] is the path of the source, [packets] the packet directory (not
    needed to name a unit here), [suppress] only silences printing. *)
Record t : Type := { file : pystr; destructive : bool; packets_built : Z }.

(** [Encoder.setLastPacket(self, packet)]; [packet] is [None] when no packet
    was built.  The unit is opened for writing, hence emptied, before the
    frame is built. *)
Definition setLastPacket (packet : option Packet.t) : M unit :=
  match packet with
  | None => raise AttributeError
  | Some packet =>
      let packet := {| Packet.op_code := 0x7; Packet.pid := Packet.pid packet;
                       Packet.data := Packet.data packet;
                       Packet.nbytes := Packet.nbytes packet |} in
      set_units (<[Packet.pid packet := []]>);;
      frame ← build packet;
      set_units (<[Packet.pid packet := frame]>)
  end.

(** The [while True] loop of [Encoder.encode]: [fileToEncode] is what is left
    to read of the source, the result is [pid] at the [break].  Every round
    but the last reads at least one byte: one round more than the source has
    bytes is enough fuel. *)
Fixpoint encode_loop (fuel : nat) (fileToEncode : bytes) (pid : Z)
    (packetToBuild : option Packet.t) : M Z :=
  match fuel with
  | O => raise Diverged
  | S fuel =>
      let pid := pid + 1 in
      let data := take (Z.to_nat Packet.data_size) fileToEncode in
      let fileToEncode := drop (Z.to_nat Packet.data_size) fileToEncode in
      match data with
      | _ :: _ =>
          packetToBuild ← new_Packet (Packet.DBytes data) pid None;
          set_units (<[pid := []]>);;
          frame ← build packetToBuild;
          set_units (<[pid := frame]>);;
          encode_loop fuel fileToEncode pid (Some packetToBuild)
      | [] =>
          setLastPacket packetToBuild;;
          mret pid
      end
  end.

(** [Encoder.encode(self)]: the updated [self] and the returned bool. *)
Definition encode (self : t) : M (t * bool) :=
  try_except
    (fileToEncode ← read_file (file self);
     pid ← try_except
             (encode_loop (S (length fileToEncode)) fileToEncode (-1) None)
             is_OSError (raise OSError);
     let self := {| file := file self; destructive := destructive self;
                    packets_built := pid |} in
     (if destructive self then os_remove (file self) else mret tt);;
     mret (self, true))
    is_OSError
    (mret (self, false)).

(** [self.file.split("/")[-1]] *)
Definition basename (path : pystr) : pystr := List.last (split 47 path) [].

(** [Encoder.buildInitPacket(self)] *)
Definition buildInitPacket (self : t) : M unit :=
  try_except
    (set_init_qp (Some []);;
     let info := [basename (file self)] in
     let info := info ++ [py_str (packets_built self)] in
     size ← getsize (file self);
     let info := info ++ [py_str size] in
     packet ← new_Packet (Packet.DStr (join (lit " ") info)) 0 (Some 0x1);
     frame ← build packet;
     set_init_qp (Some frame))
    is_OSError
    (raise Warning).

(** [Encoder.run(self)].  [os.remove(self.packets+"*.qp")] names no unit: it
    raises [FileNotFoundError]. *)
Definition run (self : t) : M (t * bool) :=
  try_except
    (encode self ≫= fun '((self, ok) : t * bool) =>
     (if ok then buildInitPacket self else mret tt);;
     mret (self, true))
    is_Warning
    ((if destructive self then raise FileNotFoundError else mret tt);;
     mret (self, false)).

(** [Encoder.__init__(self, path_for_encode, path_for_packets, suppress,
    destructive)]: the instance and its [packets] path.  [s[-1]] of an empty
    [str] is an [IndexError]; the right operand of [or] is evaluated only when
    the left one is false. *)
Definition new (path_for_encode path_for_packets : pystr) (destructive : bool)
  : res (t * pystr) :=
  last_packets ← py_index path_for_packets (-1);
  bad ← (if negb (last_packets =? 47) then Ok true
         else last_encode ← py_index path_for_encode (-1);
              Ok (last_encode =? 47));
  path_for_packets ←
    (if (bad : bool) then
       if decide (path_for_packets = lit ".") then Ok []
       else Raise TypeError
     else Ok path_for_packets);
  Ok ({| file := path_for_encode; destructive := destructive; packets_built := 0 |},
      path_for_packets).

End Encoder.

(** [try: body] with several [except] clauses: the first clause whose class
    matches handles the exception; an exception raised by a handler is not
    offered to the other clauses. *)
Fixpoint handle {A} (e : exn) (clauses : list ((exn -> bool) * M A)) : M A :=
  match clauses with
  | [] => raise e
  | (catches, handler) :: tl => if catches e then handler else handle e tl
  end.

Definition try_clauses {A} (body : M A) (clauses : list ((exn -> bool) * M A)) : M A :=
  fun w =>
    match body w with
    | (Raise e, w') => handle e clauses w'
    | r => r
    end.

(** [s.rfind(c)] for a one-character [c]: the highest index, or -1. *)
Fixpoint rfind_from (c : Z) (s : pystr) (i best : Z) : Z :=
  match s with
  | [] => best
  | x :: tl => rfind_from c tl (i + 1) (if x =? c then i else best)
  end.

Definition rfind (s : pystr) (c : Z) : Z := rfind_from c s 0 (-1).

(** ** class Decoder *)

Module Decoder.

(** [expected_packets] and [file_size] do not exist before [init] has run. *)
Record t : Type := {
  file_path : pystr;
  file_name : option pystr;
  destructive : bool;
  expected_packets : option Z;
  file_size : option Z
}.

(** [bytes.fromhex(hex(Packet.end)[2:])] *)
Definition end_word : res bytes := fromhex (py_slice_from (py_hex Packet.end_) 2).

Record header_dict : Type := { h_pid : Z; h_overflow : Z; h_op_code : Z }.

(** [Decoder.decipherHeader(header)] *)
Definition decipherHeader (header : bytes) : res header_dict :=
  pid ← unpack_L (py_slice header 0 4);
  flags ← py_index header 4;
  Ok {| h_pid := pid;
        h_overflow := Z.land (Z.shiftr flags 7) 1;
        h_op_code := Z.land (Z.shiftr flags 4) 7 |}.

(** [Decoder.ammendScaffoldData(self, scaffold_data, to_write, pid)] *)
Definition ammendScaffoldData (scaffold_data to_write : pystr) (pid : Z) : pystr :=
  let scaffold_data := chunks (Z.to_nat Packet.data_size) scaffold_data in
  let scaffold_data :=
    match py_setitem scaffold_data pid to_write with
    | Ok l => l
    | Raise _ => scaffold_data ++ [to_write]
    end in
  concat scaffold_data.

(** The placeholder text of a missing unit: the one-character string of
    code point 0xFF, times [Packet.data_size]. *)
Definition placeholder : pystr := py_mul [0xFF] Packet.data_size.

Inductive loop_ctl (A : Type) : Type :=
| Continue (a : A)
| Break.
Arguments Continue {A} a.
Arguments Break {A}.

Section Vote.

(** The iteration order of [set(vote)] is not fixed by the language: it is a
    parameter of the decoder.  The theorems assume of it only that it
    enumerates the distinct elements of its argument once each. *)
Variable set_iter : list Z -> list Z.

(** [Decoder.resolveExpansion(information, size=None)] *)
Definition resolveExpansion (information : bytes) (size : option Z) : res bytes :=
  let size := match size with
              | None => len information / 3
              | Some s => s
              end in
  for_range (fun majority_info i =>
      v0 ← py_index information i;
      v1 ← py_index information (i + size);
      v2 ← py_index information (i + size * 2);
      let vote := [v0; v1; v2] in
      m ← py_max_key (py_count vote) (set_iter vote);
      Ok (majority_info ++ [m]))
    [] (range size).

(** The information field of a frame, as [readInit], [bulkDecode] and
    [asyncDecode] all take it: the bytes from offset 19 to the first end
    word, majority-voted. *)
Definition information_of (packet_data : bytes) : res bytes :=
  e ← end_word;
  resolveExpansion (py_slice packet_data 19 (find packet_data e)) None.

(** [Decoder.readInit(self)] *)
Definition readInit : M (list pystr) :=
  try_except
    (fun w =>
       match init_qp (fs w) with
       | None => (Raise FileNotFoundError, w)
       | Some information =>
           (information ← information_of information;
            information ← utf8_decode information;
            Ok (split 32 information), w)
       end)
    is_OSError
    (raise OSError).

(** [Decoder.init(self)] *)
Definition init (self : t) : M t :=
  initPacket ← readInit;
  file_name ← match file_name self with
              | None => lift (py_index initPacket 0)
              | Some n => mret n
              end;
  expected_packets ← lift (py_index initPacket 1 ≫= py_int);
  file_size ← lift (py_index initPacket 2 ≫= py_int);
  mret {| file_path := file_path self; file_name := Some file_name;
          destructive := destructive self;
          expected_packets := Some expected_packets;
          file_size := Some file_size |}.

(** [self.file_path+self.file_name]: adding [None] to a [str] is a
    [TypeError]. *)
Definition newFile (self : t) : res pystr :=
  match file_name self with
  | None => Raise TypeError
  | Some n => Ok (file_path self ++ n)
  end.

(** [Decoder.prepareFileLocation(self)] *)
Definition prepareFileLocation (self : t) : M unit :=
  path ← lift (newFile self);
  size ← lift (match file_size self with
               | None => Raise AttributeError
               | Some n => Ok n
               end);
  set_files (<[path ++ lit ".scaff" := py_mul [32] size]>).

(** [scaffoldToBuild.write(b)] on a file opened ['rb+'] and not yet read or
    written: the bytes go over the start of the content. *)
Definition write_at_start (path : pystr) (b : bytes) : M unit :=
  set_files (fun m => match m !! path with
                      | Some old => <[path := b ++ drop (length b) old]> m
                      | None => <[path := b]> m
                      end).

(** One round of the [while True] loop of [bulkDecode], for the [pid] of the
    round: the new [scaffold_data] and [missedPackets], or the [break]. *)
Definition bulk_step (scaffoldToBuild : pystr) (pid : Z) (scaffold_data : pystr)
    (missedPackets : list Z) : M (loop_ctl (pystr * list Z)) :=
  try_except
    (packet_data ← read_unit pid;
     information ← lift (information_of packet_data);
     text ← lift (utf8_decode information);
     mret (Continue (ammendScaffoldData scaffold_data text pid, missedPackets)))
    is_FileNotFoundError
    (next ← unit_exists (pid + 1);
     if (next : bool) then
       mret (Continue (ammendScaffoldData scaffold_data placeholder pid,
                       missedPackets ++ [pid]))
     else
       b ← lift (utf8_encode scaffold_data);
       write_at_start scaffoldToBuild b;;
       mret Break).

Fixpoint bulk_loop (fuel : nat) (scaffoldToBuild : pystr) (pid : Z)
    (scaffold_data : pystr) (missedPackets : list Z) : M (pystr * list Z) :=
  match fuel with
  | O => raise Diverged
  | S fuel =>
      let pid := pid + 1 in
      c ← bulk_step scaffoldToBuild pid scaffold_data missedPackets;
      match c with
      | Continue (scaffold_data, missedPackets) =>
          bulk_loop fuel scaffoldToBuild pid scaffold_data missedPackets
      | Break => mret (scaffold_data, missedPackets)
      end
  end.

(** No round goes on past the largest pid of the store: that many rounds and
    two more are enough. *)
Definition max_pid (m : gmap Z bytes) : Z :=
  map_fold (fun k _ acc => Z.max k acc) (-1) m.

Definition bulk_fuel : M nat := fun w =>
  (Ok (Z.to_nat (max_pid (units (fs w)) + 3)), w).

(** [Decoder.buildScaffold(self)] *)
Definition buildScaffold (self : t) : M unit :=
  path ← lift (newFile self);
  os_rename (path ++ lit ".scaff") path.

(** [Decoder.bulkDecode(self)]: [None], or the list of the pids missed.  The
    [except OSError] of the inner [try] cannot fire on this store (a present
    unit is readable, writes succeed) and is left out. *)
Definition bulkDecode (self : t) : M (option (list Z)) :=
  r ← try_except
        (newFile ← lift (newFile self);
         ex ← path_exists newFile;
         (if (ex : bool) then os_remove newFile else mret tt);;
         _ ← read_file (newFile ++ lit ".scaff");
         fuel ← bulk_fuel;
         r ← bulk_loop fuel (newFile ++ lit ".scaff") (-1) [] [];
         mret (Some r.2))
        is_OSError
        (mret None);
  match r with
  | None => mret None
  | Some [] => buildScaffold self;; mret None
  | Some missedPackets => mret (Some missedPackets)
  end.

(** What the decoder recovers of one frame: the header fields, by the vote
    over the repeated header tail and [decipherHeader] (the line kept as a
    comment in [bulkDecode]), and the information field. *)
Definition deserialize (packet_data : bytes) : res (bytes * Z * Z) :=
  tail ← resolveExpansion (py_slice packet_data 4 19) None;
  header ← decipherHeader tail;
  information ← information_of packet_data;
  Ok (information, h_pid header, h_op_code header).

(** [Decoder.run(self)] up to the test of the result of [bulkDecode]. *)
Definition run_bulk (self : t) : M (t * option (list Z)) :=
  self ← init self;
  prepareFileLocation self;;
  missedPackets ← bulkDecode self;
  mret (self, missedPackets).

(** [Decoder.asyncDecode(self, pid)]: the updated [self] and the returned
    bool.  The two inner [except OSError] clauses print and raise again the
    exception they caught; they are left out.  The scaffold is opened for
    writing, hence emptied, before the text is encoded; text mode is taken to
    be UTF-8 without newline translation (the default on the Linux of the
    payload computer). *)
Definition asyncDecode (self : t) (pid : Z) : M (t * bool) :=
  try_clauses
    (match file_name self with
     | None => raise Warning
     | Some name =>
         packet_data ← read_unit pid;
         information ← lift (information_of packet_data);
         let path := (file_path self ++ name) ++ lit ".scaff" in
         scaffold ← read_file path;
         scaffold ← lift (utf8_decode scaffold);
         to_write ← lift (utf8_decode information);
         let scaffold_data := ammendScaffoldData scaffold to_write pid in
         set_files (<[path := []]>);;
         b ← lift (utf8_encode scaffold_data);
         set_files (<[path := b]>);;
         mret (self, true)
     end)
    [(is_FileNotFoundError, mret (self, false));
     (is_OSError, mret (self, false));
     (is_Warning,
      self ← try_except (init self) is_OSError (raise OSError);
      mret (self, false))].

(** [Decoder.run(self)]; [time.sleep(10)] has no effect on the world. *)
Definition run (self : t) : M t :=
  self ← init self;
  prepareFileLocation self;;
  missedPackets ← bulkDecode self;
  match missedPackets with
  | None => mret self
  | Some _ => r ← asyncDecode self 1; mret r.1
  end.

End Vote.

(** [Decoder.__init__(self, path_for_decode, path_for_packets, suppress,
    destructive)]: the instance and its [packets] path. *)
Definition new (path_for_decode path_for_packets : pystr) (destructive : bool)
  : res (t * pystr) :=
  last_packets ← py_index path_for_packets (-1);
  path_for_packets ←
    (if negb (last_packets =? 47) then
       if decide (path_for_packets = lit ".") then Ok []
       else Raise TypeError
     else Ok path_for_packets);
  last_decode ← py_index path_for_decode (-1);
  let '(file_path, file_name) :=
    if last_decode =? 47 then (path_for_decode, None)
    else (py_slice path_for_decode 0 (rfind path_for_decode 47 + 1),
          Some (py_slice_from path_for_decode (rfind path_for_decode 47 + 1))) in
  Ok ({| file_path := file_path; file_name := file_name; destructive := destructive;
         expected_packets := None; file_size := None |},
      path_for_packets).

End Decoder.

(** ** Notions used in the statements *)

(** An admissible iteration order for [set]: the distinct elements, once each. *)
Definition set_iter_ok (set_iter : list Z -> list Z) : Prop :=
  forall l, set_iter l ≡ₚ remove_dups l.

(** At least two of the three candidates [a], [b], [c] are [v]. *)
Definition two_of_three (v a b c : Z) : Prop :=
  (a = v /\ b = v) \/ (a = v /\ c = v) \/ (b = v /\ c = v).

(** The layout of a frame with the given flags byte, pid and payload. *)
Definition frame_layout (flags pid : Z) (payload : bytes) : bytes :=
  [0xFF; 0xFF; 0xAB; 0xCD]
  ++ py_mul (be_bytes 4 pid ++ [flags]) 3
  ++ py_mul payload 3
  ++ [0xDC; 0xBA; 0xFF; 0xFF]
  ++ replicate (Z.to_nat (256 - 23 - 3 * len payload)) 0xFF.

(** The [i]-th piece of [Packet.data_size] bytes of a source. *)
Definition piece (src : bytes) (i : nat) : bytes :=
  take (Z.to_nat Packet.data_size) (drop (Z.to_nat Packet.data_size * i) src).

(** The number of pieces of a source: [ceil(L / data_size)]. *)
Definition npieces (src : bytes) : nat :=
  ((length src + 76) / 77)%nat.

(** The data packet that [encode] constructs for the [i]-th piece. *)
Definition data_packet (src : bytes) (i : nat) : Packet.t :=
  {| Packet.op_code := 0; Packet.pid := Z.of_nat i; Packet.data := piece src i;
     Packet.nbytes := len (piece src i) |}.

(** The frame that [encode] leaves in the unit of the [i]-th piece: the last
    one is rewritten with op_code 0x7, flags byte 0x70. *)
Definition unit_of (src : bytes) (i : nat) : bytes :=
  frame_layout (if decide (S i = npieces src) then 0x70 else 0) (Z.of_nat i)
    (piece src i).

(** The end word does not occur in the repeated payload, nor across its
    border with the footer. *)
Definition end_free (payload : bytes) : Prop :=
  find (py_mul payload 3 ++ [0xDC]) [0xDC; 0xBA] = -1.

(** What the bulk pass puts in the scaffold for a pid: the decoded
    information field of its unit, or the placeholder when the unit is absent. *)
Definition slot_text (set_iter : list Z -> list Z) (us : gmap Z bytes) (pid : Z)
  : res pystr :=
  match us !! pid with
  | Some packet_data =>
      Decoder.information_of set_iter packet_data ≫= utf8_decode
  | None => Ok Decoder.placeholder
  end.

(** The pids below [stop] whose unit is absent, in increasing order. *)
Definition absent_below (us : gmap Z bytes) (stop : nat) : list Z :=
  filter (fun p => us !! p = None) (seqZ 0 (Z.of_nat stop)).

(** A piece that the decoder can take: valid UTF-8, free of the end word. *)
Definition piece_ok (c : bytes) : Prop :=
  (exists s, utf8_decode c = Ok s) /\ end_free c.

(** The code of a decimal digit. *)
Definition is_digit_code (c : Z) : Prop := 48 <= c <= 57.

(** A character of a base name that the metadata text carries through:
    ASCII and not the separating space. *)
Definition is_name_code (c : Z) : Prop := 0 <= c < 128 /\ c <> 32.

(** The text of the [i]-th piece, when the piece is valid UTF-8. *)
Definition piece_text (src : bytes) (i : nat) : pystr :=
  match utf8_decode (piece src i) with
  | Ok s => s
  | Raise _ => []
  end.

(** The text of the metadata packet: base name, packet count, size. *)
Definition metadata (name : pystr) (count size : Z) : pystr :=
  join (lit " ") [name; py_str count; py_str size].

(** The end word does not occur in the four bytes of a pid. *)
Definition pid_end_free (pid : Z) : Prop :=
  find (be_bytes 4 pid) [0xDC; 0xBA] = -1.

(** The unsigned big-endian value of a byte string. *)
Definition be_value (b : bytes) : Z :=
  fold_left (fun acc x => acc * 256 + x) b 0.

(** A computation that leaves the packet store as it finds it, whatever its
    result: the data units, the metadata unit and the class state of
    [Packet]. *)
Definition keeps_units {A} (m : M A) : Prop :=
  forall w, units (fs (m w).2) = units (fs w)
            /\ init_qp (fs (m w).2) = init_qp (fs w)
            /\ cls (m w).2 = cls w.

(** * Properties *)

(** ** The error monad and Python sequences *)

Lemma len_nonneg {A} (l : list A) : 0 <= len l.
Proof. unfold len. lia. Qed.

Lemma len_app {A} (l1 l2 : list A) : len (l1 ++ l2) = len l1 + len l2.
Proof. unfold len. rewrite length_app. lia. Qed.

Lemma py_index_lookup {A} (l : list A) (i : nat) (x : A) :
  l !! i = Some x -> py_index l (Z.of_nat i) = Ok x.
Proof.
  intros H. unfold py_index.
  destruct (Z.of_nat i <? 0) eqn:E; [apply Z.ltb_lt in E; lia|].
  rewrite E, Nat2Z.id, H. reflexivity.
Qed.

Lemma for_range_collect (f : Z -> Z) (body : bytes -> Z -> res bytes) (idxs : list Z) :
  forall acc,
    (forall a i, i ∈ idxs -> body a i = Ok (a ++ [f i])) ->
    for_range body acc idxs = Ok (acc ++ (f <$> idxs)).
Proof.
  induction idxs as [|i tl IH]; intros acc Hb; simpl.
  - by rewrite app_nil_r.
  - rewrite Hb by set_solver. simpl. unfold mbind, res_bind.
    rewrite IH by (intros; apply Hb; set_solver).
    by rewrite <- app_assoc.
Qed.

(** ** Majority vote *)

Lemma max_from_unique (key : Z -> nat) (v : Z) (l : list Z) :
  forall best,
    (forall x, x ∈ best :: l -> x = v \/ (key x < key v)%nat) ->
    v ∈ best :: l ->
    max_from key best l = v.
Proof.
  induction l as [|x tl IH]; intros best Hlt Hin; simpl.
  - by apply list_elem_of_singleton in Hin.
  - apply IH.
    + intros y Hy. apply Hlt.
      apply elem_of_cons in Hy as [->|Hy]; [|set_solver].
      destruct (key best <? key x)%nat; set_solver.
    + destruct (Hlt best) as [Hb|Hb]; [set_solver| |].
      * destruct (Hlt x) as [Hx|Hx]; [set_solver| |].
        -- destruct (key best <? key x)%nat; set_solver.
        -- subst best. destruct (Nat.ltb_spec (key v) (key x)); [lia|set_solver].
      * apply elem_of_cons in Hin as [->|Hin]; [lia|].
        apply elem_of_cons in Hin as [->|Hin].
        -- destruct (Nat.ltb_spec (key best) (key x)); [set_solver|lia].
        -- destruct (key best <? key x)%nat; set_solver.
Qed.

Lemma py_count_vote (v a b c y : Z) :
  two_of_three v a b c -> y ∈ [a; b; c] -> y = v \/ (py_count [a; b; c] y < py_count [a; b; c] v)%nat.
Proof.
  intros Hv Hy. destruct (decide (y = v)) as [|Hne]; [by left|right].
  unfold py_count. rewrite !filter_cons, !filter_nil.
  destruct Hv as [[-> ->]|[[-> ->]|[-> ->]]];
    repeat (case_decide; subst; simpl); try lia; try congruence; set_solver.
Qed.

Lemma vote_majority (set_iter : list Z -> list Z) (v a b c : Z) :
  set_iter_ok set_iter ->
  two_of_three v a b c ->
  py_max_key (py_count [a; b; c]) (set_iter [a; b; c]) = Ok v.
Proof.
  intros Hs Hv.
  assert (Hin : forall x, x ∈ set_iter [a; b; c] <-> x ∈ [a; b; c]).
  { intros x. rewrite (Hs [a; b; c]). apply elem_of_remove_dups. }
  assert (Hvin : v ∈ set_iter [a; b; c]).
  { apply Hin. destruct Hv as [[-> _]|[[-> _]|[-> _]]]; set_solver. }
  destruct (set_iter [a; b; c]) as [|x tl] eqn:E; [by apply elem_of_nil in Hvin|].
  simpl. f_equal. apply max_from_unique; [|done].
  intros y Hy. apply py_count_vote; [done|]. by apply Hin.
Qed.

Lemma map_lookup_seqZ (d : Z) (l : list Z) :
  (fun i => default d (l !! Z.to_nat i)) <$> seqZ 0 (len l) = l.
Proof.
  apply list_eq. intros i. unfold len.
  rewrite list_lookup_fmap.
  destruct (l !! i) as [x|] eqn:E.
  - rewrite (lookup_seqZ_lt _ _ i) by (apply lookup_lt_Some in E; lia).
    simpl. rewrite Z.add_0_l, Nat2Z.id, E. done.
  - rewrite lookup_seqZ_ge; [done|]. apply lookup_ge_None in E. lia.
Qed.

(** The vote returns [orig] as soon as, at every position, two of the three
    candidates are the byte of [orig]. *)
Lemma resolveExpansion_two_of_three (set_iter : list Z -> list Z) (orig run : bytes) :
  set_iter_ok set_iter ->
  length run = (3 * length orig)%nat ->
  (forall i v, orig !! i = Some v ->
     exists a b c, run !! i = Some a /\ run !! (i + length orig)%nat = Some b
       /\ run !! (i + 2 * length orig)%nat = Some c /\ two_of_three v a b c) ->
  Decoder.resolveExpansion set_iter run None = Ok orig.
Proof.
  intros Hs Hlen Hvote. unfold Decoder.resolveExpansion.
  assert (Hk : len run / 3 = len orig).
  { unfold len. rewrite Hlen, Nat2Z.inj_mul. simpl (Z.of_nat 3).
    rewrite Z.mul_comm. by apply Z.div_mul. }
  rewrite Hk. unfold range.
  rewrite (for_range_collect (fun i => default 0 (orig !! Z.to_nat i))).
  - simpl. by rewrite map_lookup_seqZ.
  - intros acc i Hi. apply elem_of_seqZ in Hi. unfold len in Hi.
    destruct (orig !! Z.to_nat i) as [v|] eqn:E;
      [|apply lookup_ge_None in E; lia].
    destruct (Hvote _ _ E) as (a & b & c & Ha & Hb & Hc & Hv).
    replace i with (Z.of_nat (Z.to_nat i)) at 1 by lia.
    rewrite (py_index_lookup _ _ _ Ha). simpl.
    replace (i + len orig) with (Z.of_nat (Z.to_nat i + length orig)) by (unfold len; lia).
    rewrite (py_index_lookup _ _ _ Hb). simpl.
    replace (i + len orig * 2) with (Z.of_nat (Z.to_nat i + 2 * length orig))
      by (unfold len; lia).
    rewrite (py_index_lookup _ _ _ Hc). simpl.
    rewrite (vote_majority _ _ _ _ _ Hs Hv). reflexivity.
Qed.

Lemma remove_dups_ok : set_iter_ok remove_dups.
Proof. intros l. reflexivity. Qed.

Lemma lookup_py_mul_3 (d : bytes) (i : nat) (v : Z) :
  d !! i = Some v ->
  py_mul d 3 !! i = Some v /\ py_mul d 3 !! (i + length d)%nat = Some v
  /\ py_mul d 3 !! (i + 2 * length d)%nat = Some v.
Proof.
  intros H. unfold py_mul. simpl. rewrite app_nil_r.
  pose proof (lookup_lt_Some _ _ _ H) as Hlt.
  split; [by rewrite lookup_app_l|].
  split.
  - rewrite lookup_app_r by lia. rewrite lookup_app_l by lia.
    rewrite <- H. f_equal. lia.
  - rewrite lookup_app_r by lia. rewrite lookup_app_r by lia.
    rewrite <- H. f_equal. lia.
Qed.

Lemma length_py_mul_3 {A} (d : list A) : length (py_mul d 3) = (3 * length d)%nat.
Proof. unfold py_mul. simpl. rewrite !length_app. simpl. lia. Qed.

Lemma resolveExpansion_py_mul_3 (set_iter : list Z -> list Z) (d : bytes) :
  set_iter_ok set_iter ->
  Decoder.resolveExpansion set_iter (py_mul d 3) None = Ok d.
Proof.
  intros Hs. apply resolveExpansion_two_of_three; [done|apply length_py_mul_3|].
  intros i v Hi. destruct (lookup_py_mul_3 _ _ _ Hi) as (Ha & Hb & Hc).
  exists v, v, v. repeat split; try done. left. done.
Qed.

(** C5. On three identical copies of a byte run [d] (what [Packet.buildData]
    makes of a payload), [resolveExpansion] returns exactly [d]; this holds
    for every length of [d], the lengths k > 0 of the claim included, and for
    every iteration order of the set of candidates. *)
Theorem C5_resolveExpansion_three_copies (set_iter : list Z -> list Z) (d : bytes) :
  set_iter_ok set_iter ->
  Decoder.resolveExpansion set_iter (py_mul d 3) None = Ok d.
Proof. apply resolveExpansion_py_mul_3. Qed.

Lemma C5_witness :
  Decoder.resolveExpansion remove_dups (py_mul [104; 105; 33] 3) None = Ok [104; 105; 33].
Proof. apply (C5_resolveExpansion_three_copies remove_dups [104; 105; 33]). intros l. reflexivity. Defined.

(** C6. Let [run] have length 3k and let [orig] have length k > 0.  If at
    every position i < k at least two of the three candidates [run[i]],
    [run[i+k]], [run[i+2k]] are the byte [orig[i]] (at most one copy differs
    there), then [resolveExpansion] returns [orig]: the 2-of-3 majority value
    at every output position. *)
Theorem C6_resolveExpansion_one_copy_corrupted (set_iter : list Z -> list Z)
    (orig run : bytes) :
  set_iter_ok set_iter ->
  (0 < length orig)%nat ->
  length run = (3 * length orig)%nat ->
  (forall i v, orig !! i = Some v ->
     exists a b c, run !! i = Some a /\ run !! (i + length orig)%nat = Some b
       /\ run !! (i + 2 * length orig)%nat = Some c /\ two_of_three v a b c) ->
  Decoder.resolveExpansion set_iter run None = Ok orig.
Proof. intros Hs _. by apply resolveExpansion_two_of_three. Qed.

Lemma C6_witness :
  Decoder.resolveExpansion remove_dups [7; 50; 9; 40; 8; 9; 7; 8; 60] None = Ok [7; 8; 9].
Proof.
  apply (C6_resolveExpansion_one_copy_corrupted remove_dups [7; 8; 9]
           [7; 50; 9; 40; 8; 9; 7; 8; 60]).
  - intros l. reflexivity.
  - simpl. lia.
  - reflexivity.
  - intros [|[|[|i]]] v Hv; simpl in Hv; inversion Hv; subst; simpl.
    + exists 7, 40, 7. unfold two_of_three. tauto.
    + exists 50, 8, 8. unfold two_of_three. tauto.
    + exists 9, 9, 60. unfold two_of_three. tauto.
Defined.

(** ** The constructor of Packet *)

Lemma init_negative_pid (st : Packet.pstate) (data : Packet.arg) (pid : Z)
    (kw : option Z) :
  pid < 0 -> Packet.init st data pid kw = Raise ValueError_pid_invalid.
Proof.
  intros H. unfold Packet.init.
  destruct (Z.ltb_spec pid 0); [done|lia].
Qed.

Lemma init_too_large (st : Packet.pstate) (data : Packet.arg) (b : bytes) (pid : Z)
    (kw : option Z) :
  0 <= pid -> Packet.to_bytearray data = Ok b -> Packet.data_size < len b ->
  Packet.init st data pid kw = Raise ValueError_too_large.
Proof.
  intros Hp Hb Hl. unfold Packet.init.
  destruct (Z.ltb_spec pid 0); [lia|]. rewrite Hb. simpl.
  destruct (Z.leb_spec (len b) Packet.data_size); [lia|done].
Qed.

Lemma init_terminal_out_of_order (st : Packet.pstate) (data : Packet.arg) (b : bytes)
    (pid : Z) :
  0 <= pid -> Packet.to_bytearray data = Ok b -> len b <= Packet.data_size ->
  pid <> Packet.last_id st + 1 ->
  Packet.init st data pid (Some 7) = Raise ValueError_pid_out_of_order.
Proof.
  intros Hp Hb Hl Hne. unfold Packet.init.
  destruct (Z.ltb_spec pid 0); [lia|]. rewrite Hb. simpl.
  destruct (Z.leb_spec (len b) Packet.data_size); [|lia].
  destruct (Z.eqb_spec (Packet.last_id st + 1) pid); [congruence|done].
Qed.

(** What a successful construction returns and leaves in the class state. *)
Lemma init_inv (st st' : Packet.pstate) (data : Packet.arg) (pid : Z) (kw : option Z)
    (p : Packet.t) :
  Packet.init st data pid kw = Ok (p, st') ->
  let op := match kw with Some c => c | None => 0 end in
  0 <= pid /\ Packet.op_code p = op /\ 0 <= op <= 7
  /\ Packet.to_bytearray data = Ok (Packet.data p)
  /\ len (Packet.data p) <= Packet.data_size
  /\ (op = 0 \/ op = 7 ->
        Packet.last_id st' = pid /\ Packet.pid p = pid mod Packet.max_id)
  /\ (op = 7 -> pid = Packet.last_id st + 1)
  /\ (1 <= op <= 6 -> Packet.last_id st' = Packet.last_id st /\ Packet.pid p = 0)
  /\ (pid <= Packet.max_id -> Packet.overflow st' = Packet.overflow st).
Proof.
  intros H op. unfold Packet.init in H.
  destruct (Z.ltb_spec pid 0); [done|].
  destruct (Packet.to_bytearray data) as [b|] eqn:Eb; [|done]. simpl in H.
  destruct (Z.leb_spec (len b) Packet.data_size); [|done].
  fold op in H.
  destruct (Z.eqb_spec op 0) as [E0|E0]; simpl in H.
  - destruct (Z.gtb_spec pid Packet.max_id); inversion H; subst; simpl;
      repeat split; try done; try lia.
  - destruct (Z.eqb_spec op 7) as [E7|E7]; simpl in H.
    + destruct (Z.eqb_spec (Packet.last_id st + 1) pid); simpl in H.
      * destruct (Z.gtb_spec pid Packet.max_id); inversion H; subst; simpl;
          repeat split; try done; try lia.
      * rewrite E7 in H. simpl in H. done.
    + destruct (Z.gtb_spec op 0); simpl in H; [|done].
      destruct (Z.ltb_spec op 7); simpl in H; [|done].
      destruct (Z.gtb_spec pid Packet.max_id); inversion H; subst; simpl;
        repeat split; try done; try lia.
Qed.

(** A data packet (op_code 0x0) is accepted whatever its pid: the test of
    the pid is attached to op_code 0x7 alone. *)
Lemma init_data_packet (st : Packet.pstate) (b : bytes) (pid : Z) :
  0 <= pid <= Packet.max_id -> len b <= Packet.data_size ->
  Packet.init st (Packet.DBytes b) pid None
  = Ok ({| Packet.op_code := 0; Packet.pid := pid mod Packet.max_id;
           Packet.data := b; Packet.nbytes := len b |},
        {| Packet.last_id := pid; Packet.overflow := Packet.overflow st |}).
Proof.
  intros Hp Hl. unfold Packet.init.
  destruct (Z.ltb_spec pid 0); [lia|]. simpl.
  destruct (Z.leb_spec (len b) Packet.data_size); [|lia]. simpl.
  destruct (Z.gtb_spec pid Packet.max_id); [lia|done].
Qed.

(** C3. The claim fails on the code for op_code 0x0: in a fresh process
    (last pid -1) the constructor accepts a data packet with pid 5, which
    is not the previous pid plus one, returns the packet and moves the last
    pid to 5.  (The other parts of the claim hold: see [init_negative_pid],
    [init_too_large] and, for op_code 0x7, [init_terminal_out_of_order].) *)
Theorem C3_data_packet_accepted_out_of_order :
  Packet.init Packet.initial (Packet.DBytes [97]) 5 None
  = Ok ({| Packet.op_code := 0; Packet.pid := 5; Packet.data := [97];
           Packet.nbytes := 1 |},
        {| Packet.last_id := 5; Packet.overflow := PInt 0 |}).
Proof. reflexivity. Qed.



(** ** The serialized frame *)

Lemma pad_replicate (fuel : nat) :
  forall packet,
    len packet <= Packet.max_size ->
    (Z.to_nat (Packet.max_size - len packet) <= fuel)%nat ->
    Packet.pad fuel packet
    = packet ++ replicate (Z.to_nat (Packet.max_size - len packet)) 0xFF.
Proof.
  induction fuel as [|fuel IH]; intros packet Hle Hfuel; simpl.
  - replace (Z.to_nat (Packet.max_size - len packet)) with 0%nat by lia.
    by rewrite app_nil_r.
  - destruct (Z.ltb_spec (len packet) Packet.max_size) as [Hlt|Hge].
    + rewrite IH; rewrite ?len_app; unfold len in *; simpl; try lia.
      rewrite <- app_assoc. f_equal. simpl.
      replace (Z.to_nat (Packet.max_size - Z.of_nat (length packet)))
        with (S (Z.to_nat (Packet.max_size - (Z.of_nat (length packet) + 1)))) by lia.
      reflexivity.
    + replace (Z.to_nat (Packet.max_size - len packet)) with 0%nat by lia.
      by rewrite app_nil_r.
Qed.

Lemma length_be_bytes (n : nat) : forall x, length (be_bytes n x) = n.
Proof.
  induction n as [|n IH]; intros x; simpl; [done|].
  rewrite length_app, IH. simpl. lia.
Qed.

Lemma to_bytes_ok (x : Z) (n : nat) :
  0 <= x < 256 ^ Z.of_nat n -> to_bytes x n = Ok (be_bytes n x).
Proof.
  intros H. unfold to_bytes.
  destruct (Z.ltb_spec x 0); [lia|].
  destruct (Z.leb_spec (256 ^ Z.of_nat n) x); [lia|done].
Qed.

(** With the overflow attribute still the int 0, [build] returns the frame
    of the layout, whose flags byte is the op_code shifted to bits 6-4. *)
Lemma build_layout (st : Packet.pstate) (p : Packet.t) :
  Packet.overflow st = PInt 0 ->
  0 <= Packet.pid p < 2 ^ 32 ->
  0 <= Packet.op_code p <= 7 ->
  len (Packet.data p) <= Packet.data_size ->
  Packet.build st p
  = Ok (frame_layout (Packet.op_code p * 16) (Packet.pid p) (Packet.data p)).
Proof.
  intros Hov Hpid Hop Hlen.
  unfold Packet.build, Packet.buildHeader, Packet.buildFooter, Packet.buildData.
  rewrite Hov. simpl py_lshift.
  rewrite (to_bytes_ok Packet.sync 2) by (unfold Packet.sync; simpl; lia).
  rewrite (to_bytes_ok Packet.start 2) by (unfold Packet.start; simpl; lia).
  rewrite (to_bytes_ok Packet.end_ 2) by (unfold Packet.end_; simpl; lia).
  rewrite (to_bytes_ok (Packet.pid p) 4) by (simpl; lia).
  cbn [mbind res_bind].
  rewrite Z.shiftl_0_l, Z.lor_0_l, Z.shiftl_mul_pow2 by lia.
  change (2 ^ 4) with 16.
  rewrite (to_bytes_ok (Packet.op_code p * 16) 1) by (simpl; lia).
  cbn [mbind res_bind]. f_equal. unfold frame_layout.
  change (be_bytes 1 (Packet.op_code p * 16))
    with ([] ++ [(Packet.op_code p * 16) mod 256]).
  rewrite Z.mod_small by lia.
  change (be_bytes 2 Packet.sync) with [255; 255].
  change (be_bytes 2 Packet.start) with [171; 205].
  change (be_bytes 2 Packet.end_) with [220; 186].
  pose proof (length_be_bytes 4 (Packet.pid p)) as Hh.
  generalize dependent (be_bytes 4 (Packet.pid p)). intros hdr Hh.
  set (flags := Packet.op_code p * 16).
  match goal with
  | |- Packet.pad _ ?x = _ =>
      assert (Htot : len x = 23 + 3 * len (Packet.data p))
  end.
  { unfold len. rewrite !length_app, !length_py_mul_3, !length_app, Hh.
    simpl. lia. }
  rewrite pad_replicate.
  - rewrite Htot. rewrite <- !app_assoc.
    replace (Packet.max_size - (23 + 3 * len (Packet.data p)))
      with (256 - 23 - 3 * len (Packet.data p)) by (unfold Packet.max_size; lia).
    reflexivity.
  - rewrite Htot. unfold Packet.max_size, Packet.data_size in *. lia.
  - rewrite Htot. pose proof (len_nonneg (Packet.data p)).
    unfold Packet.max_size, Packet.data_size in *. lia.
Qed.

Lemma length_frame_layout (flags pid : Z) (payload : bytes) :
  len payload <= Packet.data_size ->
  length (frame_layout flags pid payload) = 256%nat.
Proof.
  intros H. unfold frame_layout.
  rewrite !length_app, !length_py_mul_3, length_app, length_be_bytes, length_replicate.
  unfold len, Packet.data_size in *. simpl. lia.
Qed.

(** ** The overflow attribute *)

(** Below [max_id] the constructor leaves the overflow attribute alone: in a
    process that never saw a larger pid it is the int 0 of the class body,
    and the flags byte of every frame carries overflow bit 0. *)
Lemma overflow_kept_up_to_max_id (st st' : Packet.pstate) (data : Packet.arg)
    (pid : Z) (kw : option Z) (p : Packet.t) :
  Packet.init st data pid kw = Ok (p, st') -> pid <= Packet.max_id ->
  Packet.overflow st' = Packet.overflow st.
Proof. intros H Hp. apply init_inv in H. tauto. Qed.

(** Above [max_id] the attribute becomes a float, whatever it was. *)
Lemma overflow_float_above_max_id (st st' : Packet.pstate) (data : Packet.arg)
    (pid : Z) (kw : option Z) (p : Packet.t) :
  Packet.init st data pid kw = Ok (p, st') -> Packet.max_id < pid ->
  exists q, Packet.overflow st' = PFloat q.
Proof.
  intros H Hp. unfold Packet.init in H.
  destruct (pid <? 0); [done|].
  destruct (Packet.to_bytearray data) as [b|]; [|done]. simpl in H.
  destruct (len b <=? Packet.data_size); [|done].
  destruct (Z.gtb_spec pid Packet.max_id); [|lia].
  match type of H with
  | context [if ?c then _ else _] => destruct c
  end; simpl in H; [inversion H; subst; simpl; eauto|].
  match type of H with
  | context [if ?c then _ else _] => destruct c
  end; simpl in H; [inversion H; subst; simpl; eauto|done].
Qed.

(** [build] needs the attribute to be an int: the shift of a float is a
    [TypeError]. *)
Lemma build_raises_on_float (st : Packet.pstate) (p : Packet.t) (q : Q) :
  Packet.overflow st = PFloat q -> 0 <= Packet.pid p < 2 ^ 32 ->
  Packet.build st p = Raise TypeError.
Proof.
  intros Hov Hpid. unfold Packet.build, Packet.buildHeader. rewrite Hov.
  rewrite (to_bytes_ok (Packet.pid p) 4) by (simpl; lia). reflexivity.
Qed.

(** C8. The claim fails on the code: constructing the data packet with pid
    2^32 (the first pid above [max_id]) in a fresh process leaves in the
    overflow attribute the float 4294967295/4294967296, not the bit 1, and
    [build] then raises [TypeError] instead of producing a flags byte.  (For
    pids up to [max_id] the attribute stays 0: [overflow_kept_up_to_max_id].) *)
Theorem C8_overflow_attribute_is_not_a_bit :
  exists p st,
    Packet.init Packet.initial (Packet.DBytes [97]) (2 ^ 32) None = Ok (p, st)
    /\ Packet.overflow st = PFloat (4294967295 # 4294967296)
    /\ Packet.build st p = Raise TypeError.
Proof. eexists _, _. repeat split; reflexivity. Qed.

(** C7. The claim fails on the code once a pid above [max_id] has been
    used: the packet with pid 2^32 and a one-byte payload is constructed,
    yet [build] returns no frame for it, nor for the next packet of the
    sequence.  (With the overflow attribute still 0, [build] returns the 256
    bytes of the layout, padded with 0xFF: [build_layout] and
    [length_frame_layout].) *)
Theorem C7_build_raises_after_a_pid_above_max_id :
  exists p1 st1 p2 st2,
    Packet.init Packet.initial (Packet.DBytes [97]) (2 ^ 32) None = Ok (p1, st1)
    /\ Packet.build st1 p1 = Raise TypeError
    /\ Packet.init st1 (Packet.DBytes [98]) (2 ^ 32 + 1) None = Ok (p2, st2)
    /\ Packet.build st2 p2 = Raise TypeError.
Proof. eexists _, _, _, _. repeat split; reflexivity. Qed.

(** ** Reading a frame back *)

Lemma end_word_value : Decoder.end_word = Ok [220; 186].
Proof. reflexivity. Qed.

Lemma unpack_be_bytes (n : nat) :
  forall x, fold_left (fun acc b => acc * 256 + b) (be_bytes n x) 0
            = x mod 256 ^ Z.of_nat n.
Proof.
  induction n as [|n IH]; intros x.
  - simpl. by rewrite Z.mod_1_r.
  - cbn [be_bytes]. rewrite fold_left_app, IH. cbn [fold_left].
    rewrite Nat2Z.inj_succ, Z.pow_succ_r by lia.
    rewrite (Z.rem_mul_r x 256 (256 ^ Z.of_nat n)) by lia. lia.
Qed.

(** [l[len a : len a + len b]] of [a ++ b ++ c] is [b]. *)
Lemma py_slice_middle {A} (a b c : list A) :
  py_slice (a ++ b ++ c) (len a) (len a + len b) = b.
Proof.
  unfold py_slice. pose proof (len_nonneg a). pose proof (len_nonneg b).
  pose proof (len_nonneg c).
  destruct (Z.ltb_spec (len a) 0); [lia|].
  destruct (Z.ltb_spec (len a + len b) 0); [lia|].
  rewrite !len_app.
  rewrite (Z.min_l (len a)), (Z.min_l (len a + len b)) by lia.
  replace (len a + len b - len a) with (len b) by lia.
  unfold len. rewrite !Nat2Z.id.
  rewrite drop_app_length, take_app_length. done.
Qed.

(** The first end word of [l ++ x :: y :: r] is the one shown, if [x y] does
    not occur in [l ++ [x]]. *)
Lemma find_from_first (x y : Z) (r : bytes) (l : bytes) :
  forall i, 0 <= i ->
    find_from [x; y] (l ++ [x]) i = -1 ->
    find_from [x; y] (l ++ x :: y :: r) i = i + len l.
Proof.
  induction l as [|a l IH]; intros i Hi H.
  - simpl. rewrite !Z.eqb_refl. simpl. unfold len. simpl. lia.
  - assert (E : starts_with [x; y] ((a :: l) ++ x :: y :: r)
                = starts_with [x; y] ((a :: l) ++ [x])).
    { destruct l as [|b l]; reflexivity. }
    cbn [find_from app] in *. cbn [app] in E. rewrite E.
    destruct (starts_with [x; y] (a :: l ++ [x])); [lia|].
    rewrite IH; [|lia|done]. unfold len. simpl length. lia.
Qed.

Lemma find_from_none_shift (sub hay : bytes) :
  forall i j, 0 <= i -> 0 <= j ->
    find_from sub hay i = -1 -> find_from sub hay j = -1.
Proof.
  induction hay as [|a hay IH]; intros i j Hi Hj; simpl.
  - destruct (starts_with sub []); lia.
  - destruct (starts_with sub (a :: hay)); [lia|].
    apply IH; lia.
Qed.

(** The first end word of a frame is the one of its footer, provided the
    pid bytes and the payload are free of it; the flags byte of a frame
    built by [Packet.build] is a multiple of 16 below 128, never 0xDC or 0xBA. *)
Lemma find_frame_layout (flags pid : Z) (payload : bytes) :
  flags <> 220 -> flags <> 186 ->
  pid_end_free pid -> end_free payload ->
  find (frame_layout flags pid payload) [220; 186] = 19 + 3 * len payload.
Proof.
  intros Hf1 Hf2 Hp Hd. unfold pid_end_free in Hp. unfold end_free in Hd.
  unfold frame_layout.
  pose proof (length_be_bytes 4 pid) as Hh.
  destruct (be_bytes 4 pid) as [|p0 [|p1 [|p2 [|p3 [|? ?]]]]]; try done.
  unfold find in *. cbn [find_from starts_with] in Hp.
  rewrite !andb_true_r in Hp.
  destruct ((220 =? p0) && (186 =? p1)) eqn:E0; [done|].
  destruct ((220 =? p1) && (186 =? p2)) eqn:E1; [done|].
  destruct ((220 =? p2) && (186 =? p3)) eqn:E2; [done|].
  apply Z.eqb_neq in Hf1, Hf2.
  rewrite Z.eqb_sym in Hf1. rewrite Z.eqb_sym in Hf2.
  change (py_mul ([p0; p1; p2; p3] ++ [flags]) 3)
    with [p0; p1; p2; p3; flags; p0; p1; p2; p3; flags; p0; p1; p2; p3; flags].
  cbn [app find_from starts_with]. rewrite !andb_true_r.
  rewrite E0, E1, E2, Hf1, Hf2. rewrite ?andb_false_r. cbn [andb Z.eqb Pos.eqb].
  set (pad := replicate _ 255).
  rewrite find_from_first; [|lia|by apply (find_from_none_shift _ _ 0)].
  unfold len. rewrite length_py_mul_3. lia.
Qed.

Lemma frame_layout_split (flags pid : Z) (payload : bytes) :
  frame_layout flags pid payload
  = ([255; 255; 171; 205] ++ py_mul (be_bytes 4 pid ++ [flags]) 3)
    ++ py_mul payload 3
    ++ ([220; 186; 255; 255]
        ++ replicate (Z.to_nat (256 - 23 - 3 * len payload)) 255).
Proof. unfold frame_layout. by rewrite <- !app_assoc. Qed.

Lemma information_of_frame_layout (set_iter : list Z -> list Z) (flags pid : Z)
    (payload : bytes) :
  set_iter_ok set_iter ->
  flags <> 220 -> flags <> 186 -> pid_end_free pid -> end_free payload ->
  Decoder.information_of set_iter (frame_layout flags pid payload) = Ok payload.
Proof.
  intros Hs Hf1 Hf2 Hp Hd. unfold Decoder.information_of.
  rewrite end_word_value. cbn [mbind res_bind].
  rewrite find_frame_layout by done.
  rewrite frame_layout_split.
  assert (Hh : len ([255; 255; 171; 205] ++ py_mul (be_bytes 4 pid ++ [flags]) 3) = 19).
  { unfold len. rewrite length_app, length_py_mul_3, length_app, length_be_bytes.
    reflexivity. }
  assert (Hl : 3 * len payload = len (py_mul payload 3)).
  { unfold len. rewrite length_py_mul_3. lia. }
  rewrite <- Hh at 1 2. rewrite Hl, py_slice_middle.
  by apply resolveExpansion_py_mul_3.
Qed.

Lemma py_slice_prefix {A} (a b : list A) :
  py_slice (a ++ b) 0 (len a) = a.
Proof.
  change (a ++ b) with ([] ++ a ++ b).
  change 0 with (len (@nil A)) at 1.
  replace (len a) with (len (@nil A) + len a) by (unfold len; simpl; lia).
  apply py_slice_middle.
Qed.

Lemma header_of_frame_layout (set_iter : list Z -> list Z) (op pid : Z)
    (payload : bytes) :
  set_iter_ok set_iter ->
  0 <= pid < 2 ^ 32 -> 0 <= op <= 7 ->
  Decoder.resolveExpansion set_iter (py_slice (frame_layout (op * 16) pid payload) 4 19) None
    ≫= Decoder.decipherHeader
  = Ok {| Decoder.h_pid := pid; Decoder.h_overflow := 0; Decoder.h_op_code := op |}.
Proof.
  intros Hs Hpid Hop. unfold frame_layout.
  set (tail := be_bytes 4 pid ++ [op * 16]).
  assert (Ht : len (py_mul tail 3) = 15).
  { unfold len, tail. by rewrite length_py_mul_3, length_app, length_be_bytes. }
  change 4 with (len [255; 255; 171; 205]) at 1.
  replace 19 with (len [255; 255; 171; 205] + len (py_mul tail 3))
    by (rewrite Ht; reflexivity).
  rewrite py_slice_middle, resolveExpansion_py_mul_3 by done.
  cbn [mbind res_bind]. unfold Decoder.decipherHeader, tail.
  replace 4 with (len (be_bytes 4 pid)) at 1
    by (unfold len; by rewrite length_be_bytes).
  rewrite py_slice_prefix. unfold unpack_L.
  rewrite length_be_bytes, unpack_be_bytes. cbn [Nat.eqb mbind res_bind].
  assert (Hi : py_index (be_bytes 4 pid ++ [op * 16]) 4 = Ok (op * 16)).
  { apply (py_index_lookup _ 4%nat).
    rewrite lookup_app_r; rewrite length_be_bytes; done. }
  rewrite Hi. cbn [mbind res_bind]. f_equal.
  rewrite Z.mod_small by (simpl; lia).
  assert (E4 : (op * 16) ≫ 4 = op).
  { rewrite Z.shiftr_div_pow2 by lia. change (2 ^ 4) with 16.
    by rewrite Z.div_mul. }
  assert (E7 : (op * 16) ≫ 7 = 0).
  { rewrite Z.shiftr_div_pow2 by lia. change (2 ^ 7) with 128.
    apply Z.div_small. lia. }
  rewrite E4, E7. f_equal.
  change 7 with (Z.ones 3). rewrite Z.land_ones by lia.
  apply Z.mod_small. simpl. lia.
Qed.

(** A frame of the layout is read back as its payload, pid and op_code. *)
Lemma deserialize_frame_layout (set_iter : list Z -> list Z) (op pid : Z)
    (payload : bytes) :
  set_iter_ok set_iter ->
  0 <= pid < 2 ^ 32 -> 0 <= op <= 7 ->
  pid_end_free pid -> end_free payload ->
  Decoder.deserialize set_iter (frame_layout (op * 16) pid payload)
  = Ok (payload, pid, op).
Proof.
  intros Hs Hpid Hop Hp Hd. unfold Decoder.deserialize.
  pose proof (header_of_frame_layout set_iter op pid payload Hs Hpid Hop) as Hh.
  destruct (Decoder.resolveExpansion set_iter _ None) as [tail|]; [|done].
  cbn [mbind res_bind] in *. rewrite Hh. cbn [mbind res_bind].
  rewrite information_of_frame_layout by (done || lia). reflexivity.
Qed.

(** C2, as amended.  Take a payload of at most 77 bytes and a pid below
    [max_id] such that the end word 0xDCBA occurs neither in the four bytes of
    the pid nor in the repeated payload (its border with the footer
    included), in a process whose overflow attribute is still 0.  Then the
    data packet is constructed, [build] returns a frame, and reading the frame
    back (majority vote over the header tail and [decipherHeader]; majority
    vote over the bytes from offset 19 to the first end word) gives the
    payload, the pid and the op_code 0x0. *)
Theorem C2_serialize_deserialize (set_iter : list Z -> list Z) (st : Packet.pstate)
    (payload : bytes) (pid : Z) :
  set_iter_ok set_iter ->
  Packet.overflow st = PInt 0 ->
  len payload <= Packet.data_size ->
  0 <= pid < Packet.max_id ->
  pid_end_free pid -> end_free payload ->
  exists p st' frame,
    Packet.init st (Packet.DBytes payload) pid None = Ok (p, st')
    /\ Packet.build st' p = Ok frame
    /\ Decoder.deserialize set_iter frame = Ok (payload, pid, 0).
Proof.
  intros Hs Hov Hlen Hpid Hp Hd.
  eexists _, _, _. split; [apply init_data_packet; unfold Packet.max_id in *; lia|].
  rewrite Z.mod_small by done.
  split.
  - apply build_layout; simpl; try done; unfold Packet.max_id in *; lia.
  - simpl. apply deserialize_frame_layout; try done;
      unfold Packet.max_id in *; lia.
Qed.

Lemma C2_witness :
  exists p st' frame,
    Packet.init Packet.initial (Packet.DBytes [104; 105]) 0 None = Ok (p, st')
    /\ Packet.build st' p = Ok frame
    /\ Decoder.deserialize remove_dups frame = Ok ([104; 105], 0, 0).
Proof.
  apply (C2_serialize_deserialize remove_dups Packet.initial [104; 105] 0).
  - intros l. reflexivity.
  - reflexivity.
  - vm_compute. discriminate.
  - vm_compute. split; [discriminate|reflexivity].
  - reflexivity.
  - reflexivity.
Defined.

(** C2, counterexample: the payload made of the two bytes of the end word,
    with pid 0 in a fresh process.  The frame is built, but the first end
    word in it is the payload itself, and the payload read back is empty. *)
Lemma C2_counterexample :
  exists p st frame,
    Packet.init Packet.initial (Packet.DBytes [0xDC; 0xBA]) 0 None = Ok (p, st)
    /\ Packet.build st p = Ok frame
    /\ Decoder.deserialize remove_dups frame = Ok ([], 0, 0)
    /\ [] <> [0xDC; 0xBA].
Proof. eexists _, _, _. repeat split; try reflexivity. discriminate. Qed.

(** ** Encoding *)

Lemma bind_ok {A B} (m : M A) (f : A -> M B) (w w' : world) (a : A) :
  m w = (Ok a, w') -> (m ≫= f) w = f a w'.
Proof. intros H. unfold mbind, M_bind. by rewrite H. Qed.

Lemma bind_raise {A B} (m : M A) (f : A -> M B) (w w' : world) (e : exn) :
  m w = (Raise e, w') -> (m ≫= f) w = (Raise e, w').
Proof. intros H. unfold mbind, M_bind. by rewrite H. Qed.

Lemma try_ok {A} (m h : M A) (c : exn -> bool) (w w' : world) (a : A) :
  m w = (Ok a, w') -> try_except m c h w = (Ok a, w').
Proof. intros H. unfold try_except. by rewrite H. Qed.

Lemma try_pass {A} (m h : M A) (c : exn -> bool) (w w' : world) (e : exn) :
  m w = (Raise e, w') -> c e = false -> try_except m c h w = (Raise e, w').
Proof. intros H Hc. unfold try_except. by rewrite H, Hc. Qed.

Lemma try_catch {A} (m h : M A) (c : exn -> bool) (w w' : world) (e : exn) :
  m w = (Raise e, w') -> c e = true -> try_except m c h w = h w'.
Proof. intros H Hc. unfold try_except. by rewrite H, Hc. Qed.

Lemma read_file_ok (path : pystr) (b : bytes) (w : world) :
  files (fs w) !! path = Some b -> read_file path w = (Ok b, w).
Proof. intros H. unfold read_file. by rewrite H. Qed.

(** C10. For a source of length 0 the first round of the loop reads no
    data and calls [setLastPacket] on [None]: the [AttributeError] passes the
    [except OSError] clauses of [encode] and the [except Warning] of [run].
    Both calls end by this exception, not by returning [False], and the world
    is the one they started in: no data unit and no metadata unit is written. *)
Theorem C10_empty_source_raises (self : Encoder.t) (w : world) :
  files (fs w) !! Encoder.file self = Some [] ->
  Encoder.encode self w = (Raise AttributeError, w)
  /\ Encoder.run self w = (Raise AttributeError, w).
Proof.
  intros H.
  assert (He : Encoder.encode self w = (Raise AttributeError, w)).
  { unfold Encoder.encode. apply try_pass; [|done].
    rewrite (bind_ok _ _ _ _ _ (read_file_ok _ _ _ H)).
    apply bind_raise, try_pass; done. }
  split; [done|].
  unfold Encoder.run. apply try_pass; [|done]. by apply bind_raise.
Qed.

Lemma C10_witness :
  let self := {| Encoder.file := lit "empty.txt"; Encoder.destructive := false;
                 Encoder.packets_built := 0 |} in
  let w := {| cls := Packet.initial;
              fs := {| units := ∅; init_qp := None;
                       files := {[ lit "empty.txt" := [] ]} |} |} in
  Encoder.encode self w = (Raise AttributeError, w)
  /\ Encoder.run self w = (Raise AttributeError, w).
Proof.
  intros self w. apply (C10_empty_source_raises self w). reflexivity.
Defined.

Lemma length_piece (src : bytes) (i : nat) : len (piece src i) <= Packet.data_size.
Proof.
  unfold piece, len, Packet.data_size. rewrite length_take.
  change (Z.to_nat 77) with 77%nat. lia.
Qed.

Lemma drop_pieces (src : bytes) (k : nat) :
  drop (Z.to_nat Packet.data_size) (drop (Z.to_nat Packet.data_size * k) src)
  = drop (Z.to_nat Packet.data_size * S k) src.
Proof. rewrite drop_drop. f_equal. unfold Packet.data_size. lia. Qed.

Lemma npieces_spec (src : bytes) (k : nat) :
  (k < npieces src)%nat <-> (77 * k < length src)%nat.
Proof.
  unfold npieces. split; intros H.
  - destruct (Nat.lt_ge_cases (77 * k) (length src)) as [|Hge]; [done|].
    assert ((length src + 76) / 77 < S k)%nat; [|lia].
    apply Nat.Div0.div_lt_upper_bound. lia.
  - apply Nat.div_le_lower_bound; lia.
Qed.

Lemma new_Packet_data (w : world) (b : bytes) (pid : Z) :
  0 <= pid < Packet.max_id -> len b <= Packet.data_size ->
  new_Packet (Packet.DBytes b) pid None w
  = (Ok {| Packet.op_code := 0; Packet.pid := pid; Packet.data := b;
           Packet.nbytes := len b |},
     {| cls := {| Packet.last_id := pid; Packet.overflow := Packet.overflow (cls w) |};
        fs := fs w |}).
Proof.
  intros Hp Hl. unfold new_Packet.
  rewrite init_data_packet by (done || lia). by rewrite Z.mod_small.
Qed.

Lemma build_ok (w : world) (p : Packet.t) :
  Packet.overflow (cls w) = PInt 0 ->
  0 <= Packet.pid p < 2 ^ 32 -> 0 <= Packet.op_code p <= 7 ->
  len (Packet.data p) <= Packet.data_size ->
  build p w
  = (Ok (frame_layout (Packet.op_code p * 16) (Packet.pid p) (Packet.data p)), w).
Proof. intros. unfold build. by rewrite build_layout. Qed.

Lemma set_units_eq (f : gmap Z bytes -> gmap Z bytes) (w : world) :
  set_units f w
  = (Ok tt, {| cls := cls w;
               fs := {| units := f (units (fs w)); init_qp := init_qp (fs w);
                        files := files (fs w) |} |}).
Proof. reflexivity. Qed.

Lemma setLastPacket_ok (w : world) (p : Packet.t) :
  Packet.overflow (cls w) = PInt 0 ->
  0 <= Packet.pid p < 2 ^ 32 ->
  len (Packet.data p) <= Packet.data_size ->
  Encoder.setLastPacket (Some p) w
  = (Ok tt,
     {| cls := cls w;
        fs := {| units := <[Packet.pid p := frame_layout 0x70 (Packet.pid p) (Packet.data p)]>
                            (units (fs w));
                 init_qp := init_qp (fs w); files := files (fs w) |} |}).
Proof.
  intros Hov Hpid Hlen. unfold Encoder.setLastPacket, mbind, M_bind.
  rewrite set_units_eq. rewrite build_ok; cbn [cls fs Packet.pid Packet.op_code Packet.data];
    try done; try lia.
  rewrite set_units_eq. cbn [cls fs units init_qp files].
  by rewrite insert_insert_eq.
Qed.

(** One round of the loop of [encode] that reads a non-empty piece, followed
    by whatever comes next. *)
Lemma encode_round_ok {A} (next : Packet.t -> M A) (w : world) (b : bytes) (pid : Z) :
  Packet.overflow (cls w) = PInt 0 ->
  0 <= pid < Packet.max_id -> len b <= Packet.data_size ->
  (packetToBuild ← new_Packet (Packet.DBytes b) pid None;
   set_units (<[pid := []]>);;
   frame ← build packetToBuild;
   set_units (<[pid := frame]>);;
   next packetToBuild) w
  = next {| Packet.op_code := 0; Packet.pid := pid; Packet.data := b;
            Packet.nbytes := len b |}
      {| cls := {| Packet.last_id := pid; Packet.overflow := PInt 0 |};
         fs := {| units := <[pid := frame_layout 0 pid b]> (units (fs w));
                  init_qp := init_qp (fs w); files := files (fs w) |} |}.
Proof.
  intros Hov Hpid Hlen. unfold mbind, M_bind.
  rewrite new_Packet_data by done. rewrite set_units_eq.
  rewrite build_ok; cbn [cls fs Packet.pid Packet.op_code Packet.data Packet.overflow];
    try done; try (unfold Packet.max_id in Hpid; lia).
  rewrite set_units_eq. cbn [cls fs units init_qp files].
  rewrite insert_insert_eq, Hov. reflexivity.
Qed.

(** The loop of [encode], from the round that reads piece [k] on: every
    piece from [k] on is written to the unit of its pid, and the last unit is
    rewritten as the terminal packet. *)
Lemma encode_loop_spec (src : bytes) :
  Z.of_nat (npieces src) <= Packet.max_id ->
  (0 < npieces src)%nat ->
  forall fuel k prev w,
    (k <= npieces src)%nat ->
    (length (drop (Z.to_nat Packet.data_size * k) src) < fuel)%nat ->
    Packet.overflow (cls w) = PInt 0 ->
    match k with
    | O => True
    | S j => prev = Some (data_packet src j)
    end ->
    exists w',
      Encoder.encode_loop fuel (drop (Z.to_nat Packet.data_size * k) src)
        (Z.of_nat k - 1) prev w
      = (Ok (Z.of_nat (npieces src)), w')
      /\ Packet.overflow (cls w') = PInt 0
      /\ init_qp (fs w') = init_qp (fs w)
      /\ files (fs w') = files (fs w)
      /\ forall i : Z,
           units (fs w') !! i
           = if decide (Z.of_nat k <= i < Z.of_nat (npieces src)
                        \/ i = Z.of_nat (npieces src) - 1)
             then Some (unit_of src (Z.to_nat i))
             else units (fs w) !! i.
Proof.
  intros Hmax Hpos. induction fuel as [|fuel IH]; intros k prev w Hk Hfuel Hov Hprev;
    [lia|].
  cbn [Encoder.encode_loop].
  replace (Z.of_nat k - 1 + 1) with (Z.of_nat k) by lia.
  destruct (drop (Z.to_nat Packet.data_size * k) src) as [|a rest] eqn:Erest.
  - (* the source is exhausted: k is the number of pieces *)
    assert (k = npieces src) as ->.
    { destruct (decide (k < npieces src)%nat) as [Hlt|]; [|lia].
      apply npieces_spec in Hlt. apply (f_equal length) in Erest.
      rewrite length_drop in Erest. unfold Packet.data_size in Erest.
      simpl in Erest. lia. }
    remember (npieces src) as N eqn:EN.
    destruct N as [|j]; [lia|]. subst prev.
    rewrite take_nil.
    assert (Hpj : 0 <= Packet.pid (data_packet src j) < 2 ^ 32).
    { simpl. unfold Packet.max_id in Hmax. lia. }
    rewrite (bind_ok _ _ w _ tt
               (setLastPacket_ok w (data_packet src j) Hov Hpj (length_piece src j))).
    eexists. split; [reflexivity|].
    cbn [cls fs units init_qp files data_packet Packet.pid Packet.data].
    repeat split; try done.
    intros i.
    destruct (decide (i = Z.of_nat j)) as [->|Hne].
    + rewrite lookup_insert_eq. rewrite decide_True by lia.
      unfold unit_of. rewrite Nat2Z.id, <- EN. rewrite decide_True by done.
      reflexivity.
    + rewrite lookup_insert_ne by done. rewrite decide_False by lia. done.
  - (* piece k is read *)
    assert (Hlt : (k < npieces src)%nat).
    { apply npieces_spec. apply (f_equal length) in Erest.
      rewrite length_drop in Erest. unfold Packet.data_size in Erest.
      simpl in Erest. lia. }
    assert (Hpiece : take (Z.to_nat Packet.data_size) (a :: rest) = piece src k).
    { unfold piece. by rewrite Erest. }
    rewrite Hpiece.
    destruct (piece src k) as [|b pk] eqn:Epk.
    { exfalso. unfold piece in Epk. rewrite Erest in Epk. discriminate. }
    rewrite <- Epk.
    assert (Hdrop : drop (Z.to_nat Packet.data_size) (a :: rest)
                    = drop (Z.to_nat Packet.data_size * S k) src).
    { rewrite <- Erest. apply drop_pieces. }
    rewrite Hdrop.
    rewrite (encode_round_ok
               (fun p => Encoder.encode_loop fuel
                           (drop (Z.to_nat Packet.data_size * S k) src)
                           (Z.of_nat k) (Some p)));
      [|done|lia|apply length_piece].
    set (p := {| Packet.op_code := 0; Packet.pid := Z.of_nat k;
                 Packet.data := piece src k; Packet.nbytes := len (piece src k) |}).
    set (w3 := {| cls := {| Packet.last_id := Z.of_nat k; Packet.overflow := PInt 0 |};
                  fs := {| units := <[Z.of_nat k := frame_layout 0 (Z.of_nat k) (piece src k)]>
                                      (units (fs w));
                           init_qp := init_qp (fs w); files := files (fs w) |} |}).
    assert (Hfuel' : (length (drop (Z.to_nat Packet.data_size * S k) src) < fuel)%nat).
    { rewrite <- Hdrop. rewrite length_drop. simpl in Hfuel.
      unfold Packet.data_size. simpl. lia. }
    destruct (IH (S k) (Some p) w3 ltac:(lia) Hfuel' eq_refl eq_refl)
      as (w' & Hrun & Hov' & Hinit & Hfiles & Hunits).
    replace (Z.of_nat (S k) - 1) with (Z.of_nat k) in Hrun by lia.
    exists w'. split; [exact Hrun|]. split; [done|].
    cbn [w3 cls fs units init_qp files] in *. repeat split; try done.
    intros i. rewrite Hunits.
    destruct (decide (i = Z.of_nat k)) as [->|Hne].
    + rewrite lookup_insert_eq.
      rewrite (decide_True (P := Z.of_nat k <= _ < _ \/ _)) by lia.
      unfold unit_of. rewrite Nat2Z.id.
      destruct (decide (S k = npieces src)) as [E|E].
      * rewrite decide_True by lia. done.
      * rewrite decide_False by lia. done.
    + rewrite lookup_insert_ne by done.
      destruct (decide (Z.of_nat k <= i < Z.of_nat (npieces src)
                        \/ i = Z.of_nat (npieces src) - 1)).
      * rewrite decide_True by lia. done.
      * rewrite decide_False by lia. done.
Qed.

(** ** UTF-8 *)

Lemma utf8_encode_char_1 (b0 : Z) :
  0 <= b0 < 128 -> utf8_encode_char b0 = Ok [b0].
Proof.
  intros H. unfold utf8_encode_char.
  destruct (Z.ltb_spec b0 0); [lia|]. destruct (Z.ltb_spec b0 128); [done|lia].
Qed.

Lemma utf8_encode_char_2 (b0 b1 : Z) :
  194 <= b0 <= 223 -> 128 <= b1 <= 191 ->
  utf8_encode_char ((b0 - 192) * 64 + (b1 - 128)) = Ok [b0; b1].
Proof.
  intros H0 H1. unfold utf8_encode_char.
  set (c := (b0 - 192) * 64 + (b1 - 128)).
  destruct (Z.ltb_spec c 0); [lia|]. destruct (Z.ltb_spec c 128); [lia|].
  destruct (Z.ltb_spec c 2048); [|lia].
  assert (c / 64 = b0 - 192) by (subst c; Z.div_mod_to_equations; lia).
  assert (c mod 64 = b1 - 128) by (subst c; Z.div_mod_to_equations; lia).
  do 3 f_equal; lia.
Qed.

Lemma utf8_encode_char_3 (b0 b1 b2 : Z) :
  224 <= b0 <= 239 ->
  (if b0 =? 224 then 160 else 128) <= b1 <= (if b0 =? 237 then 159 else 191) ->
  128 <= b2 <= 191 ->
  utf8_encode_char ((b0 - 224) * 4096 + (b1 - 128) * 64 + (b2 - 128))
  = Ok [b0; b1; b2].
Proof.
  intros H0 H1 H2. unfold utf8_encode_char.
  set (c := (b0 - 224) * 4096 + (b1 - 128) * 64 + (b2 - 128)).
  assert (128 <= b1 <= 191).
  { destruct (b0 =? 224), (b0 =? 237); lia. }
  assert (2048 <= c).
  { destruct (Z.eqb_spec b0 224); subst c; lia. }
  assert (c < 55296 \/ 57343 < c).
  { destruct (Z.eqb_spec b0 237); subst c; [|lia].
    destruct (b0 =? 224); lia. }
  destruct (Z.ltb_spec c 0); [lia|]. destruct (Z.ltb_spec c 128); [lia|].
  destruct (Z.ltb_spec c 2048); [lia|].
  destruct (Z.ltb_spec c 65536); [|subst c; lia].
  destruct (Z.leb_spec 55296 c), (Z.leb_spec c 57343); simpl; try lia.
  all: assert (c / 4096 = b0 - 224) by (subst c; Z.div_mod_to_equations; lia).
  all: assert ((c / 64) mod 64 = b1 - 128) by (subst c; Z.div_mod_to_equations; lia).
  all: assert (c mod 64 = b2 - 128) by (subst c; Z.div_mod_to_equations; lia).
  all: repeat (f_equal; try lia).
Qed.

Lemma utf8_encode_char_4 (b0 b1 b2 b3 : Z) :
  240 <= b0 <= 244 ->
  (if b0 =? 240 then 144 else 128) <= b1 <= (if b0 =? 244 then 143 else 191) ->
  128 <= b2 <= 191 -> 128 <= b3 <= 191 ->
  utf8_encode_char ((b0 - 240) * 262144 + (b1 - 128) * 4096 + (b2 - 128) * 64
                    + (b3 - 128))
  = Ok [b0; b1; b2; b3].
Proof.
  intros H0 H1 H2 H3. unfold utf8_encode_char.
  set (c := (b0 - 240) * 262144 + (b1 - 128) * 4096 + (b2 - 128) * 64 + (b3 - 128)).
  assert (128 <= b1 <= 191).
  { destruct (b0 =? 240), (b0 =? 244); lia. }
  assert (65536 <= c).
  { destruct (Z.eqb_spec b0 240); subst c; lia. }
  assert (c < 1114112).
  { destruct (Z.eqb_spec b0 244); subst c; [|lia].
    destruct (b0 =? 240); lia. }
  destruct (Z.ltb_spec c 0); [lia|]. destruct (Z.ltb_spec c 128); [lia|].
  destruct (Z.ltb_spec c 2048); [lia|].
  destruct (Z.ltb_spec c 65536); [lia|].
  destruct (Z.ltb_spec c 1114112); [|lia].
  assert (c / 262144 = b0 - 240) by (subst c; Z.div_mod_to_equations; lia).
  assert ((c / 4096) mod 64 = b1 - 128) by (subst c; Z.div_mod_to_equations; lia).
  assert ((c / 64) mod 64 = b2 - 128) by (subst c; Z.div_mod_to_equations; lia).
  assert (c mod 64 = b3 - 128) by (subst c; Z.div_mod_to_equations; lia).
  repeat (f_equal; try lia).
Qed.

Ltac zbool :=
  repeat match goal with
  | H : is_cont _ = true |- _ => unfold is_cont in H
  | H : _ && _ = true |- _ => apply andb_true_iff in H as [? ?]
  | H : (_ <=? _) = true |- _ => apply Z.leb_le in H
  | H : (_ <? _) = true |- _ => apply Z.ltb_lt in H
  end.

Ltac decoded H IH :=
  match type of H with
  | context [utf8_decode ?r] =>
      let s := fresh "s" in
      let E := fresh "E" in
      destruct (utf8_decode r) as [s|] eqn:E; [|discriminate H];
      cbn [mbind res_bind] in H; injection H as <-;
      apply IH in E as [E ?]; [|simpl in *; lia];
      cbn [utf8_encode]
  end.

(** Strict decoding is injective: encoding the text gives the bytes back,
    and the text is not longer than the bytes. *)
Lemma utf8_decode_encode_upto (n : nat) :
  forall b s, (length b <= n)%nat -> utf8_decode b = Ok s ->
    utf8_encode s = Ok b /\ (length s <= length b)%nat.
Proof.
  induction n as [|n IH]; intros b s Hl H.
  { destruct b; [|simpl in Hl; lia]. simpl in H. by injection H as <-. }
  destruct b as [|b0 r0]; [simpl in H; by injection H as <-|].
  cbn [utf8_decode] in H.
  destruct ((0 <=? b0) && (b0 <? 128)) eqn:E1.
  { zbool. decoded H IH. rewrite utf8_encode_char_1, E by lia.
    simpl. split; [done|lia]. }
  destruct r0 as [|b1 r1]; [done|].
  destruct ((194 <=? b0) && (b0 <=? 223)) eqn:E2.
  { destruct (is_cont b1) eqn:C1; [|done]. zbool. decoded H IH.
    rewrite utf8_encode_char_2, E by lia. simpl. split; [done|lia]. }
  destruct r1 as [|b2 r2]; [done|].
  destruct ((224 <=? b0) && (b0 <=? 239)) eqn:E3.
  { match type of H with
    | context [if ?c then _ else _] => destruct c eqn:C1; [|done]
    end.
    zbool. decoded H IH.
    rewrite utf8_encode_char_3, E by lia. simpl. split; [done|lia]. }
  destruct r2 as [|b3 r3]; [done|].
  destruct ((240 <=? b0) && (b0 <=? 244)) eqn:E4; [|done].
  match type of H with
  | context [if ?c then _ else _] => destruct c eqn:C1; [|done]
  end.
  zbool. decoded H IH.
  rewrite utf8_encode_char_4, E by lia. simpl. split; [done|lia].
Qed.

Lemma utf8_decode_encode (b : bytes) (s : pystr) :
  utf8_decode b = Ok s -> utf8_encode s = Ok b.
Proof. intros H. by apply (utf8_decode_encode_upto (length b)) in H as [? _]. Qed.

Lemma utf8_decode_length (b : bytes) (s : pystr) :
  utf8_decode b = Ok s -> (length s <= length b)%nat.
Proof. intros H. by apply (utf8_decode_encode_upto (length b)) in H as [_ ?]. Qed.

Lemma utf8_encode_app (s1 s2 : pystr) (b1 b2 : bytes) :
  utf8_encode s1 = Ok b1 -> utf8_encode s2 = Ok b2 ->
  utf8_encode (s1 ++ s2) = Ok (b1 ++ b2).
Proof.
  revert b1. induction s1 as [|c s1 IH]; intros b1 H1 H2; simpl in *.
  - by injection H1 as <-.
  - destruct (utf8_encode_char c) as [bc|]; [|done]. simpl in *.
    destruct (utf8_encode s1) as [r|]; [|done]. simpl in *.
    injection H1 as <-. rewrite (IH r) by done. simpl. by rewrite app_assoc.
Qed.

(** ASCII text is its own encoding. *)
Lemma utf8_decode_ascii (b : bytes) :
  Forall (fun c => 0 <= c < 128) b -> utf8_decode b = Ok b.
Proof.
  induction 1 as [|c b Hc _ IH]; [done|]. cbn [utf8_decode].
  destruct (Z.leb_spec 0 c); [|lia]. destruct (Z.ltb_spec c 128); [|lia].
  simpl. by rewrite IH.
Qed.

(** ** The scaffold *)

Lemma chunks_from_spec {A} (n : nat) :
  (0 < n)%nat ->
  forall fuel (s : list A), (length s <= fuel)%nat ->
    concat (chunks_from fuel n s) = s
    /\ forall p, (length s <= n * p)%nat -> (length (chunks_from fuel n s) <= p)%nat.
Proof.
  intros Hn. induction fuel as [|fuel IH]; intros s Hl.
  { destruct s; [|simpl in Hl; lia]. simpl. split; [done|lia]. }
  destruct s as [|a s]; [simpl; split; [done|lia]|].
  cbn [chunks_from].
  destruct (IH (drop n (a :: s))) as [Hc Hp].
  { rewrite length_drop. simpl in *. lia. }
  split.
  - cbn [concat]. rewrite Hc. apply take_drop.
  - intros p Hlp. destruct p as [|p]; [simpl in Hlp; lia|].
    cbn [length]. apply le_n_S, Hp. rewrite length_drop. lia.
Qed.

Lemma concat_chunks {A} (n : nat) (s : list A) :
  (0 < n)%nat -> concat (chunks n s) = s.
Proof. intros Hn. by apply (chunks_from_spec n Hn (length s) s). Qed.

Lemma length_chunks {A} (n p : nat) (s : list A) :
  (0 < n)%nat -> (length s <= n * p)%nat -> (length (chunks n s) <= p)%nat.
Proof. intros Hn. by apply (chunks_from_spec n Hn (length s) s). Qed.

(** In pid order the scaffold never has a slot for the pid of the round yet:
    the assignment raises [IndexError] and the text is appended. *)
Lemma ammendScaffoldData_append (scaffold_data to_write : pystr) (pid : nat) :
  (length scaffold_data <= 77 * pid)%nat ->
  Decoder.ammendScaffoldData scaffold_data to_write (Z.of_nat pid)
  = scaffold_data ++ to_write.
Proof.
  intros Hl. unfold Decoder.ammendScaffoldData.
  change (Z.to_nat Packet.data_size) with 77%nat.
  pose proof (length_chunks 77 pid scaffold_data ltac:(lia) Hl) as Hc.
  unfold py_setitem.
  destruct (Z.ltb_spec (Z.of_nat pid) 0); [lia|].
  destruct (Z.leb_spec (len (chunks 77 scaffold_data)) (Z.of_nat pid)) as [|Hgt];
    [|unfold len in Hgt; lia].
  rewrite orb_true_r. rewrite concat_app, concat_chunks by lia.
  simpl. by rewrite app_nil_r.
Qed.

(** ** The bulk pass *)

Lemma read_unit_ok (pid : Z) (b : bytes) (w : world) :
  units (fs w) !! pid = Some b -> read_unit pid w = (Ok b, w).
Proof. intros H. unfold read_unit. by rewrite H. Qed.

Lemma read_unit_absent (pid : Z) (w : world) :
  units (fs w) !! pid = None -> read_unit pid w = (Raise FileNotFoundError, w).
Proof. intros H. unfold read_unit. by rewrite H. Qed.

(** A round on a unit that is present and decodes. *)
Lemma bulk_step_present (set_iter : list Z -> list Z) (path : pystr) (pid : Z)
    (scaffold_data : pystr) (missed : list Z) (w : world) (text : pystr) :
  is_Some (units (fs w) !! pid) ->
  slot_text set_iter (units (fs w)) pid = Ok text ->
  Decoder.bulk_step set_iter path pid scaffold_data missed w
  = (Ok (Decoder.Continue
           (Decoder.ammendScaffoldData scaffold_data text pid, missed)), w).
Proof.
  intros [frame Hu] Ht. unfold slot_text in Ht. rewrite Hu in Ht.
  unfold Decoder.bulk_step. apply try_ok.
  rewrite (bind_ok _ _ _ _ _ (read_unit_ok _ _ _ Hu)).
  destruct (Decoder.information_of set_iter frame) as [info|] eqn:Ei; [|done].
  cbn [mbind res_bind] in Ht. unfold mbind, M_bind, lift. by rewrite Ht.
Qed.

(** A round on an absent unit whose successor is present: a confirmed miss. *)
Lemma bulk_step_missing (set_iter : list Z -> list Z) (path : pystr) (pid : Z)
    (scaffold_data : pystr) (missed : list Z) (w : world) :
  units (fs w) !! pid = None ->
  is_Some (units (fs w) !! (pid + 1)) ->
  Decoder.bulk_step set_iter path pid scaffold_data missed w
  = (Ok (Decoder.Continue
           (Decoder.ammendScaffoldData scaffold_data Decoder.placeholder pid,
            missed ++ [pid])), w).
Proof.
  intros Hu Hn. unfold Decoder.bulk_step.
  rewrite (try_catch _ _ _ w w FileNotFoundError); [|by apply bind_raise, read_unit_absent|done].
  unfold mbind, M_bind, unit_exists. by rewrite bool_decide_eq_true_2.
Qed.

(** A round on an absent unit whose successor is absent too: the scaffold is
    written over the start of the in-progress file and the loop stops. *)
Lemma bulk_step_end (set_iter : list Z -> list Z) (path : pystr) (pid : Z)
    (scaffold_data : pystr) (missed : list Z) (w : world) (b : bytes) :
  units (fs w) !! pid = None ->
  units (fs w) !! (pid + 1) = None ->
  utf8_encode scaffold_data = Ok b ->
  Decoder.bulk_step set_iter path pid scaffold_data missed w
  = (Ok Decoder.Break, (Decoder.write_at_start path b w).2).
Proof.
  intros Hu Hn Hb. unfold Decoder.bulk_step.
  rewrite (try_catch _ _ _ w w FileNotFoundError); [|by apply bind_raise, read_unit_absent|done].
  unfold mbind, M_bind, unit_exists. rewrite bool_decide_eq_false_2.
  - unfold lift. rewrite Hb. reflexivity.
  - rewrite Hn. by intros [? ?].
Qed.

Lemma absent_below_S (us : gmap Z bytes) (k : nat) :
  absent_below us (S k)
  = absent_below us k ++ (if decide (us !! Z.of_nat k = None) then [Z.of_nat k] else []).
Proof.
  unfold absent_below.
  replace (Z.of_nat (S k)) with (Z.of_nat k + 1) by lia.
  rewrite seqZ_app by lia. rewrite filter_app. by f_equal.
Qed.

Lemma elem_of_absent_below (us : gmap Z bytes) (stop : nat) (p : Z) :
  p ∈ absent_below us stop <-> 0 <= p < Z.of_nat stop /\ us !! p = None.
Proof.
  unfold absent_below. rewrite list_elem_of_filter, elem_of_seqZ. tauto.
Qed.

Lemma length_concat_take (ts : list pystr) (k : nat) :
  (forall p t, ts !! p = Some t -> (length t <= 77)%nat) ->
  (length (concat (take k ts)) <= 77 * k)%nat.
Proof.
  intros Ht. induction k as [|k IH]; [simpl; lia|].
  destruct (ts !! k) as [t|] eqn:E.
  - rewrite (take_S_r _ _ _ E), concat_app, length_app. simpl.
    rewrite app_nil_r. specialize (Ht _ _ E). lia.
  - apply lookup_ge_None in E. rewrite take_ge by lia.
    rewrite take_ge in IH by lia. lia.
Qed.

Lemma slot_text_encodable (set_iter : list Z -> list Z) (us : gmap Z bytes) (p : Z)
    (t : pystr) :
  slot_text set_iter us p = Ok t -> exists b, utf8_encode t = Ok b.
Proof.
  unfold slot_text. destruct (us !! p) as [frame|].
  - destruct (Decoder.information_of set_iter frame) as [info|]; [|done].
    cbn [mbind res_bind]. intros H. exists info. by apply utf8_decode_encode.
  - intros [= <-]. eexists. vm_compute. reflexivity.
Qed.

Lemma concat_encodable (ts : list pystr) :
  (forall p t, ts !! p = Some t -> exists b, utf8_encode t = Ok b) ->
  exists b, utf8_encode (concat ts) = Ok b.
Proof.
  induction ts as [|t ts IH]; intros H; [by exists []|].
  destruct (H 0%nat t eq_refl) as [b1 H1].
  destruct IH as [b2 H2]; [intros p; apply (H (S p))|].
  exists (b1 ++ b2). by apply utf8_encode_app.
Qed.

Section BulkPass.

Variable set_iter : list Z -> list Z.
Variable path : pystr.
Variable us : gmap Z bytes.

(** [stop] is the first pid that is absent together with its successor;
    [ts] lists the texts of the pids below it, none longer than a slot. *)
Variable stop : nat.
Variable ts : list pystr.
Hypothesis stop_absent : us !! Z.of_nat stop = None.
Hypothesis stop_next_absent : us !! (Z.of_nat stop + 1) = None.
Hypothesis stop_first : forall p : nat, (p < stop)%nat ->
  is_Some (us !! Z.of_nat p) \/ is_Some (us !! (Z.of_nat p + 1)).
Hypothesis ts_length : length ts = stop.
Hypothesis ts_text : forall (p : nat) t, ts !! p = Some t ->
  slot_text set_iter us (Z.of_nat p) = Ok t /\ (length t <= 77)%nat.

Lemma bulk_loop_from (b : bytes) :
  utf8_encode (concat ts) = Ok b ->
  forall fuel k w,
    units (fs w) = us -> (k <= stop)%nat -> (stop - k < fuel)%nat ->
    Decoder.bulk_loop set_iter fuel path (Z.of_nat k - 1) (concat (take k ts))
      (absent_below us k) w
    = (Ok (concat ts, absent_below us stop), (Decoder.write_at_start path b w).2).
Proof.
  intros Hb. induction fuel as [|fuel IH]; intros k w Hw Hk Hfuel; [lia|].
  cbn [Decoder.bulk_loop].
  replace (Z.of_nat k - 1 + 1) with (Z.of_nat k) by lia.
  destruct (decide (k = stop)) as [->|Hne].
  - rewrite take_ge by lia.
    assert (H1 : units (fs w) !! Z.of_nat stop = None) by (by rewrite Hw).
    assert (H2 : units (fs w) !! (Z.of_nat stop + 1) = None) by (by rewrite Hw).
    rewrite (bind_ok _ _ _ _ _
               (bulk_step_end set_iter path _ _ (absent_below us stop) w b H1 H2 Hb)).
    reflexivity.
  - assert (Hlt : (k < stop)%nat) by lia.
    destruct (ts !! k) as [t|] eqn:Et; [|apply lookup_ge_None in Et; lia].
    destruct (ts_text _ _ Et) as [Ht Hl].
    assert (Hlen : (length (concat (take k ts)) <= 77 * k)%nat).
    { apply length_concat_take. intros p t' Hp. by apply (ts_text p). }
    assert (Htake : concat (take (S k) ts) = concat (take k ts) ++ t).
    { rewrite (take_S_r _ _ _ Et), concat_app. simpl. by rewrite app_nil_r. }
    destruct (us !! Z.of_nat k) as [frame|] eqn:Eu.
    + assert (H1 : is_Some (units (fs w) !! Z.of_nat k)) by (rewrite Hw, Eu; eauto).
      assert (H2 : slot_text set_iter (units (fs w)) (Z.of_nat k) = Ok t)
        by (by rewrite Hw).
      rewrite (bind_ok _ _ _ _ _
                 (bulk_step_present set_iter path _ (concat (take k ts))
                    (absent_below us k) w t H1 H2)).
      rewrite ammendScaffoldData_append by done. rewrite <- Htake.
      replace (absent_below us k) with (absent_below us (S k)).
      * replace (Z.of_nat k) with (Z.of_nat (S k) - 1) by lia.
        apply IH; [done|lia|lia].
      * rewrite absent_below_S, Eu. rewrite decide_False by done.
        by rewrite app_nil_r.
    + destruct (stop_first k Hlt) as [[? Hs]|Hn]; [congruence|].
      assert (H1 : units (fs w) !! Z.of_nat k = None) by (by rewrite Hw).
      assert (H2 : is_Some (units (fs w) !! (Z.of_nat k + 1))) by (by rewrite Hw).
      rewrite (bind_ok _ _ _ _ _
                 (bulk_step_missing set_iter path _ (concat (take k ts))
                    (absent_below us k) w H1 H2)).
      assert (t = Decoder.placeholder) as ->.
      { unfold slot_text in Ht. rewrite Eu in Ht. by injection Ht. }
      rewrite ammendScaffoldData_append by done. rewrite <- Htake.
      replace (absent_below us k ++ [Z.of_nat k]) with (absent_below us (S k)).
      * replace (Z.of_nat k) with (Z.of_nat (S k) - 1) by lia.
        apply IH; [done|lia|lia].
      * rewrite absent_below_S, Eu. by rewrite decide_True.
Qed.

End BulkPass.

(** C4, as amended.  Take a store and the first pid [stop] that is absent
    together with its successor [stop + 1], the units below [stop] that are
    present each decoding to a text of at most 77 characters ([ts] lists the
    texts in pid order).  With fuel for [stop + 1] rounds the pass returns:
    every absent pid below [stop] (its successor is then present) is in the
    ledger and has the placeholder run at its place in the scaffold; the
    ledger holds nothing else; the pass flushes the scaffold and stops at
    [stop], whatever units exist beyond [stop + 1]. *)
Theorem C4_bulk_pass_records_gaps (set_iter : list Z -> list Z) (path : pystr)
    (w : world) (stop : nat) (ts : list pystr) (fuel : nat) :
  let us := units (fs w) in
  us !! Z.of_nat stop = None ->
  us !! (Z.of_nat stop + 1) = None ->
  (forall p : nat, (p < stop)%nat ->
     is_Some (us !! Z.of_nat p) \/ is_Some (us !! (Z.of_nat p + 1))) ->
  length ts = stop ->
  (forall (p : nat) t, ts !! p = Some t ->
     slot_text set_iter us (Z.of_nat p) = Ok t /\ (length t <= 77)%nat) ->
  (stop < fuel)%nat ->
  exists b,
    utf8_encode (concat ts) = Ok b
    /\ Decoder.bulk_loop set_iter fuel path (-1) [] [] w
       = (Ok (concat ts, absent_below us stop), (Decoder.write_at_start path b w).2)
    /\ (forall p : Z, p ∈ absent_below us stop <-> 0 <= p < Z.of_nat stop /\ us !! p = None)
    /\ (forall p : nat, (p < stop)%nat -> us !! Z.of_nat p = None ->
          is_Some (us !! (Z.of_nat p + 1))
          /\ ts !! p = Some Decoder.placeholder).
Proof.
  intros us Hstop Hnext Hfirst Hlen Htext Hfuel.
  destruct (concat_encodable ts) as [b Hb].
  { intros p t Hp. destruct (Htext p t Hp) as [Ht _].
    by apply slot_text_encodable in Ht. }
  exists b. split; [done|]. split; [|split].
  - apply (bulk_loop_from set_iter path us stop ts Hstop Hnext Hfirst Hlen Htext b Hb
             fuel 0%nat w); [done|lia|lia].
  - apply elem_of_absent_below.
  - intros p Hp Hu. split.
    + destruct (Hfirst p Hp) as [[? H]|H]; [congruence|done].
    + destruct (ts !! p) as [t|] eqn:Et; [|apply lookup_ge_None in Et; lia].
      destruct (Htext p t Et) as [Ht _]. unfold slot_text in Ht.
      fold us in Ht. rewrite Hu in Ht. by injection Ht as <-.
Qed.

Lemma C4_witness :
  let w := {| cls := Packet.initial;
              fs := {| units := <[0 := frame_layout 0 0 [104; 105]]>
                                  (<[2 := frame_layout 112 2 [33]]> ∅);
                       init_qp := None;
                       files := {[ lit "out.scaff" := [32; 32; 32] ]} |} |} in
  let us := units (fs w) in
  let ts := [[104; 105]; Decoder.placeholder; [33]] in
  exists b,
    utf8_encode (concat ts) = Ok b
    /\ Decoder.bulk_loop remove_dups 4 (lit "out.scaff") (-1) [] [] w
       = (Ok (concat ts, absent_below us 3),
          (Decoder.write_at_start (lit "out.scaff") b w).2)
    /\ (forall p : Z, p ∈ absent_below us 3 <-> 0 <= p < Z.of_nat 3 /\ us !! p = None)
    /\ (forall p : nat, (p < 3)%nat -> us !! Z.of_nat p = None ->
          is_Some (us !! (Z.of_nat p + 1))
          /\ ts !! p = Some Decoder.placeholder).
Proof.
  intros w us ts.
  apply (C4_bulk_pass_records_gaps remove_dups (lit "out.scaff") w 3 ts 4).
  - reflexivity.
  - reflexivity.
  - intros [|[|[|p]]] Hp; [left|right|left|lia]; eexists; reflexivity.
  - reflexivity.
  - intros [|[|[|p]]] t Ht; simpl in Ht; try discriminate; injection Ht as <-;
      (split; [vm_compute; reflexivity|vm_compute; lia]).
  - lia.
Defined.

(** C4, counterexample: units 0 and 3 are present, 1 and 2 are not.  Pid 1
    is absent and a later unit (pid 3) exists, yet the pass stops at pid 1 as
    at the end of the stream: the ledger it returns is empty and the scaffold
    holds the text of unit 0 alone. *)
Lemma C4_counterexample :
  let w := {| cls := Packet.initial;
              fs := {| units := <[0 := frame_layout 0 0 [104; 105]]>
                                  (<[3 := frame_layout 112 3 [33]]> ∅);
                       init_qp := None;
                       files := {[ lit "out.scaff" := [32; 32; 32] ]} |} |} in
  units (fs w) !! 1 = None
  /\ is_Some (units (fs w) !! 3)
  /\ (Decoder.bulk_loop remove_dups 6 (lit "out.scaff") (-1) [] [] w).1
     = Ok ([104; 105], []).
Proof.
  intros w. split; [reflexivity|]. split; [eexists; reflexivity|].
  vm_compute. reflexivity.
Qed.

(** ** Decimal numbers and the metadata text *)

Lemma parse_digits_step (c : Z) (rest : pystr) (a : Z) (b : bool) :
  is_digit_code c ->
  parse_digits (c :: rest) a b = parse_digits rest (a * 10 + (c - 48)) true.
Proof.
  intros [H1 H2]. cbn [parse_digits]. unfold is_digit.
  destruct (Z.leb_spec 48 c); [|lia]. destruct (Z.leb_spec c 57); [|lia]. done.
Qed.

Lemma digits_from_spec (fuel : nat) :
  forall n acc, (0 < fuel)%nat -> 0 <= n < 2 ^ Z.of_nat fuel ->
    exists ds,
      digits_from fuel 10 n acc = ds ++ acc
      /\ ds <> []
      /\ Forall is_digit_code ds
      /\ forall rest a b,
           parse_digits (ds ++ rest) a b = parse_digits rest (a * 10 ^ len ds + n) true.
Proof.
  induction fuel as [|fuel IH]; intros n acc Hf Hn; [lia|].
  cbn [digits_from].
  assert (Hd : 0 <= n mod 10 < 10) by (apply Z.mod_pos_bound; lia).
  assert (Hc : digit_char (n mod 10) = 48 + n mod 10).
  { unfold digit_char. destruct (Z.ltb_spec (n mod 10) 10); [done|lia]. }
  rewrite Hc.
  destruct (Z.eqb_spec (n / 10) 0) as [E|E].
  - exists [48 + n mod 10]. repeat split; try done.
    + repeat constructor; unfold is_digit_code; lia.
    + intros rest a b. cbn [app]. rewrite parse_digits_step by (unfold is_digit_code; lia).
      f_equal. unfold len. simpl. Z.div_mod_to_equations. lia.
  - assert (Hn' : 0 <= n / 10 < 2 ^ Z.of_nat fuel).
    { rewrite Nat2Z.inj_succ, Z.pow_succ_r in Hn by lia.
      Z.div_mod_to_equations. lia. }
    assert (Hf' : (0 < fuel)%nat).
    { destruct fuel; [simpl in Hn'; lia|lia]. }
    destruct (IH (n / 10) ((48 + n mod 10) :: acc) Hf' Hn')
      as (ds & Hds & Hne & Hall & Hparse).
    exists (ds ++ [48 + n mod 10]). repeat split.
    + rewrite Hds. by rewrite <- app_assoc.
    + by destruct ds.
    + apply Forall_app. split; [done|].
      repeat constructor; unfold is_digit_code; lia.
    + intros rest a b. rewrite <- app_assoc. rewrite Hparse. cbn [app].
      rewrite parse_digits_step by (unfold is_digit_code; lia).
      f_equal. rewrite len_app, Z.pow_add_r by (unfold len; lia).
      change (10 ^ len [48 + n mod 10]) with 10. rewrite Z.mul_assoc.
      generalize (a * 10 ^ len ds). intros q. Z.div_mod_to_equations. lia.
Qed.

Lemma py_str_spec (n : Z) :
  0 <= n ->
  py_str n <> []
  /\ Forall is_digit_code (py_str n)
  /\ parse_digits (py_str n) 0 false = Ok n.
Proof.
  intros Hn. unfold py_str. destruct (Z.ltb_spec n 0); [lia|].
  unfold digits.
  destruct (digits_from_spec (S (Z.to_nat (Z.log2 n))) n []) as (ds & Hds & Hne & Hall & Hp).
  - lia.
  - split; [done|]. rewrite Nat2Z.inj_succ, Z2Nat.id by apply Z.log2_nonneg.
    destruct (Z.eq_dec n 0) as [->|]; [simpl; lia|].
    apply Z.log2_spec. lia.
  - rewrite Hds, app_nil_r. repeat split; try done.
    specialize (Hp [] 0 false). rewrite app_nil_r in Hp. rewrite Hp. simpl. done.
Qed.

Lemma lstrip_digits (s : pystr) :
  Forall is_digit_code s -> lstrip s = s.
Proof.
  intros H. destruct H as [|c s [H1 H2] _]; [done|]. cbn [lstrip]. unfold is_space.
  destruct (Z.eqb_spec c 32); [lia|]. destruct (Z.leb_spec 9 c); [|lia].
  destruct (Z.leb_spec c 13); [lia|]. done.
Qed.

Lemma py_int_py_str (n : Z) : 0 <= n -> py_int (py_str n) = Ok n.
Proof.
  intros Hn. destruct (py_str_spec n Hn) as (Hne & Hall & Hp).
  unfold py_int, strip. rewrite (lstrip_digits _ Hall).
  rewrite lstrip_digits by (by apply Forall_rev). rewrite rev_involutive.
  destruct (py_str n) as [|c s]; [done|].
  apply Forall_cons in Hall as [[H1 H2] _].
  destruct (Z.eq_dec c 45); [lia|]. destruct (Z.eq_dec c 43); [lia|].
  destruct c as [|c|c]; try lia.
  do 7 (destruct c as [c|c|]; try lia; try exact Hp).
Qed.

Lemma split_from_sep (sep : Z) (s rest cur : pystr) :
  Forall (fun c => c <> sep) s ->
  split_from sep (s ++ sep :: rest) cur = (cur ++ s) :: split_from sep rest [].
Proof.
  intros H. revert cur. induction H as [|c s Hc _ IH]; intros cur.
  - cbn [app split_from]. rewrite Z.eqb_refl. by rewrite app_nil_r.
  - cbn [app split_from]. destruct (Z.eqb_spec c sep); [done|].
    rewrite IH. by rewrite <- app_assoc.
Qed.

Lemma split_from_last (sep : Z) (s cur : pystr) :
  Forall (fun c => c <> sep) s -> split_from sep s cur = [cur ++ s].
Proof.
  intros H. revert cur. induction H as [|c s Hc _ IH]; intros cur.
  - cbn [split_from]. by rewrite app_nil_r.
  - cbn [split_from]. destruct (Z.eqb_spec c sep); [done|].
    rewrite IH. by rewrite <- app_assoc.
Qed.

Lemma digit_not_space (s : pystr) :
  Forall is_digit_code s -> Forall (fun c => c <> 32) s.
Proof.
  intros H. eapply Forall_impl; [exact H|]. unfold is_digit_code. simpl. intros; lia.
Qed.

Lemma digit_ascii (s : pystr) :
  Forall is_digit_code s -> Forall (fun c => 0 <= c < 128) s.
Proof.
  intros H. eapply Forall_impl; [exact H|]. unfold is_digit_code. simpl. intros; lia.
Qed.

Lemma metadata_split (name : pystr) (count size : Z) :
  Forall is_name_code name -> 0 <= count -> 0 <= size ->
  split 32 (metadata name count size) = [name; py_str count; py_str size].
Proof.
  intros Hname Hc Hs. unfold metadata, split. cbn [join].
  change (lit " ") with [32]. cbn [app].
  destruct (py_str_spec count Hc) as (_ & Hdc & _).
  destruct (py_str_spec size Hs) as (_ & Hds & _).
  rewrite split_from_sep by (eapply Forall_impl; [exact Hname|by intros ? [_ ?]]).
  rewrite split_from_sep by (by apply digit_not_space).
  rewrite split_from_last by (by apply digit_not_space). done.
Qed.

Lemma metadata_ascii (name : pystr) (count size : Z) :
  Forall is_name_code name -> 0 <= count -> 0 <= size ->
  Forall (fun c => 0 <= c < 128) (metadata name count size).
Proof.
  intros Hname Hc Hs. unfold metadata. cbn [join]. change (lit " ") with [32].
  destruct (py_str_spec count Hc) as (_ & Hdc & _).
  destruct (py_str_spec size Hs) as (_ & Hds & _).
  repeat (apply Forall_app; split); try (by apply digit_ascii).
  - eapply Forall_impl; [exact Hname|by intros ? [? _]].
  - repeat constructor; lia.
  - repeat constructor; lia.
Qed.

Lemma bytearray_of_ords_ascii (s : pystr) :
  Forall (fun c => 0 <= c < 128) s -> bytearray_of_ords s = Ok s.
Proof.
  induction 1 as [|c s Hc _ IH]; [done|]. cbn [bytearray_of_ords].
  destruct (Z.leb_spec 0 c); [|lia]. destruct (Z.ltb_spec c 256); [|lia].
  simpl. by rewrite IH.
Qed.

(** ** Payloads and pids free of the end word *)

Lemma find_from_no_first (x y : Z) (l : bytes) :
  Forall (fun c => c <> x) l -> forall i, find_from [x; y] (l ++ [x]) i = -1.
Proof.
  induction 1 as [|c l Hc _ IH]; intros i.
  - cbn. rewrite Z.eqb_refl. done.
  - cbn [app find_from starts_with].
    destruct (Z.eqb_spec x c); [congruence|]. simpl. apply IH.
Qed.

Lemma end_free_no_DC (payload : bytes) :
  Forall (fun c => c <> 220) payload -> end_free payload.
Proof.
  intros H. unfold end_free, find. apply find_from_no_first.
  unfold py_mul. simpl. rewrite app_nil_r. by rewrite !Forall_app.
Qed.

Lemma end_free_ascii (payload : bytes) :
  Forall (fun c => 0 <= c < 128) payload -> end_free payload.
Proof.
  intros H. apply end_free_no_DC. eapply Forall_impl; [exact H|].
  simpl. intros; lia.
Qed.

(** Every pid below 0xDCBA = 56506 is free of the end word. *)
Lemma pid_end_free_small (pid : Z) : 0 <= pid < 56506 -> pid_end_free pid.
Proof.
  intros H. unfold pid_end_free, find. cbn [be_bytes app find_from starts_with].
  assert (E1 : ((pid / 256) / 256) / 256 = 0) by (Z.div_mod_to_equations; lia).
  assert (E2 : (pid / 256) / 256 = 0) by (Z.div_mod_to_equations; lia).
  rewrite E1, E2. rewrite !Zmod_0_l. change (220 =? 0) with false.
  rewrite !andb_false_r, andb_true_r. cbn [andb].
  destruct (Z.eqb_spec 220 ((pid / 256) mod 256)) as [E3|]; [|done].
  destruct (Z.eqb_spec 186 (pid mod 256)) as [E4|]; [|done].
  exfalso. Z.div_mod_to_equations. lia.
Qed.

(** ** A whole run of the encoder *)

Lemma new_Packet_meta (w : world) (meta : pystr) :
  fromhex meta = Raise ValueError ->
  Forall (fun c => 0 <= c < 128) meta ->
  len meta <= Packet.data_size ->
  new_Packet (Packet.DStr meta) 0 (Some 1) w
  = (Ok {| Packet.op_code := 1; Packet.pid := 0; Packet.data := meta;
           Packet.nbytes := len meta |}, w).
Proof.
  intros Hhex Hascii Hlen. unfold new_Packet, Packet.init. cbn [Z.ltb Z.compare].
  unfold Packet.to_bytearray. rewrite Hhex. cbn [is_ValueError].
  rewrite bytearray_of_ords_ascii by done. cbn [mbind res_bind].
  destruct (Z.leb_spec (len meta) Packet.data_size); [|lia].
  destruct w as [[l o] f]. reflexivity.
Qed.

Lemma encode_spec (self : Encoder.t) (w : world) (src : bytes) :
  Encoder.destructive self = false ->
  Packet.overflow (cls w) = PInt 0 ->
  files (fs w) !! Encoder.file self = Some src ->
  (0 < length src)%nat ->
  Z.of_nat (npieces src) <= Packet.max_id ->
  exists w',
    Encoder.encode self w
    = (Ok ({| Encoder.file := Encoder.file self; Encoder.destructive := false;
              Encoder.packets_built := Z.of_nat (npieces src) |}, true), w')
    /\ Packet.overflow (cls w') = PInt 0
    /\ init_qp (fs w') = init_qp (fs w)
    /\ files (fs w') = files (fs w)
    /\ forall i : Z,
         units (fs w') !! i
         = if decide (0 <= i < Z.of_nat (npieces src)) then Some (unit_of src (Z.to_nat i))
           else units (fs w) !! i.
Proof.
  intros Hd Hov Hsrc Hpos Hmax.
  assert (HN : (0 < npieces src)%nat) by (apply npieces_spec; lia).
  destruct (encode_loop_spec src Hmax HN (S (length src)) 0%nat None w)
    as (w' & Hrun & Hov' & Hinit & Hfiles & Hunits); try done; try lia.
  { rewrite length_drop. lia. }
  change (drop (Z.to_nat Packet.data_size * 0) src) with src in Hrun.
  exists w'. split; [|repeat split; try done].
  - unfold Encoder.encode. apply try_ok.
    rewrite (bind_ok _ _ _ _ _ (read_file_ok _ _ _ Hsrc)).
    rewrite (bind_ok _ _ _ _ _ (try_ok _ _ _ _ _ _ Hrun)).
    cbn [Encoder.destructive]. rewrite Hd. reflexivity.
  - intros i. rewrite Hunits. simpl (Z.of_nat 0).
    destruct (decide (0 <= i < Z.of_nat (npieces src))).
    + rewrite decide_True by lia. done.
    + rewrite decide_False by lia. done.
Qed.

Lemma buildInitPacket_spec (self : Encoder.t) (w : world) (src : bytes) :
  let name := Encoder.basename (Encoder.file self) in
  let meta := metadata name (Encoder.packets_built self) (len src) in
  Packet.overflow (cls w) = PInt 0 ->
  files (fs w) !! Encoder.file self = Some src ->
  Forall (fun c => 0 <= c < 128) meta ->
  fromhex meta = Raise ValueError ->
  len meta <= Packet.data_size ->
  Encoder.buildInitPacket self w
  = (Ok tt,
     {| cls := cls w;
        fs := {| units := units (fs w); init_qp := Some (frame_layout 16 0 meta);
                 files := files (fs w) |} |}).
Proof.
  intros name meta Hov Hsrc Hascii Hhex Hlen.
  unfold Encoder.buildInitPacket. apply try_ok.
  unfold mbind at 1, M_bind at 1. unfold set_init_qp at 1.
  unfold getsize.
  unfold mbind at 1, M_bind at 1. unfold mbind at 1, M_bind at 1.
  rewrite (read_file_ok _ src) by done.
  unfold mret at 1, M_ret at 1. cbn [app].
  fold name. fold (metadata name (Encoder.packets_built self) (len src)). fold meta.
  rewrite (bind_ok _ _ _ _ _ (new_Packet_meta _ meta Hhex Hascii Hlen)).
  match goal with
  | |- (build ?p ≫= _) ?w2 = _ =>
      assert (Hb : build p w2 = (Ok (frame_layout 16 0 meta), w2))
  end.
  { apply build_ok; cbn [cls fs Packet.pid Packet.op_code Packet.data];
      try done; lia. }
  rewrite (bind_ok _ _ _ _ _ Hb). reflexivity.
Qed.

Lemma run_spec (self : Encoder.t) (w : world) (src : bytes) :
  let name := Encoder.basename (Encoder.file self) in
  let meta := metadata name (Z.of_nat (npieces src)) (len src) in
  Encoder.destructive self = false ->
  Packet.overflow (cls w) = PInt 0 ->
  files (fs w) !! Encoder.file self = Some src ->
  (0 < length src)%nat ->
  Z.of_nat (npieces src) <= Packet.max_id ->
  Forall is_name_code name ->
  fromhex meta = Raise ValueError ->
  len meta <= Packet.data_size ->
  exists w',
    Encoder.run self w
    = (Ok ({| Encoder.file := Encoder.file self; Encoder.destructive := false;
              Encoder.packets_built := Z.of_nat (npieces src) |}, true), w')
    /\ Packet.overflow (cls w') = PInt 0
    /\ init_qp (fs w') = Some (frame_layout 16 0 meta)
    /\ files (fs w') = files (fs w)
    /\ forall i : Z,
         units (fs w') !! i
         = if decide (0 <= i < Z.of_nat (npieces src)) then Some (unit_of src (Z.to_nat i))
           else units (fs w) !! i.
Proof.
  intros name meta Hd Hov Hsrc Hpos Hmax Hname Hhex Hlen.
  destruct (encode_spec self w src Hd Hov Hsrc Hpos Hmax)
    as (w1 & Hrun & Hov1 & Hinit1 & Hfiles1 & Hunits1).
  pose proof (metadata_ascii name (Z.of_nat (npieces src)) (len src) Hname
                ltac:(lia) (len_nonneg src)) as Hascii.
  fold meta in Hascii.
  set (self' := {| Encoder.file := Encoder.file self; Encoder.destructive := false;
                   Encoder.packets_built := Z.of_nat (npieces src) |}) in *.
  assert (Hsrc1 : files (fs w1) !! Encoder.file self' = Some src)
    by (by rewrite Hfiles1).
  pose proof (buildInitPacket_spec self' w1 src Hov1 Hsrc1 Hascii Hhex Hlen) as Hb.
  eexists. split.
  - unfold Encoder.run. apply try_ok.
    rewrite (bind_ok _ _ _ _ _ Hrun).
    rewrite (bind_ok _ _ _ _ _ Hb). reflexivity.
  - cbn [cls fs units init_qp files]. repeat split; done.
Qed.

(** ** A whole bulk pass of the decoder *)

Lemma max_pid_ge (us : gmap Z bytes) (k : Z) (v : bytes) :
  us !! k = Some v -> k <= Decoder.max_pid us.
Proof.
  unfold Decoder.max_pid. revert k v.
  apply (map_fold_weak_ind
           (fun r (m : gmap Z bytes) => forall k v, m !! k = Some v -> k <= r)).
  - intros k v H. by rewrite lookup_empty in H.
  - intros i x m r Hi IH k v H.
    destruct (decide (i = k)) as [->|Hne]; [lia|].
    rewrite lookup_insert_ne in H by done. specialize (IH _ _ H). lia.
Qed.

Lemma max_pid_lower (us : gmap Z bytes) : -1 <= Decoder.max_pid us.
Proof.
  unfold Decoder.max_pid.
  apply (map_fold_weak_ind (fun r (m : gmap Z bytes) => -1 <= r)); intros; lia.
Qed.

Lemma readInit_spec (set_iter : list Z -> list Z) (w : world) (name : pystr)
    (count size : Z) :
  set_iter_ok set_iter ->
  init_qp (fs w) = Some (frame_layout 16 0 (metadata name count size)) ->
  Forall is_name_code name -> 0 <= count -> 0 <= size ->
  Decoder.readInit set_iter w = (Ok [name; py_str count; py_str size], w).
Proof.
  intros Hs Hinit Hname Hc Hsz. unfold Decoder.readInit. apply try_ok.
  rewrite Hinit.
  pose proof (metadata_ascii name count size Hname Hc Hsz) as Hascii.
  rewrite information_of_frame_layout;
    [|done|lia|lia|by apply pid_end_free_small|by apply end_free_ascii].
  cbn [mbind res_bind]. rewrite utf8_decode_ascii by done.
  cbn [mbind res_bind]. by rewrite metadata_split.
Qed.

Lemma init_spec (set_iter : list Z -> list Z) (self : Decoder.t) (w : world)
    (name : pystr) (count size : Z) :
  set_iter_ok set_iter ->
  init_qp (fs w) = Some (frame_layout 16 0 (metadata name count size)) ->
  Forall is_name_code name -> 0 <= count -> 0 <= size ->
  Decoder.init set_iter self w
  = (Ok {| Decoder.file_path := Decoder.file_path self;
           Decoder.file_name := Some (default name (Decoder.file_name self));
           Decoder.destructive := Decoder.destructive self;
           Decoder.expected_packets := Some count;
           Decoder.file_size := Some size |}, w).
Proof.
  intros Hs Hinit Hname Hc Hsz. unfold Decoder.init.
  rewrite (bind_ok _ _ _ _ _ (readInit_spec set_iter w name count size Hs Hinit Hname Hc Hsz)).
  assert (H1 : py_index [name; py_str count; py_str size] 1 ≫= py_int = Ok count).
  { change (py_index [name; py_str count; py_str size] 1) with (Ok (py_str count)).
    cbn [mbind res_bind]. by apply py_int_py_str. }
  assert (H2 : py_index [name; py_str count; py_str size] 2 ≫= py_int = Ok size).
  { change (py_index [name; py_str count; py_str size] 2) with (Ok (py_str size)).
    cbn [mbind res_bind]. by apply py_int_py_str. }
  unfold mbind at 1 2 3, M_bind, lift. rewrite H1, H2.
  destruct (Decoder.file_name self); reflexivity.
Qed.

Lemma concat_pieces (src : bytes) (n : nat) :
  forall k, (length (drop (77 * k) src) <= 77 * n)%nat ->
    concat (piece src <$> seq k n) = drop (77 * k) src.
Proof.
  induction n as [|n IH]; intros k Hl.
  - cbn [seq fmap list_fmap concat]. symmetry. apply nil_length_inv. lia.
  - cbn [seq]. rewrite fmap_cons. cbn [concat]. rewrite IH.
    + unfold piece. change (Z.to_nat Packet.data_size) with 77%nat.
      replace (77 * S k)%nat with (77 * k + 77)%nat by lia.
      rewrite <- drop_drop. apply take_drop.
    + rewrite length_drop in *. lia.
Qed.

Lemma concat_all_pieces (src : bytes) :
  concat (piece src <$> seq 0 (npieces src)) = src.
Proof.
  rewrite concat_pieces; [done|]. rewrite length_drop. unfold npieces.
  pose proof (Nat.div_mod_eq (length src + 76) 77).
  pose proof (Nat.mod_upper_bound (length src + 76) 77 ltac:(lia)). lia.
Qed.

Lemma utf8_encode_piece_texts (src : bytes) (idx : list nat) :
  (forall i, i ∈ idx -> exists s, utf8_decode (piece src i) = Ok s) ->
  utf8_encode (concat (piece_text src <$> idx)) = Ok (concat (piece src <$> idx)).
Proof.
  induction idx as [|i idx IH]; intros H; [done|].
  rewrite !fmap_cons. cbn [concat]. apply utf8_encode_app.
  - destruct (H i) as [s Hs]; [set_solver|]. unfold piece_text. rewrite Hs.
    by apply utf8_decode_encode.
  - apply IH. intros j Hj. apply H. set_solver.
Qed.

(** The store that [encode] leaves, read by the decoder. *)
Lemma slot_text_unit_of (set_iter : list Z -> list Z) (us : gmap Z bytes)
    (src : bytes) (i : nat) :
  set_iter_ok set_iter ->
  us !! Z.of_nat i = Some (unit_of src i) ->
  pid_end_free (Z.of_nat i) -> piece_ok (piece src i) ->
  slot_text set_iter us (Z.of_nat i) = Ok (piece_text src i)
  /\ (length (piece_text src i) <= 77)%nat.
Proof.
  intros Hs Hu Hp [[s Hd] He]. unfold slot_text. rewrite Hu. unfold unit_of.
  rewrite information_of_frame_layout; try done;
    try (destruct (decide (S i = npieces src)); lia).
  cbn [mbind res_bind]. unfold piece_text. rewrite Hd. split; [done|].
  apply utf8_decode_length in Hd. pose proof (length_piece src i) as Hl.
  unfold len, Packet.data_size in Hl. lia.
Qed.

Lemma bulk_fuel_enough (us : gmap Z bytes) (stop : nat) :
  (forall p : nat, (p < stop)%nat ->
     is_Some (us !! Z.of_nat p) \/ is_Some (us !! (Z.of_nat p + 1))) ->
  us !! Z.of_nat stop = None ->
  (stop < Z.to_nat (Decoder.max_pid us + 3))%nat.
Proof.
  intros Hfirst Hstop. pose proof (max_pid_lower us).
  destruct stop as [|k]; [lia|].
  destruct (Hfirst k ltac:(lia)) as [[v Hv]|[v Hv]].
  - apply max_pid_ge in Hv. lia.
  - replace (Z.of_nat k + 1) with (Z.of_nat (S k)) in Hv by lia. congruence.
Qed.

(** [bulkDecode] from the opening of the in-progress file on, over a store
    without gaps below [stop]. *)
Lemma bulk_tail_spec (set_iter : list Z -> list Z) (scaffp : pystr) (w : world)
    (stop : nat) (ts : list pystr) (b old : bytes) :
  let us := units (fs w) in
  us !! Z.of_nat stop = None ->
  us !! (Z.of_nat stop + 1) = None ->
  (forall p : nat, (p < stop)%nat -> is_Some (us !! Z.of_nat p)) ->
  length ts = stop ->
  (forall (p : nat) t, ts !! p = Some t ->
     slot_text set_iter us (Z.of_nat p) = Ok t /\ (length t <= 77)%nat) ->
  utf8_encode (concat ts) = Ok b ->
  files (fs w) !! scaffp = Some old ->
  (_ ← read_file scaffp;
   fuel ← Decoder.bulk_fuel;
   r ← Decoder.bulk_loop set_iter fuel scaffp (-1) [] [];
   mret (Some r.2)) w
  = (Ok (Some []), (Decoder.write_at_start scaffp b w).2).
Proof.
  intros us Hstop Hnext Hall Hlen Htext Hb Hold.
  assert (Hfirst : forall p : nat, (p < stop)%nat ->
            is_Some (us !! Z.of_nat p) \/ is_Some (us !! (Z.of_nat p + 1))).
  { intros p Hp. left. by apply Hall. }
  rewrite (bind_ok _ _ _ _ _ (read_file_ok _ _ _ Hold)).
  unfold mbind at 1, M_bind at 1, Decoder.bulk_fuel.
  pose proof (bulk_fuel_enough us stop Hfirst Hstop) as Hfuel.
  pose proof (bulk_loop_from set_iter scaffp us stop ts Hstop Hnext Hfirst Hlen Htext
                b Hb (Z.to_nat (Decoder.max_pid us + 3)) 0%nat w eq_refl
                ltac:(lia) ltac:(lia)) as Hloop.
  change (Z.of_nat 0 - 1) with (-1) in Hloop. cbn [take concat] in Hloop.
  change (absent_below us 0) with (@nil Z) in Hloop.
  fold us. rewrite (bind_ok _ _ _ _ _ Hloop).
  assert (Hnone : absent_below us stop = []).
  { apply elem_of_nil_inv. intros p Hp.
    apply elem_of_absent_below in Hp as [Hp Hu].
    destruct (Hall (Z.to_nat p) ltac:(lia)) as [v Hv].
    rewrite Z2Nat.id in Hv by lia. congruence. }
  cbn [snd]. rewrite Hnone. reflexivity.
Qed.

Lemma scaff_path_ne (nf : pystr) : nf <> nf ++ lit ".scaff".
Proof.
  intros H. apply (f_equal length) in H. rewrite length_app in H.
  change (length (lit ".scaff")) with 6%nat in H. lia.
Qed.

(** [bulkDecode] over a store without gaps below [stop], the in-progress
    file being in place with the size of the text to write: the text ends up
    in the final file and [None] is returned. *)
Lemma bulkDecode_spec (set_iter : list Z -> list Z) (self : Decoder.t) (w : world)
    (nf : pystr) (stop : nat) (ts : list pystr) (b old : bytes) :
  let us := units (fs w) in
  Decoder.newFile self = Ok nf ->
  us !! Z.of_nat stop = None ->
  us !! (Z.of_nat stop + 1) = None ->
  (forall p : nat, (p < stop)%nat -> is_Some (us !! Z.of_nat p)) ->
  length ts = stop ->
  (forall (p : nat) t, ts !! p = Some t ->
     slot_text set_iter us (Z.of_nat p) = Ok t /\ (length t <= 77)%nat) ->
  utf8_encode (concat ts) = Ok b ->
  files (fs w) !! (nf ++ lit ".scaff") = Some old ->
  length old = length b ->
  exists w',
    Decoder.bulkDecode set_iter self w = (Ok None, w')
    /\ files (fs w') !! nf = Some b
    /\ files (fs w') !! (nf ++ lit ".scaff") = None
    /\ units (fs w') = us.
Proof.
  intros us Hnf Hstop Hnext Hall Hlen Htext Hb Hold Hsize.
  pose proof (scaff_path_ne nf) as Hne.
  set (scaffp := nf ++ lit ".scaff") in *.
  set (w4 := {| cls := cls w;
                fs := {| units := us; init_qp := init_qp (fs w);
                         files := delete nf (files (fs w)) |} |}).
  assert (Hold4 : files (fs w4) !! scaffp = Some old).
  { cbn [w4 fs files]. rewrite lookup_delete_ne by done. done. }
  pose proof (bulk_tail_spec set_iter scaffp w4 stop ts b old Hstop Hnext Hall Hlen
                Htext Hb Hold4) as Htail.
  set (w5 := (Decoder.write_at_start scaffp b w4).2) in *.
  assert (Hw5 : files (fs w5) = <[scaffp := b]> (delete nf (files (fs w)))).
  { unfold w5, Decoder.write_at_start, set_files. cbn [snd fs files].
    rewrite Hold4. rewrite drop_ge by lia. by rewrite app_nil_r. }
  assert (Hbody :
    try_except
      (newFile ← lift (Decoder.newFile self);
       ex ← path_exists newFile;
       (if (ex : bool) then os_remove newFile else mret tt);;
       _ ← read_file (newFile ++ lit ".scaff");
       fuel ← Decoder.bulk_fuel;
       r ← Decoder.bulk_loop set_iter fuel (newFile ++ lit ".scaff") (-1) [] [];
       mret (Some r.2))
      is_OSError (mret None) w
    = (Ok (Some []), w5)).
  { apply try_ok. unfold lift at 1. rewrite Hnf.
    unfold mbind at 1, M_bind at 1. unfold mbind at 1, M_bind at 1.
    unfold path_exists at 1.
    destruct (files (fs w) !! nf) as [c|] eqn:Enf.
    - rewrite bool_decide_eq_true_2 by eauto.
      assert (Hrm : os_remove nf w = (Ok tt, w4)).
      { unfold os_remove. rewrite (bind_ok _ _ _ _ _ (read_file_ok _ _ _ Enf)).
        reflexivity. }
      rewrite (bind_ok _ _ _ _ _ Hrm). exact Htail.
    - rewrite bool_decide_eq_false_2 by (by intros [? ?]).
      unfold mbind at 1, M_bind at 1. unfold mret at 1, M_ret at 1.
      assert (w = w4) as Hw.
      { unfold w4, us. rewrite delete_id by done. by destruct w as [? []]. }
      rewrite Hw at 1. exact Htail. }
  assert (Hscaff5 : files (fs w5) !! scaffp = Some b).
  { rewrite Hw5. apply lookup_insert_eq. }
  eexists. split.
  - unfold Decoder.bulkDecode. rewrite (bind_ok _ _ _ _ _ Hbody).
    unfold Decoder.buildScaffold. unfold lift at 1. rewrite Hnf.
    unfold mbind at 1 2, M_bind at 1 2. fold scaffp.
    unfold os_rename. rewrite (bind_ok _ _ _ _ _ (read_file_ok _ _ _ Hscaff5)).
    reflexivity.
  - cbn [fs files units]. split; [apply lookup_insert_eq|]. split.
    + rewrite lookup_insert_ne by done. apply lookup_delete_eq.
    + unfold w5, Decoder.write_at_start, set_files. reflexivity.
Qed.

Lemma length_spaces (n : nat) : length (py_mul [32] (Z.of_nat n)) = n.
Proof.
  unfold py_mul. rewrite Nat2Z.id. induction n as [|n IH]; [done|].
  cbn [replicate concat app length]. by rewrite IH.
Qed.

Lemma prepareFileLocation_spec (self : Decoder.t) (w : world) (nf : pystr) (size : Z) :
  Decoder.newFile self = Ok nf -> Decoder.file_size self = Some size ->
  Decoder.prepareFileLocation self w
  = (Ok tt,
     {| cls := cls w;
        fs := {| units := units (fs w); init_qp := init_qp (fs w);
                 files := <[nf ++ lit ".scaff" := py_mul [32] size]> (files (fs w)) |} |}).
Proof.
  intros Hnf Hsz. unfold Decoder.prepareFileLocation. rewrite Hnf, Hsz. reflexivity.
Qed.

(** ** Encode, then decode *)




(** * Further properties of the module *)

(** ** The constructor and [build] of Packet *)

(** X1. The constructor returns a packet exactly when the pid is not
    negative, the data converts to at most 77 bytes, and the op_code is 0x0,
    or 0x7 with the pid one above the last pid, or one of 0x1..0x6. *)
Theorem X1_init_succeeds_iff (st : Packet.pstate) (data : Packet.arg) (pid : Z)
    (kw : option Z) :
  let op := match kw with Some c => c | None => 0 end in
  (exists r, Packet.init st data pid kw = Ok r)
  <-> 0 <= pid
      /\ (exists b, Packet.to_bytearray data = Ok b /\ len b <= Packet.data_size)
      /\ (op = 0 \/ (op = 7 /\ pid = Packet.last_id st + 1) \/ 1 <= op <= 6).
Proof.
  intros op. split.
  - intros [[p st'] H]. apply init_inv in H as (Hp & Ho & Hr & Hb & Hl & _ & H7 & _).
    fold op in Hr, H7. split; [done|]. split; [eauto|].
    destruct (decide (op = 0)); [by left|right].
    destruct (decide (op = 7)); [left; split; [done|by apply H7]|right; lia].
  - intros (Hp & (b & Hb & Hl) & Hop). unfold Packet.init.
    destruct (Z.ltb_spec pid 0); [lia|]. rewrite Hb. cbn [mbind res_bind].
    destruct (Z.leb_spec (len b) Packet.data_size); [|lia]. fold op.
    destruct (Z.eqb_spec op 0) as [E0|E0].
    { cbn [orb mbind res_bind]. eauto. }
    destruct (Z.eqb_spec op 7) as [E7|E7].
    { destruct (Z.eqb_spec (Packet.last_id st + 1) pid); [|lia].
      cbn [orb andb mbind res_bind]. eauto. }
    destruct (Z.gtb_spec op 0); [|lia]. destruct (Z.ltb_spec op 7); [|lia].
    cbn [orb andb mbind res_bind]. eauto.
Qed.

(** X2. The three errors of the constructor and their precedence: a
    negative pid is rejected first, whatever the data; then data longer than
    77 bytes, whatever the op_code and the last pid; then an op_code that is
    neither 0x0, nor 0x7 in sequence, nor in 0x1..0x6.  No error changes the
    class state (the result carries none). *)
Theorem X2_init_errors (st : Packet.pstate) (data : Packet.arg) (b : bytes) (pid : Z)
    (kw : option Z) :
  let op := match kw with Some c => c | None => 0 end in
  (pid < 0 -> Packet.init st data pid kw = Raise ValueError_pid_invalid)
  /\ (0 <= pid -> Packet.to_bytearray data = Ok b -> Packet.data_size < len b ->
      Packet.init st data pid kw = Raise ValueError_too_large)
  /\ (0 <= pid -> Packet.to_bytearray data = Ok b -> len b <= Packet.data_size ->
      op <> 0 -> (op = 7 -> pid <> Packet.last_id st + 1) -> ~ 1 <= op <= 6 ->
      Packet.init st data pid kw = Raise ValueError_pid_out_of_order).
Proof.
  intros op. split; [apply init_negative_pid|]. split; [apply init_too_large|].
  intros Hp Hb Hl H0 H7 H16. unfold Packet.init.
  destruct (Z.ltb_spec pid 0); [lia|]. rewrite Hb. cbn [mbind res_bind].
  destruct (Z.leb_spec (len b) Packet.data_size); [|lia]. fold op.
  destruct (Z.eqb_spec op 0); [done|].
  destruct (Z.eqb_spec op 7) as [E|E].
  - destruct (Z.eqb_spec (Packet.last_id st + 1) pid) as [E'|E'];
      [by specialize (H7 E)|]. rewrite E. reflexivity.
  - destruct (Z.gtb_spec op 0), (Z.ltb_spec op 7); try reflexivity. lia.
Qed.

Lemma X2_witness :
  Packet.init Packet.initial (Packet.DBytes (replicate 78 65)) (-1) (Some 9)
  = Raise ValueError_pid_invalid
  /\ Packet.init Packet.initial (Packet.DBytes (replicate 78 65)) 4 (Some 9)
     = Raise ValueError_too_large
  /\ Packet.init Packet.initial (Packet.DBytes [65]) 4 (Some 9)
     = Raise ValueError_pid_out_of_order.
Proof.
  split; [|split].
  - apply (X2_init_errors Packet.initial (Packet.DBytes (replicate 78 65))
             (replicate 78 65) (-1) (Some 9)). lia.
  - apply (X2_init_errors Packet.initial (Packet.DBytes (replicate 78 65))
             (replicate 78 65) 4 (Some 9)); [lia|reflexivity|vm_compute; reflexivity].
  - apply (X2_init_errors Packet.initial (Packet.DBytes [65]) [65] 4 (Some 9));
      [lia|reflexivity|vm_compute; discriminate|lia|lia|lia].
Defined.

(** X3. For the op_codes 0x1..0x6 the pid given to the constructor is
    dropped: the packet carries pid 0, the last pid stays what it was, and
    two constructions that differ only in the pid (neither above [max_id])
    return the same packet and the same class state. *)
Theorem X3_control_packet_ignores_pid (st st1 st2 : Packet.pstate) (data : Packet.arg)
    (pid1 pid2 op : Z) (p1 p2 : Packet.t) :
  1 <= op <= 6 -> pid1 <= Packet.max_id -> pid2 <= Packet.max_id ->
  Packet.init st data pid1 (Some op) = Ok (p1, st1) ->
  Packet.init st data pid2 (Some op) = Ok (p2, st2) ->
  Packet.pid p1 = 0 /\ st1 = st /\ p2 = p1 /\ st2 = st.
Proof.
  intros Hop H1 H2 E1 E2. unfold Packet.init in E1, E2.
  destruct (pid1 <? 0); [done|]. destruct (pid2 <? 0); [done|].
  destruct (Packet.to_bytearray data) as [b|]; [|done]. cbn [mbind res_bind] in *.
  destruct (len b <=? Packet.data_size); [|done].
  destruct (Z.eqb_spec op 0); [lia|]. destruct (Z.eqb_spec op 7); [lia|].
  destruct (Z.gtb_spec op 0); [|lia]. destruct (Z.ltb_spec op 7); [|lia].
  cbn in E1, E2.
  destruct (Z.gtb_spec pid1 Packet.max_id); [lia|].
  destruct (Z.gtb_spec pid2 Packet.max_id); [lia|].
  injection E1 as <- <-. injection E2 as <- <-. done.
Qed.

Lemma X3_witness :
  Packet.pid {| Packet.op_code := 1; Packet.pid := 0; Packet.data := [65];
                Packet.nbytes := 1 |} = 0
  /\ Packet.initial = Packet.initial
  /\ {| Packet.op_code := 1; Packet.pid := 0; Packet.data := [65]; Packet.nbytes := 1 |}
     = {| Packet.op_code := 1; Packet.pid := 0; Packet.data := [65]; Packet.nbytes := 1 |}
  /\ Packet.initial = Packet.initial.
Proof.
  apply (X3_control_packet_ignores_pid Packet.initial Packet.initial Packet.initial
           (Packet.DBytes [65]) 5 40 1); try reflexivity; unfold Packet.max_id; lia.
Defined.

Lemma init_pid_range (st st' : Packet.pstate) (data : Packet.arg) (pid : Z)
    (kw : option Z) (p : Packet.t) :
  Packet.init st data pid kw = Ok (p, st') -> 0 <= Packet.pid p < 2 ^ 32.
Proof.
  intros H. apply init_inv in H as (Hp & Ho & Hr & _ & _ & H07 & _ & H16 & _).
  set (op := match kw with Some c => c | None => 0 end) in *.
  destruct (decide (op = 0 \/ op = 7)) as [E|E].
  - destruct (H07 E) as [_ ->].
    pose proof (Z.mod_pos_bound pid Packet.max_id ltac:(unfold Packet.max_id; lia)).
    unfold Packet.max_id in *. lia.
  - destruct (H16 ltac:(lia)) as [_ ->]. lia.
Qed.

(** X4. While the overflow attribute is the 0 of the class body, [build] of
    every constructed packet with a pid up to [max_id] returns exactly 256
    bytes: sync and start words, the pid and flags bytes three times, the
    payload three times, the end and sync words, and 0xFF in every byte after
    them; the flags byte is the op_code shifted to bits 6-4. *)
Theorem X4_build_is_256_bytes (st st' : Packet.pstate) (data : Packet.arg) (pid : Z)
    (kw : option Z) (p : Packet.t) :
  Packet.overflow st = PInt 0 -> pid <= Packet.max_id ->
  Packet.init st data pid kw = Ok (p, st') ->
  exists frame,
    Packet.build st' p = Ok frame
    /\ length frame = 256%nat
    /\ frame = [0xFF; 0xFF; 0xAB; 0xCD]
               ++ py_mul (be_bytes 4 (Packet.pid p) ++ [Packet.op_code p * 16]) 3
               ++ py_mul (Packet.data p) 3
               ++ [0xDC; 0xBA; 0xFF; 0xFF]
               ++ replicate (233 - 3 * length (Packet.data p)) 0xFF.
Proof.
  intros Hov Hpid H. pose proof (init_pid_range _ _ _ _ _ _ H) as Hr.
  pose proof H as Hi. apply init_inv in Hi as (_ & Ho & Hop & _ & Hl & _ & _ & _ & Hov').
  rewrite <- Ho in Hop.
  exists (frame_layout (Packet.op_code p * 16) (Packet.pid p) (Packet.data p)).
  split; [apply build_layout; try done; by rewrite (Hov' Hpid)|].
  split; [by apply length_frame_layout|].
  unfold frame_layout. do 4 f_equal. unfold len, Packet.data_size in *.
  f_equal. lia.
Qed.

Lemma X4_witness :
  exists frame,
    Packet.build {| Packet.last_id := 3; Packet.overflow := PInt 0 |}
      {| Packet.op_code := 0; Packet.pid := 3; Packet.data := [104; 105];
         Packet.nbytes := 2 |} = Ok frame
    /\ length frame = 256%nat
    /\ frame = [0xFF; 0xFF; 0xAB; 0xCD]
               ++ py_mul (be_bytes 4 3 ++ [0 * 16]) 3
               ++ py_mul [104; 105] 3
               ++ [0xDC; 0xBA; 0xFF; 0xFF]
               ++ replicate (233 - 3 * length [104; 105]) 0xFF.
Proof.
  apply (X4_build_is_256_bytes Packet.initial _ (Packet.DBytes [104; 105]) 3 None);
    [reflexivity|unfold Packet.max_id; lia|reflexivity].
Defined.

(** X5. A float in the overflow attribute never leaves it: every later
    construction keeps a float there, and [build] of every packet constructed
    from then on raises [TypeError].  With [overflow_float_above_max_id]: once
    a pid above [max_id] was used, the process cannot serialize any more. *)
Theorem X5_float_overflow_is_permanent (st st' : Packet.pstate) (q : Q)
    (data : Packet.arg) (pid : Z) (kw : option Z) (p : Packet.t) :
  Packet.overflow st = PFloat q ->
  Packet.init st data pid kw = Ok (p, st') ->
  (exists q', Packet.overflow st' = PFloat q')
  /\ Packet.build st' p = Raise TypeError.
Proof.
  intros Hov H. pose proof (init_pid_range _ _ _ _ _ _ H) as Hr.
  assert (Hq : exists q', Packet.overflow st' = PFloat q').
  { destruct (Z.le_gt_cases pid Packet.max_id) as [Hle|Hgt].
    - rewrite (overflow_kept_up_to_max_id _ _ _ _ _ _ H Hle). eauto.
    - eapply overflow_float_above_max_id; [exact H|lia]. }
  split; [done|]. destruct Hq as [q' Hq']. by apply (build_raises_on_float _ _ q').
Qed.

Lemma X5_witness :
  (exists q', Packet.overflow {| Packet.last_id := 0;
                                 Packet.overflow := PFloat (4294967295 # 4294967296) |}
              = PFloat q')
  /\ Packet.build {| Packet.last_id := 0;
                     Packet.overflow := PFloat (4294967295 # 4294967296) |}
       {| Packet.op_code := 0; Packet.pid := 0; Packet.data := [65];
          Packet.nbytes := 1 |} = Raise TypeError.
Proof.
  apply (X5_float_overflow_is_permanent
           {| Packet.last_id := 4294967296;
              Packet.overflow := PFloat (4294967295 # 4294967296) |}
           _ (4294967295 # 4294967296) (Packet.DBytes [65]) 0 None);
    reflexivity.
Defined.

(** ** The vote and the header *)

Lemma max_from_in (key : Z -> nat) (l : list Z) :
  forall best, max_from key best l ∈ best :: l.
Proof.
  induction l as [|x l IH]; intros best; simpl; [set_solver|].
  specialize (IH (if (key best <? key x)%nat then x else best)).
  destruct (key best <? key x)%nat; set_solver.
Qed.

Lemma py_index_cases {A} (l : list A) (j : Z) :
  0 <= j ->
  (j < len l /\ exists x, l !! Z.to_nat j = Some x /\ py_index l j = Ok x)
  \/ (len l <= j /\ py_index l j = Raise IndexError).
Proof.
  intros Hj. unfold py_index.
  assert (Hn : (j <? 0) = false) by (apply Z.ltb_ge; lia). rewrite !Hn.
  destruct (l !! Z.to_nat j) as [x|] eqn:E.
  - left. apply lookup_lt_Some in E as Hlt. unfold len. split; [lia|eauto].
  - right. apply lookup_ge_None in E. unfold len. split; [lia|done].
Qed.

Lemma resolveExpansion_None_spec (set_iter : list Z -> list Z) (information : bytes) :
  set_iter_ok set_iter ->
  exists out,
    Decoder.resolveExpansion set_iter information None = Ok out
    /\ length out = (length information / 3)%nat
    /\ forall i v, out !! i = Some v ->
         information !! i = Some v
         \/ information !! (i + length information / 3)%nat = Some v
         \/ information !! (i + 2 * (length information / 3))%nat = Some v.
Proof.
  intros Hs. set (k := (length information / 3)%nat).
  assert (Hk : len information / 3 = Z.of_nat k).
  { unfold len, k. by rewrite Nat2Z.inj_div. }
  assert (H3 : (3 * k <= length information)%nat).
  { unfold k. pose proof (Nat.div_mod_eq (length information) 3). lia. }
  set (cand := fun (i : Z) (j : nat) => default 0 (information !! (Z.to_nat i + j * k)%nat)).
  set (f := fun i : Z =>
         let vote := [cand i 0%nat; cand i 1%nat; cand i 2%nat] in
         match py_max_key (py_count vote) (set_iter vote) with
         | Ok m => m
         | Raise _ => 0
         end).
  assert (Hcand : forall i j, 0 <= i < Z.of_nat k -> (j <= 2)%nat ->
            information !! (Z.to_nat i + j * k)%nat = Some (cand i j)
            /\ py_index information (i + Z.of_nat j * Z.of_nat k) = Ok (cand i j)).
  { intros i j Hi Hj.
    destruct (lookup_lt_is_Some_2 information (Z.to_nat i + j * k)) as [x Hx]; [nia|].
    assert (Hc : cand i j = x) by (unfold cand; by rewrite Hx).
    rewrite Hc. split; [done|].
    replace (i + Z.of_nat j * Z.of_nat k) with (Z.of_nat (Z.to_nat i + j * k)) by nia.
    by apply py_index_lookup. }
  assert (Hvote : forall i, 0 <= i < Z.of_nat k ->
            exists m, py_max_key (py_count [cand i 0%nat; cand i 1%nat; cand i 2%nat])
                        (set_iter [cand i 0%nat; cand i 1%nat; cand i 2%nat]) = Ok m
                      /\ m ∈ [cand i 0%nat; cand i 1%nat; cand i 2%nat]).
  { intros i Hi. set (vote := [cand i 0%nat; cand i 1%nat; cand i 2%nat]).
    assert (Hin : forall x, x ∈ set_iter vote <-> x ∈ vote).
    { intros x. rewrite (Hs vote). apply elem_of_remove_dups. }
    destruct (set_iter vote) as [|x tl] eqn:E.
    - exfalso. apply (not_elem_of_nil (cand i 0%nat)). apply Hin. set_solver.
    - eexists. split; [reflexivity|]. apply Hin. apply max_from_in. }
  exists (f <$> seqZ 0 (Z.of_nat k)). split; [|split].
  - unfold Decoder.resolveExpansion. rewrite Hk. unfold range.
    rewrite (for_range_collect f); [done|].
    intros a i Hi. apply elem_of_seqZ in Hi.
    destruct (Hcand i 0%nat ltac:(lia) ltac:(lia)) as [_ H0].
    destruct (Hcand i 1%nat ltac:(lia) ltac:(lia)) as [_ H1].
    destruct (Hcand i 2%nat ltac:(lia) ltac:(lia)) as [_ H2].
    replace (i + Z.of_nat 0 * Z.of_nat k) with i in H0 by lia.
    replace (i + Z.of_nat 1 * Z.of_nat k) with (i + Z.of_nat k) in H1 by lia.
    replace (i + Z.of_nat 2 * Z.of_nat k) with (i + Z.of_nat k * 2) in H2 by lia.
    rewrite H0, H1, H2. cbn [mbind res_bind].
    destruct (Hvote i ltac:(lia)) as (m & Hm & _). unfold f. rewrite Hm. done.
  - rewrite length_fmap, length_seqZ. lia.
  - intros i v Hv. rewrite list_lookup_fmap in Hv.
    destruct (seqZ 0 (Z.of_nat k) !! i) as [z|] eqn:Ez; [|done].
    apply lookup_seqZ in Ez as [-> Hlt]. injection Hv as <-.
    destruct (Hvote (0 + Z.of_nat i) ltac:(lia)) as (m & Hm & Hin).
    unfold f. rewrite Hm.
    destruct (Hcand (0 + Z.of_nat i) 0%nat ltac:(lia) ltac:(lia)) as [H0 _].
    destruct (Hcand (0 + Z.of_nat i) 1%nat ltac:(lia) ltac:(lia)) as [H1 _].
    destruct (Hcand (0 + Z.of_nat i) 2%nat ltac:(lia) ltac:(lia)) as [H2 _].
    replace (Z.to_nat (0 + Z.of_nat i) + 0 * k)%nat with i in H0 by lia.
    replace (Z.to_nat (0 + Z.of_nat i) + 1 * k)%nat with (i + k)%nat in H1 by lia.
    replace (Z.to_nat (0 + Z.of_nat i) + 2 * k)%nat with (i + 2 * k)%nat in H2 by lia.
    apply elem_of_cons in Hin as [->|Hin]; [by left|].
    apply elem_of_cons in Hin as [->|Hin]; [right; by left|].
    apply list_elem_of_singleton in Hin as ->. right; by right.
Qed.

Lemma information_of_total (set_iter : list Z -> list Z) (packet_data : bytes) :
  set_iter_ok set_iter ->
  exists information, Decoder.information_of set_iter packet_data = Ok information.
Proof.
  intros Hs. unfold Decoder.information_of. rewrite end_word_value.
  cbn [mbind res_bind].
  destruct (resolveExpansion_None_spec set_iter
              (py_slice packet_data 19 (find packet_data [220; 186])) Hs)
    as (out & Hout & _).
  eauto.
Qed.

(** X6. Without the [size] argument [resolveExpansion] never raises: for
    every byte string it returns [len // 3] bytes, and each of them is one of
    its three candidates, ties included; trailing bytes beyond three times
    that length are not looked at. *)
Theorem X6_resolveExpansion_total (set_iter : list Z -> list Z) (information : bytes) :
  set_iter_ok set_iter ->
  exists out,
    Decoder.resolveExpansion set_iter information None = Ok out
    /\ length out = (length information / 3)%nat
    /\ forall i v, out !! i = Some v ->
         information !! i = Some v
         \/ information !! (i + length information / 3)%nat = Some v
         \/ information !! (i + 2 * (length information / 3))%nat = Some v.
Proof. apply resolveExpansion_None_spec. Qed.

Lemma X6_witness :
  exists out,
    Decoder.resolveExpansion remove_dups [1; 2; 3; 4; 5; 6; 7] None = Ok out
    /\ length out = (length [1; 2; 3; 4; 5; 6; 7] / 3)%nat
    /\ forall i v, out !! i = Some v ->
         [1; 2; 3; 4; 5; 6; 7] !! i = Some v
         \/ [1; 2; 3; 4; 5; 6; 7] !! (i + length [1; 2; 3; 4; 5; 6; 7] / 3)%nat = Some v
         \/ [1; 2; 3; 4; 5; 6; 7] !! (i + 2 * (length [1; 2; 3; 4; 5; 6; 7] / 3))%nat = Some v.
Proof.
  apply (X6_resolveExpansion_total remove_dups [1; 2; 3; 4; 5; 6; 7]).
  intros l. reflexivity.
Defined.

Lemma for_range_raise {A} (body : A -> Z -> res A) (e : exn) (idxs : list Z) :
  (forall a i, i ∈ idxs -> body a i = Raise e \/ exists a', body a i = Ok a') ->
  (exists i, i ∈ idxs /\ forall a, body a i = Raise e) ->
  forall acc, for_range body acc idxs = Raise e.
Proof.
  induction idxs as [|j idxs IH]; intros Hall [i [Hi Hfail]] acc.
  - by apply elem_of_nil in Hi.
  - cbn [for_range]. apply elem_of_cons in Hi as [->|Hi].
    + by rewrite Hfail.
    + destruct (Hall acc j ltac:(set_solver)) as [->|[a' ->]]; [done|].
      cbn [mbind res_bind]. apply IH; [intros; apply Hall; set_solver|eauto].
Qed.

(** X7. With an explicit [size], [resolveExpansion] reads up to index
    [3 * size - 1]: a positive [size] that the information is too short for
    raises [IndexError], and a [size] of 0 or less returns the empty bytes
    whatever the information. *)
Theorem X7_resolveExpansion_explicit_size (set_iter : list Z -> list Z)
    (information : bytes) (size : Z) :
  set_iter_ok set_iter ->
  (size <= 0 -> Decoder.resolveExpansion set_iter information (Some size) = Ok [])
  /\ (0 < size -> len information < 3 * size ->
      Decoder.resolveExpansion set_iter information (Some size) = Raise IndexError).
Proof.
  intros Hs. split.
  - intros Hle. unfold Decoder.resolveExpansion, range.
    destruct size; try lia; reflexivity.
  - intros Hpos Hshort. unfold Decoder.resolveExpansion, range.
    apply for_range_raise.
    + intros a i Hi. apply elem_of_seqZ in Hi.
      destruct (py_index_cases information i ltac:(lia)) as [[_ (v0 & _ & ->)]|[_ ->]];
        [|by left].
      destruct (py_index_cases information (i + size) ltac:(lia))
        as [[_ (v1 & _ & ->)]|[_ ->]]; [|by left].
      destruct (py_index_cases information (i + size * 2) ltac:(lia))
        as [[_ (v2 & _ & ->)]|[_ ->]]; [|by left].
      cbn [mbind res_bind].
      assert (Hin : forall x, x ∈ set_iter [v0; v1; v2] <-> x ∈ [v0; v1; v2]).
      { intros x. rewrite (Hs [v0; v1; v2]). apply elem_of_remove_dups. }
      destruct (set_iter [v0; v1; v2]) as [|x tl] eqn:E.
      * exfalso. apply (not_elem_of_nil v0). apply Hin. set_solver.
      * right. cbn. eauto.
    + exists (size - 1). split; [apply elem_of_seqZ; lia|]. intros a.
      destruct (py_index_cases information (size - 1) ltac:(lia))
        as [[_ (v0 & _ & ->)]|[_ ->]]; [|done].
      destruct (py_index_cases information (size - 1 + size) ltac:(lia))
        as [[_ (v1 & _ & ->)]|[_ ->]]; [|done].
      destruct (py_index_cases information (size - 1 + size * 2) ltac:(lia))
        as [[Hlt _]|[_ ->]]; [lia|done].
Qed.

Lemma X7_witness :
  Decoder.resolveExpansion remove_dups [1; 2; 3] (Some 0) = Ok []
  /\ Decoder.resolveExpansion remove_dups [1; 2; 3; 4; 5] (Some 2) = Raise IndexError.
Proof.
  split.
  - apply (X7_resolveExpansion_explicit_size remove_dups [1; 2; 3] 0);
      [intros l; reflexivity|lia].
  - apply (X7_resolveExpansion_explicit_size remove_dups [1; 2; 3; 4; 5] 2);
      [intros l; reflexivity|lia|vm_compute; reflexivity].
Defined.

(** X8. [decipherHeader] inverts the layout of the header tail: from the
    four big-endian bytes of a pid below 2^32 followed by a flags byte it
    returns the pid, bit 7 of the flags as overflow and bits 6-4 as op_code;
    the four reserved bits and any bytes after the flags are ignored. *)
Theorem X8_decipherHeader_inverts_layout (pid overflow op reserved : Z) (rest : bytes) :
  0 <= pid < 2 ^ 32 -> 0 <= overflow <= 1 -> 0 <= op <= 7 -> 0 <= reserved <= 15 ->
  Decoder.decipherHeader
    (be_bytes 4 pid ++ [overflow * 128 + op * 16 + reserved] ++ rest)
  = Ok {| Decoder.h_pid := pid; Decoder.h_overflow := overflow;
          Decoder.h_op_code := op |}.
Proof.
  intros Hpid Ho Hop Hr. unfold Decoder.decipherHeader.
  set (flags := overflow * 128 + op * 16 + reserved).
  replace 4 with (len (be_bytes 4 pid)) at 1
    by (unfold len; by rewrite length_be_bytes).
  rewrite py_slice_prefix. unfold unpack_L.
  rewrite length_be_bytes, unpack_be_bytes. cbn [Nat.eqb mbind res_bind].
  assert (Hi : py_index (be_bytes 4 pid ++ [flags] ++ rest) 4 = Ok flags).
  { apply (py_index_lookup _ 4%nat).
    rewrite lookup_app_r; rewrite length_be_bytes; done. }
  rewrite Hi. cbn [mbind res_bind]. f_equal.
  rewrite Z.mod_small by (simpl; lia).
  assert (E7 : flags ≫ 7 = overflow).
  { rewrite Z.shiftr_div_pow2 by lia. change (2 ^ 7) with 128.
    unfold flags. Z.div_mod_to_equations. lia. }
  assert (E4 : flags ≫ 4 = overflow * 8 + op).
  { rewrite Z.shiftr_div_pow2 by lia. change (2 ^ 4) with 16.
    unfold flags. Z.div_mod_to_equations. lia. }
  rewrite E7, E4.
  change 1 with (Z.ones 1) at 1. change 7 with (Z.ones 3).
  rewrite !Z.land_ones by lia. change (2 ^ 1) with 2. change (2 ^ 3) with 8.
  f_equal; Z.div_mod_to_equations; lia.
Qed.

Lemma X8_witness :
  Decoder.decipherHeader (be_bytes 4 56506 ++ [1 * 128 + 7 * 16 + 9] ++ [1; 2; 3])
  = Ok {| Decoder.h_pid := 56506; Decoder.h_overflow := 1; Decoder.h_op_code := 7 |}.
Proof.
  apply (X8_decipherHeader_inverts_layout 56506 1 7 9 [1; 2; 3]); lia.
Defined.

(** X9. [decipherHeader] returns a result exactly for headers of at least
    five bytes: with fewer than four [struct.unpack] fails, with exactly four
    the index of the flags byte is out of range. *)
Theorem X9_decipherHeader_length (header : bytes) :
  ((length header < 4)%nat -> Decoder.decipherHeader header = Raise StructError)
  /\ (length header = 4%nat -> Decoder.decipherHeader header = Raise IndexError)
  /\ ((5 <= length header)%nat -> exists h, Decoder.decipherHeader header = Ok h).
Proof.
  destruct header as [|a [|b [|c [|d [|e tl]]]]]; cbn [length];
    (split; [|split]); intros H; try lia; try reflexivity.
  unfold Decoder.decipherHeader.
  change (a :: b :: c :: d :: e :: tl) with ([a; b; c; d] ++ e :: tl).
  change 4 with (len [a; b; c; d]) at 1. rewrite py_slice_prefix.
  cbn [unpack_L length Nat.eqb mbind res_bind].
  assert (Hi : py_index ([a; b; c; d] ++ e :: tl) 4 = Ok e)
    by (by apply (py_index_lookup _ 4%nat)).
  rewrite Hi. cbn [mbind res_bind]. eauto.
Qed.

Lemma X9_witness :
  Decoder.decipherHeader [1; 2; 3] = Raise StructError
  /\ Decoder.decipherHeader [1; 2; 3; 4] = Raise IndexError
  /\ exists h, Decoder.decipherHeader [1; 2; 3; 4; 5] = Ok h.
Proof.
  split; [|split].
  - apply (X9_decipherHeader_length [1; 2; 3]). simpl. lia.
  - apply (X9_decipherHeader_length [1; 2; 3; 4]). reflexivity.
  - apply (X9_decipherHeader_length [1; 2; 3; 4; 5]). simpl. lia.
Defined.

(** ** The scaffold text *)

Lemma chunks_from_insert {A} (n : nat) (t : list A) :
  (0 < n)%nat ->
  forall p fuel (s : list A),
    (length s <= fuel)%nat -> (n * p < length s)%nat ->
    (p < length (chunks_from fuel n s))%nat
    /\ concat (<[p := t]> (chunks_from fuel n s))
       = take (n * p) s ++ t ++ drop (n * (p + 1)) s.
Proof.
  intros Hn. induction p as [|p IH]; intros fuel s Hf Hp.
  - destruct s as [|a s]; [simpl in Hp; lia|].
    destruct fuel as [|fuel]; [simpl in Hf; lia|].
    cbn [chunks_from]. split; [simpl; lia|].
    cbn [insert list_insert concat].
    destruct (chunks_from_spec n Hn fuel (drop n (a :: s))) as [Hc _].
    { rewrite length_drop. simpl in *. lia. }
    rewrite Hc. replace (n * 0)%nat with 0%nat by lia.
    replace (n * (0 + 1))%nat with n by lia. by rewrite take_0.
  - destruct s as [|a s]; [simpl in Hp; lia|].
    destruct fuel as [|fuel]; [simpl in Hf; lia|].
    cbn [chunks_from].
    destruct (IH fuel (drop n (a :: s))) as [Hlt Hc].
    { rewrite length_drop. simpl in *. lia. }
    { rewrite length_drop. lia. }
    split; [simpl; lia|].
    change (<[S p := t]> (take n (a :: s) :: chunks_from fuel n (drop n (a :: s))))
      with (take n (a :: s) :: <[p := t]> (chunks_from fuel n (drop n (a :: s)))).
    cbn [concat]. rewrite Hc. rewrite drop_drop.
    replace (n + n * (p + 1))%nat with (n * (S p + 1))%nat by lia.
    rewrite app_assoc. f_equal.
    rewrite take_drop_commute.
    replace (n + n * p)%nat with (n * S p)%nat by lia.
    rewrite <- (take_drop n (take (n * S p) (a :: s))) at 2.
    f_equal. rewrite take_take. f_equal. lia.
Qed.

(** X10. [ammendScaffoldData] does not write at the offset of the pid.  When
    the scaffold text has a 77-character slot (possibly shorter, at the end)
    for the pid, that slot is replaced by the text whatever its length, so
    everything after it moves when the lengths differ; when the text ends
    before the slot, the new text is put right after the end. *)
Theorem X10_ammendScaffoldData_slot (scaffold_data to_write : pystr) (pid : Z) :
  0 <= pid ->
  (77 * pid < len scaffold_data ->
   Decoder.ammendScaffoldData scaffold_data to_write pid
   = take (Z.to_nat (77 * pid)) scaffold_data ++ to_write
     ++ drop (Z.to_nat (77 * (pid + 1))) scaffold_data)
  /\ (len scaffold_data <= 77 * pid ->
      Decoder.ammendScaffoldData scaffold_data to_write pid
      = scaffold_data ++ to_write).
Proof.
  intros Hpid. split; intros Hl.
  - unfold Decoder.ammendScaffoldData.
    change (Z.to_nat Packet.data_size) with 77%nat.
    destruct (chunks_from_insert 77 to_write ltac:(lia) (Z.to_nat pid)
                (length scaffold_data) scaffold_data ltac:(lia)) as [Hlt Hc].
    { unfold len in Hl. lia. }
    fold (chunks 77 scaffold_data) in Hlt, Hc.
    unfold py_setitem.
    destruct (Z.ltb_spec pid 0); [lia|].
    assert (Hin : (pid <? 0) || (len (chunks 77 scaffold_data) <=? pid) = false).
    { apply orb_false_intro; [apply Z.ltb_ge; lia|].
      apply Z.leb_gt. unfold len. lia. }
    rewrite Hin, Hc. repeat f_equal; lia.
  - replace pid with (Z.of_nat (Z.to_nat pid)) by lia.
    apply ammendScaffoldData_append. unfold len in Hl. lia.
Qed.

Lemma X10_witness :
  Decoder.ammendScaffoldData (py_mul [32] 100) [65; 66] 0
  = take (Z.to_nat (77 * 0)) (py_mul [32] 100) ++ [65; 66]
    ++ drop (Z.to_nat (77 * (0 + 1))) (py_mul [32] 100)
  /\ Decoder.ammendScaffoldData (py_mul [32] 100) [65; 66] 2
     = py_mul [32] 100 ++ [65; 66].
Proof.
  split.
  - apply (X10_ammendScaffoldData_slot (py_mul [32] 100) [65; 66] 0);
      [lia|vm_compute; reflexivity].
  - apply (X10_ammendScaffoldData_slot (py_mul [32] 100) [65; 66] 2);
      [lia|vm_compute; discriminate].
Defined.

(** ** The encoder and the metadata *)





(** X13. A source file that does not exist is no error for the caller of
    [Encoder.run]: [encode] returns [False] and writes nothing, and [run]
    still returns [True], with no unit and no metadata unit written. *)
Theorem X13_missing_source_reported_as_success (self : Encoder.t) (w : world) :
  files (fs w) !! Encoder.file self = None ->
  Encoder.encode self w = (Ok (self, false), w)
  /\ Encoder.run self w = (Ok (self, true), w).
Proof.
  intros Hf.
  assert (Henc : Encoder.encode self w = (Ok (self, false), w)).
  { unfold Encoder.encode, try_except, read_file, mbind, M_bind. by rewrite Hf. }
  split; [exact Henc|].
  unfold Encoder.run. eapply try_ok. rewrite (bind_ok _ _ _ _ _ Henc). reflexivity.
Qed.

Lemma X13_witness :
  let self := {| Encoder.file := lit "/d/a.bin"; Encoder.destructive := false;
                 Encoder.packets_built := 0 |} in
  let w := {| cls := Packet.initial;
              fs := {| units := ∅; init_qp := None; files := ∅ |} |} in
  Encoder.encode self w = (Ok (self, false), w)
  /\ Encoder.run self w = (Ok (self, true), w).
Proof.
  intros self w. apply (X13_missing_source_reported_as_success self w). reflexivity.
Defined.

(** ** The decoder without its inputs *)

(** X14. Without a metadata unit the decoder stops before it touches any
    file: [readInit], [init] and [run] raise [OSError] and leave the store
    as it was. *)
Theorem X14_no_metadata_unit (set_iter : list Z -> list Z) (self : Decoder.t)
    (w : world) :
  init_qp (fs w) = None ->
  Decoder.readInit set_iter w = (Raise OSError, w)
  /\ Decoder.init set_iter self w = (Raise OSError, w)
  /\ Decoder.run set_iter self w = (Raise OSError, w).
Proof.
  intros Hi.
  assert (Hr : Decoder.readInit set_iter w = (Raise OSError, w)).
  { unfold Decoder.readInit, try_except. by rewrite Hi. }
  assert (Hinit : Decoder.init set_iter self w = (Raise OSError, w)).
  { unfold Decoder.init. by rewrite (bind_raise _ _ _ _ _ Hr). }
  split; [done|]. split; [done|].
  unfold Decoder.run. by rewrite (bind_raise _ _ _ _ _ Hinit).
Qed.

Lemma X14_witness :
  let self := {| Decoder.file_path := lit "/o/"; Decoder.file_name := None;
                 Decoder.destructive := false; Decoder.expected_packets := None;
                 Decoder.file_size := None |} in
  let w := {| cls := Packet.initial;
              fs := {| units := {[ 0 := frame_layout 112 0 [104; 105] ]};
                       init_qp := None; files := ∅ |} |} in
  Decoder.readInit remove_dups w = (Raise OSError, w)
  /\ Decoder.init remove_dups self w = (Raise OSError, w)
  /\ Decoder.run remove_dups self w = (Raise OSError, w).
Proof.
  intros self w. apply (X14_no_metadata_unit remove_dups self w). reflexivity.
Defined.

(** The store after [bulkDecode] has made room for the output file. *)
Lemma bulk_prefix {A} (self : Decoder.t) (w : world) (nf : pystr) (k : pystr -> M A) :
  Decoder.newFile self = Ok nf ->
  (newFile ← lift (Decoder.newFile self);
   ex ← path_exists newFile;
   (if (ex : bool) then os_remove newFile else mret tt);;
   k newFile) w
  = k nf {| cls := cls w;
            fs := {| units := units (fs w); init_qp := init_qp (fs w);
                     files := delete nf (files (fs w)) |} |}.
Proof.
  intros Hnf. unfold lift at 1. rewrite Hnf.
  unfold mbind at 1, M_bind at 1. unfold mbind at 1, M_bind at 1.
  unfold path_exists at 1.
  destruct (files (fs w) !! nf) as [c|] eqn:Enf.
  - rewrite bool_decide_eq_true_2 by eauto.
    assert (Hrm : os_remove nf w
                  = (Ok tt, {| cls := cls w;
                               fs := {| units := units (fs w); init_qp := init_qp (fs w);
                                        files := delete nf (files (fs w)) |} |})).
    { unfold os_remove. rewrite (bind_ok _ _ _ _ _ (read_file_ok _ _ _ Enf)).
      reflexivity. }
    by rewrite (bind_ok _ _ _ _ _ Hrm).
  - rewrite bool_decide_eq_false_2 by (by intros [? ?]).
    unfold mbind at 1, M_bind at 1. unfold mret at 1, M_ret at 1.
    rewrite delete_id by done. by destruct w as [? []].
Qed.

(** X15. [bulkDecode] does not tell a missing in-progress file from a
    finished transfer: when the [.scaff] file does not exist it returns
    [None], the result of a complete decode, having read no unit; an output
    file of an earlier transfer has been removed by then. *)
Theorem X15_bulkDecode_without_scaffold (set_iter : list Z -> list Z)
    (self : Decoder.t) (w : world) (nf : pystr) :
  Decoder.newFile self = Ok nf ->
  files (fs w) !! (nf ++ lit ".scaff") = None ->
  Decoder.bulkDecode set_iter self w
  = (Ok None,
     {| cls := cls w;
        fs := {| units := units (fs w); init_qp := init_qp (fs w);
                 files := delete nf (files (fs w)) |} |}).
Proof.
  intros Hnf Hs. unfold Decoder.bulkDecode.
  set (w4 := {| cls := cls w;
                fs := {| units := units (fs w); init_qp := init_qp (fs w);
                         files := delete nf (files (fs w)) |} |}).
  assert (Hbody :
    try_except
      (newFile ← lift (Decoder.newFile self);
       ex ← path_exists newFile;
       (if (ex : bool) then os_remove newFile else mret tt);;
       _ ← read_file (newFile ++ lit ".scaff");
       fuel ← Decoder.bulk_fuel;
       r ← Decoder.bulk_loop set_iter fuel (newFile ++ lit ".scaff") (-1) [] [];
       mret (Some r.2))
      is_OSError (mret None) w
    = (Ok None, w4)).
  { apply (try_catch _ _ _ w w4 FileNotFoundError); [|reflexivity].
    etrans; [apply (bulk_prefix self w nf
                      (fun newFile =>
                         _ ← read_file (newFile ++ lit ".scaff");
                         fuel ← Decoder.bulk_fuel;
                         r ← Decoder.bulk_loop set_iter fuel (newFile ++ lit ".scaff")
                               (-1) [] [];
                         mret (Some r.2)) Hnf)|].
    fold w4. apply bind_raise. unfold read_file. cbn [w4 fs files].
    rewrite lookup_delete_ne by apply scaff_path_ne. by rewrite Hs. }
  by rewrite (bind_ok _ _ _ _ _ Hbody).
Qed.

Lemma X15_witness :
  let self := {| Decoder.file_path := lit "/o/"; Decoder.file_name := Some (lit "a.bin");
                 Decoder.destructive := false; Decoder.expected_packets := Some 1;
                 Decoder.file_size := Some 2 |} in
  let w := {| cls := Packet.initial;
              fs := {| units := {[ 0 := frame_layout 112 0 [104; 105] ]};
                       init_qp := None;
                       files := {[ lit "/o/a.bin" := [1; 2; 3] ]} |} |} in
  Decoder.bulkDecode remove_dups self w
  = (Ok None,
     {| cls := cls w;
        fs := {| units := units (fs w); init_qp := init_qp (fs w);
                 files := delete (lit "/o/a.bin") (files (fs w)) |} |}).
Proof.
  intros self w.
  apply (X15_bulkDecode_without_scaffold remove_dups self w (lit "/o/a.bin"));
    reflexivity.
Defined.



(** ** The asynchronous decode *)

Lemma try_clauses_ok {A} (m : M A) (cl : list ((exn -> bool) * M A)) (w w' : world)
    (a : A) :
  m w = (Ok a, w') -> try_clauses m cl w = (Ok a, w').
Proof. intros H. unfold try_clauses. by rewrite H. Qed.

Lemma try_clauses_raise {A} (m : M A) (cl : list ((exn -> bool) * M A)) (w w' : world)
    (e : exn) :
  m w = (Raise e, w') -> try_clauses m cl w = handle e cl w'.
Proof. intros H. unfold try_clauses. by rewrite H. Qed.

Lemma bind_lift_ok {A B} (r : res A) (a : A) (f : A -> M B) (w : world) :
  r = Ok a -> (lift r ≫= f) w = f a w.
Proof. by intros ->. Qed.

Lemma set_files_eq (f : gmap pystr bytes -> gmap pystr bytes) (w : world) :
  set_files f w
  = (Ok tt, {| cls := cls w;
               fs := {| units := units (fs w); init_qp := init_qp (fs w);
                        files := f (files (fs w)) |} |}).
Proof. reflexivity. Qed.

Lemma utf8_encode_Forall (s : pystr) :
  (exists b, utf8_encode s = Ok b)
  <-> Forall (fun c => exists b, utf8_encode_char c = Ok b) s.
Proof.
  induction s as [|c s IH]; [split; [constructor|by exists []]|].
  cbn [utf8_encode]. split.
  - intros [b Hb]. destruct (utf8_encode_char c) as [bc|] eqn:Ec; [|done].
    cbn [mbind res_bind] in Hb.
    destruct (utf8_encode s) as [r|] eqn:Er; [|done].
    constructor; [eauto|]. apply IH. eauto.
  - intros H. apply Forall_cons in H as [[bc Hc] Hs].
    apply IH in Hs as [r Hr]. rewrite Hc, Hr. cbn. eauto.
Qed.

Lemma ammendScaffoldData_Forall (P : Z -> Prop) (scaffold_data to_write : pystr)
    (pid : Z) :
  Forall P scaffold_data -> Forall P to_write ->
  Forall P (Decoder.ammendScaffoldData scaffold_data to_write pid).
Proof.
  intros Hs Ht. unfold Decoder.ammendScaffoldData.
  change (Z.to_nat Packet.data_size) with 77%nat.
  assert (Hc : Forall (Forall P) (chunks 77 scaffold_data)).
  { apply Forall_concat. by rewrite concat_chunks by lia. }
  apply Forall_concat. unfold py_setitem.
  destruct (_ || _).
  - apply Forall_app. split; [done|]. by constructor.
  - by apply Forall_insert.
Qed.

(** X17. [asyncDecode] of a decoder that knows its file name returns
    [False] and changes nothing when the unit of the pid does not exist, and
    also when the unit exists but the [.scaff] file does not. *)
Theorem X17_asyncDecode_nothing_to_do (set_iter : list Z -> list Z) (self : Decoder.t)
    (pid : Z) (w : world) (name : pystr) :
  set_iter_ok set_iter ->
  Decoder.file_name self = Some name ->
  units (fs w) !! pid = None
  \/ files (fs w) !! ((Decoder.file_path self ++ name) ++ lit ".scaff") = None ->
  Decoder.asyncDecode set_iter self pid w = (Ok (self, false), w).
Proof.
  intros Hs Hn Hmiss. unfold Decoder.asyncDecode. rewrite Hn.
  rewrite (try_clauses_raise _ _ w w FileNotFoundError); [reflexivity|].
  destruct (units (fs w) !! pid) as [u|] eqn:Eu.
  - destruct Hmiss as [|Hf]; [done|].
    rewrite (bind_ok _ _ _ _ _ (read_unit_ok _ _ _ Eu)).
    destruct (information_of_total set_iter u Hs) as [info Hinfo].
    unfold lift at 1. rewrite Hinfo. unfold mbind at 1, M_bind at 1.
    apply bind_raise. unfold read_file. by rewrite Hf.
  - apply bind_raise. by apply read_unit_absent.
Qed.

Lemma X17_witness :
  let self := {| Decoder.file_path := lit "/o/"; Decoder.file_name := Some (lit "a.bin");
                 Decoder.destructive := false; Decoder.expected_packets := Some 2;
                 Decoder.file_size := Some 80 |} in
  let w := {| cls := Packet.initial;
              fs := {| units := {[ 0 := frame_layout 0 0 [104; 105] ]};
                       init_qp := None;
                       files := {[ lit "/o/a.bin.scaff" := [32; 32; 32] ]} |} |} in
  Decoder.asyncDecode remove_dups self 1 w = (Ok (self, false), w).
Proof.
  intros self w.
  apply (X17_asyncDecode_nothing_to_do remove_dups self 1 w (lit "a.bin")).
  - intros l. reflexivity.
  - reflexivity.
  - left. reflexivity.
Defined.



(** X19. A successful [asyncDecode] rewrites the [.scaff] file and nothing
    else.  With the unit of the pid present and its information field valid
    UTF-8, and the scaffold valid UTF-8, it returns [True] and the scaffold
    holds the encoding of the amended text; the output file is not produced,
    even when this was the last missing unit. *)
Theorem X19_asyncDecode_amends_scaffold (set_iter : list Z -> list Z) (self : Decoder.t)
    (pid : Z) (w : world) (name : pystr) (u information old : bytes)
    (to_write scaffold : pystr) :
  let path := (Decoder.file_path self ++ name) ++ lit ".scaff" in
  Decoder.file_name self = Some name ->
  units (fs w) !! pid = Some u ->
  Decoder.information_of set_iter u = Ok information ->
  utf8_decode information = Ok to_write ->
  files (fs w) !! path = Some old ->
  utf8_decode old = Ok scaffold ->
  exists b,
    utf8_encode (Decoder.ammendScaffoldData scaffold to_write pid) = Ok b
    /\ Decoder.asyncDecode set_iter self pid w
       = (Ok (self, true),
          {| cls := cls w;
             fs := {| units := units (fs w); init_qp := init_qp (fs w);
                      files := <[path := b]> (files (fs w)) |} |}).
Proof.
  intros path Hn Hu Hinfo Ht Hf Hs.
  destruct (proj2 (utf8_encode_Forall
                     (Decoder.ammendScaffoldData scaffold to_write pid))) as [b Hb].
  { apply ammendScaffoldData_Forall; apply utf8_encode_Forall; eexists;
      eapply utf8_decode_encode; eassumption. }
  exists b. split; [done|].
  unfold Decoder.asyncDecode. rewrite Hn. fold path.
  apply try_clauses_ok.
  rewrite (bind_ok _ _ _ _ _ (read_unit_ok _ _ _ Hu)).
  rewrite (bind_lift_ok _ _ _ _ Hinfo).
  rewrite (bind_ok _ _ _ _ _ (read_file_ok _ _ _ Hf)).
  rewrite (bind_lift_ok _ _ _ _ Hs), (bind_lift_ok _ _ _ _ Ht).
  rewrite (bind_ok _ _ _ _ _ (set_files_eq _ _)).
  rewrite (bind_lift_ok _ _ _ _ Hb).
  rewrite (bind_ok _ _ _ _ _ (set_files_eq _ _)).
  unfold mret, M_ret. cbn [cls fs units init_qp files].
  by rewrite insert_insert_eq.
Qed.

Lemma X19_witness :
  let self := {| Decoder.file_path := lit "/o/"; Decoder.file_name := Some (lit "a.bin");
                 Decoder.destructive := false; Decoder.expected_packets := Some 2;
                 Decoder.file_size := Some 3 |} in
  let w := {| cls := Packet.initial;
              fs := {| units := {[ 0 := frame_layout 0 0 [104; 105] ]};
                       init_qp := None;
                       files := {[ lit "/o/a.bin.scaff" := [32; 32; 32] ]} |} |} in
  exists b,
    utf8_encode (Decoder.ammendScaffoldData [32; 32; 32] [104; 105] 0) = Ok b
    /\ Decoder.asyncDecode remove_dups self 0 w
       = (Ok (self, true),
          {| cls := cls w;
             fs := {| units := units (fs w); init_qp := init_qp (fs w);
                      files := <[(Decoder.file_path self ++ lit "a.bin") ++ lit ".scaff"
                                 := b]> (files (fs w)) |} |}).
Proof.
  intros self w.
  apply (X19_asyncDecode_amends_scaffold remove_dups self 0 w (lit "a.bin")
           (frame_layout 0 0 [104; 105]) [104; 105] [32; 32; 32]
           [104; 105] [32; 32; 32]); vm_compute; reflexivity.
Defined.

(** ** The encoder: deleting the source, and unusual metadata *)

(** X20. The [destructive] option and the metadata unit do not go together:
    [encode] removes the source before [buildInitPacket] asks for its size.
    On a non-empty source a destructive [run] writes every data unit, deletes
    the source, leaves an empty metadata unit, and ends in the
    [FileNotFoundError] of the clean-up in its [except Warning] clause. *)
Theorem X20_destructive_run_loses_metadata (self : Encoder.t) (w : world) (src : bytes) :
  Encoder.destructive self = true ->
  Packet.overflow (cls w) = PInt 0 ->
  files (fs w) !! Encoder.file self = Some src ->
  (0 < length src)%nat ->
  Z.of_nat (npieces src) <= Packet.max_id ->
  exists w',
    Encoder.run self w = (Raise FileNotFoundError, w')
    /\ files (fs w') = delete (Encoder.file self) (files (fs w))
    /\ init_qp (fs w') = Some []
    /\ forall i : Z,
         units (fs w') !! i
         = if decide (0 <= i < Z.of_nat (npieces src)) then Some (unit_of src (Z.to_nat i))
           else units (fs w) !! i.
Proof.
  intros Hd Hov Hsrc Hpos Hmax.
  assert (HN : (0 < npieces src)%nat) by (apply npieces_spec; lia).
  destruct (encode_loop_spec src Hmax HN (S (length src)) 0%nat None w)
    as (w1 & Hrun & Hov1 & Hinit1 & Hfiles1 & Hunits1); try done; try lia.
  { rewrite length_drop. lia. }
  change (drop (Z.to_nat Packet.data_size * 0) src) with src in Hrun.
  set (self' := {| Encoder.file := Encoder.file self; Encoder.destructive := true;
                   Encoder.packets_built := Z.of_nat (npieces src) |}).
  set (w2 := {| cls := cls w1;
                fs := {| units := units (fs w1); init_qp := init_qp (fs w1);
                         files := delete (Encoder.file self) (files (fs w1)) |} |}).
  set (w3 := {| cls := cls w1;
                fs := {| units := units (fs w1); init_qp := Some [];
                         files := delete (Encoder.file self) (files (fs w1)) |} |}).
  assert (Henc : Encoder.encode self w = (Ok (self', true), w2)).
  { unfold Encoder.encode. apply try_ok.
    rewrite (bind_ok _ _ _ _ _ (read_file_ok _ _ _ Hsrc)).
    rewrite (bind_ok _ _ _ _ _ (try_ok _ _ _ _ _ _ Hrun)).
    cbn [Encoder.destructive Encoder.file]. rewrite Hd.
    assert (Hrm : os_remove (Encoder.file self) w1 = (Ok tt, w2)).
    { unfold os_remove.
      assert (Hsrc1 : files (fs w1) !! Encoder.file self = Some src)
        by (by rewrite Hfiles1).
      by rewrite (bind_ok _ _ _ _ _ (read_file_ok _ _ _ Hsrc1)). }
    by rewrite (bind_ok _ _ _ _ _ Hrm). }
  assert (Hb : Encoder.buildInitPacket self' w2 = (Raise Warning, w3)).
  { unfold Encoder.buildInitPacket.
    apply (try_catch _ _ _ w2 w3 FileNotFoundError); [|reflexivity].
    unfold mbind at 1, M_bind at 1, set_init_qp at 1. fold w3.
    apply bind_raise. unfold getsize. apply bind_raise.
    unfold read_file. cbn [w2 w3 fs files cls units self' Encoder.file].
    by rewrite lookup_delete_eq. }
  exists w3. split; [|split; [|split]].
  - unfold Encoder.run.
    rewrite (try_catch _ _ _ w w3 Warning); [by rewrite Hd| |reflexivity].
    rewrite (bind_ok _ _ _ _ _ Henc). by apply bind_raise.
  - cbn [w3 fs files]. by rewrite Hfiles1.
  - reflexivity.
  - intros i. cbn [w3 fs units]. rewrite Hunits1. simpl (Z.of_nat 0).
    destruct (decide (0 <= i < Z.of_nat (npieces src))).
    + by rewrite decide_True by lia.
    + by rewrite decide_False by lia.
Qed.

Lemma X20_witness :
  let src := replicate 77 65 ++ [66] in
  let self := {| Encoder.file := lit "/d/a.bin"; Encoder.destructive := true;
                 Encoder.packets_built := 0 |} in
  let w := {| cls := Packet.initial;
              fs := {| units := ∅; init_qp := None;
                       files := {[ lit "/d/a.bin" := src ]} |} |} in
  exists w',
    Encoder.run self w = (Raise FileNotFoundError, w')
    /\ files (fs w') = delete (Encoder.file self) (files (fs w))
    /\ init_qp (fs w') = Some []
    /\ forall i : Z,
         units (fs w') !! i
         = if decide (0 <= i < Z.of_nat (npieces src)) then Some (unit_of src (Z.to_nat i))
           else units (fs w) !! i.
Proof.
  intros src self w.
  apply (X20_destructive_run_loses_metadata self w src).
  - reflexivity.
  - reflexivity.
  - reflexivity.
  - vm_compute. lia.
  - vm_compute. discriminate.
Defined.



Lemma fromhex_from_length (s : pystr) :
  forall n acc b, (length s <= n)%nat -> fromhex_from s acc = Ok b ->
    (2 * length b <= 2 * length acc + length s)%nat.
Proof.
  intros n. revert s. induction n as [|n IH]; intros s acc b Hn H.
  { destruct s; [|simpl in Hn; lia]. injection H as <-. simpl. lia. }
  destruct s as [|c tl]; [injection H as <-; simpl; lia|].
  cbn [fromhex_from] in H. destruct (is_space c).
  - apply IH in H; [|simpl in Hn; lia]. simpl. lia.
  - destruct (hexval c) as [hi|]; [|done].
    destruct tl as [|c2 tl2]; [done|].
    destruct (hexval c2) as [lo|]; [|done].
    apply IH in H; [|simpl in Hn; lia].
    rewrite length_app in H. simpl in *. lia.
Qed.

(** X22. The metadata text goes through the [str] branch of the [Packet]
    constructor, which first tries to read it as hexadecimal.  When the text
    (base name, count, size) happens to be pairs of hexadecimal digits
    separated by spaces, the metadata unit carries the bytes those digits
    denote, at most half as many as the text has characters, and not the
    text. *)
Theorem X22_hex_metadata_stored_as_bytes (self : Encoder.t) (w : world)
    (src b : bytes) :
  let name := Encoder.basename (Encoder.file self) in
  let meta := metadata name (Encoder.packets_built self) (len src) in
  Packet.overflow (cls w) = PInt 0 ->
  files (fs w) !! Encoder.file self = Some src ->
  fromhex meta = Ok b ->
  len b <= Packet.data_size ->
  Encoder.buildInitPacket self w
  = (Ok tt,
     {| cls := cls w;
        fs := {| units := units (fs w); init_qp := Some (frame_layout 16 0 b);
                 files := files (fs w) |} |})
  /\ 2 * len b <= len meta.
Proof.
  intros name meta Hov Hsrc Hhex Hlen. split.
  - unfold Encoder.buildInitPacket. apply try_ok.
    unfold mbind at 1, M_bind at 1. unfold set_init_qp at 1.
    unfold getsize.
    unfold mbind at 1, M_bind at 1. unfold mbind at 1, M_bind at 1.
    rewrite (read_file_ok _ src) by done.
    unfold mret at 1, M_ret at 1. cbn [app].
    fold name. fold (metadata name (Encoder.packets_built self) (len src)). fold meta.
    match goal with
    | |- (new_Packet _ _ _ ≫= _) ?w2 = _ =>
        assert (Hp : new_Packet (Packet.DStr meta) 0 (Some 1) w2
                     = (Ok {| Packet.op_code := 1; Packet.pid := 0; Packet.data := b;
                              Packet.nbytes := len b |}, w2))
    end.
    { unfold new_Packet, Packet.init. cbn [Z.ltb Z.compare].
      unfold Packet.to_bytearray. rewrite Hhex. cbn [mbind res_bind].
      destruct (Z.leb_spec (len b) Packet.data_size); [|lia].
      destruct w as [[l o] f]. reflexivity. }
    rewrite (bind_ok _ _ _ _ _ Hp).
    match goal with
    | |- (build ?p ≫= _) ?w2 = _ =>
        assert (Hb : build p w2 = (Ok (frame_layout 16 0 b), w2))
    end.
    { apply build_ok; cbn [cls fs Packet.pid Packet.op_code Packet.data];
        try done; lia. }
    rewrite (bind_ok _ _ _ _ _ Hb). reflexivity.
  - pose proof (fromhex_from_length meta (length meta) [] b ltac:(lia) Hhex) as H.
    unfold len. simpl in H. lia.
Qed.

Lemma X22_witness :
  let src := replicate 1000 65 in
  let self := {| Encoder.file := lit "/d/cafe"; Encoder.destructive := false;
                 Encoder.packets_built := 13 |} in
  let w := {| cls := Packet.initial;
              fs := {| units := ∅; init_qp := None;
                       files := {[ lit "/d/cafe" := src ]} |} |} in
  Encoder.buildInitPacket self w
  = (Ok tt,
     {| cls := cls w;
        fs := {| units := units (fs w);
                 init_qp := Some (frame_layout 16 0 [202; 254; 19; 16; 0]);
                 files := files (fs w) |} |})
  /\ 2 * len [202; 254; 19; 16; 0]
     <= len (metadata (Encoder.basename (Encoder.file self))
               (Encoder.packets_built self) (len src)).
Proof.
  intros src self w.
  apply (X22_hex_metadata_stored_as_bytes self w src [202; 254; 19; 16; 0]).
  - reflexivity.
  - reflexivity.
  - vm_compute. reflexivity.
  - vm_compute. discriminate.
Defined.

(** ** The constructors of the encoder and the decoder *)

Lemma py_index_last {A} (l : list A) :
  py_index l (-1) = match last l with
                    | Some x => Ok x
                    | None => Raise IndexError
                    end.
Proof.
  unfold py_index. cbn [Z.ltb Z.compare]. rewrite last_lookup.
  destruct l as [|a l]; [reflexivity|].
  assert (Hn : (-1 + len (a :: l) <? 0) = false).
  { apply Z.ltb_ge. unfold len. simpl. lia. }
  rewrite Hn.
  replace (Z.to_nat (-1 + len (a :: l))) with (pred (length (a :: l)))
    by (unfold len; simpl; lia).
  by destruct ((a :: l) !! pred (length (a :: l))).
Qed.

Lemma rfind_from_spec (c : Z) (s : pystr) :
  forall i best,
    ((c ∉ s) /\ rfind_from c s i best = best)
    \/ (exists k : nat, s !! k = Some c /\ rfind_from c s i best = i + Z.of_nat k
                        /\ (c ∉ drop (S k) s)).
Proof.
  induction s as [|x tl IH]; intros i best; cbn [rfind_from].
  - left. split; [apply not_elem_of_nil|done].
  - destruct (IH (i + 1) (if x =? c then i else best)) as [[Hn Hr]|(k & Hk & Hr & Hd)].
    + destruct (Z.eqb_spec x c) as [->|Hne].
      * right. exists 0%nat. rewrite Hr. cbn. split; [done|]. split; [lia|done].
      * left. rewrite Hr. split; [|done]. set_solver.
    + right. exists (S k). rewrite Hr. split; [done|]. split; [lia|done].
Qed.

Lemma py_slice_take {A} (l : list A) (n : Z) :
  0 <= n <= len l -> py_slice l 0 n = take (Z.to_nat n) l.
Proof.
  intros Hn. unfold py_slice. cbn [Z.ltb Z.compare].
  destruct (Z.ltb_spec n 0); [lia|].
  pose proof (len_nonneg l).
  rewrite (Z.min_l 0) by lia. rewrite Z.min_l by lia.
  rewrite Z.sub_0_r. reflexivity.
Qed.

Lemma py_slice_from_drop {A} (l : list A) (n : Z) :
  0 <= n <= len l -> py_slice_from l n = drop (Z.to_nat n) l.
Proof.
  intros Hn. unfold py_slice_from, py_slice.
  destruct (Z.ltb_spec n 0); [lia|].
  destruct (Z.ltb_spec (len l) 0); [lia|].
  rewrite Z.min_id. rewrite Z.min_l by lia.
  apply take_ge. rewrite length_drop. unfold len in *. lia.
Qed.

(** X23. What [Encoder.__init__] accepts.  With ["."] for the packet
    directory every file path is accepted, a directory path and the empty
    string included, and the packet prefix becomes empty.  Any other packet
    directory is accepted exactly when it ends in ['/'] and the file path is
    not empty and does not end in ['/'].  An empty packet directory raises
    [IndexError], not the [TypeError] of the other refusals. *)
Theorem X23_Encoder_new_accepts (path_for_encode path_for_packets : pystr)
    (destructive : bool) :
  Encoder.new path_for_encode (lit ".") destructive
  = Ok ({| Encoder.file := path_for_encode; Encoder.destructive := destructive;
           Encoder.packets_built := 0 |}, [])
  /\ Encoder.new path_for_encode [] destructive = Raise IndexError
  /\ (path_for_packets <> lit "." ->
      forall r,
        Encoder.new path_for_encode path_for_packets destructive = Ok r
        <-> (last path_for_packets = Some 47
             /\ (exists c, last path_for_encode = Some c /\ c <> 47)
             /\ r = ({| Encoder.file := path_for_encode;
                        Encoder.destructive := destructive;
                        Encoder.packets_built := 0 |}, path_for_packets))).
Proof.
  split; [reflexivity|]. split; [reflexivity|].
  intros Hdot r. unfold Encoder.new. rewrite !py_index_last.
  destruct (last path_for_packets) as [p|]; cbn [mbind res_bind].
  - destruct (Z.eqb_spec p 47) as [->|Hp]; cbn [negb].
    + destruct (last path_for_encode) as [c|]; cbn [mbind res_bind].
      * destruct (Z.eqb_spec c 47) as [->|Hc]; cbn [mbind res_bind].
        -- rewrite decide_False by done. cbn. split; [done|].
           intros (_ & (c & [= <-] & Hc) & _). done.
        -- split.
           ++ intros [= <-]. eauto.
           ++ by intros (_ & _ & ->).
      * split; [done|]. by intros (_ & (c & Hc & _) & _).
    + rewrite decide_False by done. cbn. split; [done|].
      intros ([= ->] & _). done.
  - split; [done|]. by intros (? & _).
Qed.

(** X24. [Decoder.__init__] splits the path to decode to at its last ['/'].
    For a path that does not end in ['/'], the directory part, which is empty
    or ends in ['/'], and the file name, which holds no ['/'], put together
    give the path back; a path that ends in ['/'] is kept whole as the
    directory and the file name is left unset, to be taken from the metadata. *)
Theorem X24_Decoder_new_splits_path (path_for_decode path_for_packets : pystr)
    (destructive : bool) (c : Z) :
  path_for_packets = lit "." \/ last path_for_packets = Some 47 ->
  last path_for_decode = Some c ->
  exists self,
    Decoder.new path_for_decode path_for_packets destructive
    = Ok (self, if decide (path_for_packets = lit ".") then [] else path_for_packets)
    /\ Decoder.destructive self = destructive
    /\ Decoder.expected_packets self = None
    /\ Decoder.file_size self = None
    /\ (c = 47 ->
        Decoder.file_path self = path_for_decode /\ Decoder.file_name self = None)
    /\ (c <> 47 ->
        exists name,
          Decoder.file_name self = Some name
          /\ Decoder.file_path self ++ name = path_for_decode
          /\ (47 ∉ name)
          /\ (Decoder.file_path self = [] \/ last (Decoder.file_path self) = Some 47)).
Proof.
  intros Hp Hd. unfold Decoder.new. rewrite !py_index_last, Hd.
  assert (Hpk : (last_packets ← match last path_for_packets with
                                 | Some x => Ok x
                                 | None => Raise IndexError
                                 end;
                 if negb (last_packets =? 47)
                 then if decide (path_for_packets = lit ".") then Ok []
                      else Raise TypeError
                 else Ok path_for_packets)
                = Ok (if decide (path_for_packets = lit ".") then []
                      else path_for_packets)).
  { destruct Hp as [->|Hl]; [reflexivity|].
    rewrite Hl. cbn. rewrite decide_False; [done|]. by intros ->. }
  destruct (last path_for_packets) as [p|]; [|by destruct Hp as [->|?]].
  cbn [mbind res_bind] in Hpk |- *. rewrite Hpk. cbn [mbind res_bind].
  destruct (Z.eqb_spec c 47) as [->|Hc].
  - eexists. split; [reflexivity|]. cbn. repeat split; try done.
  - eexists. split; [reflexivity|]. cbn [Decoder.destructive Decoder.expected_packets
      Decoder.file_size Decoder.file_path Decoder.file_name].
    repeat split; try done.
    intros _. eexists. split; [reflexivity|].
    unfold rfind.
    destruct (rfind_from_spec 47 path_for_decode 0 (-1)) as [[Hn ->]|(k & Hk & -> & Hdrop)].
    + change (-1 + 1) with 0. rewrite py_slice_take by (pose proof (len_nonneg path_for_decode); lia).
      rewrite py_slice_from_drop by (pose proof (len_nonneg path_for_decode); lia).
      cbn. split; [done|]. split; [done|]. by left.
    + apply lookup_lt_Some in Hk as Hlt.
      rewrite py_slice_take by (unfold len; lia).
      rewrite py_slice_from_drop by (unfold len; lia).
      replace (Z.to_nat (0 + Z.of_nat k + 1)) with (S k) by lia.
      split; [apply take_drop|]. split; [done|]. right.
      rewrite (take_S_r _ _ 47) by done. apply last_snoc.
Qed.

Lemma X24_witness :
  exists self,
    Decoder.new (lit "/o/sub/a.bin") (lit "/p/") false
    = Ok (self, if decide (lit "/p/" = lit ".") then [] else lit "/p/")
    /\ Decoder.destructive self = false
    /\ Decoder.expected_packets self = None
    /\ Decoder.file_size self = None
    /\ (110 = 47 ->
        Decoder.file_path self = lit "/o/sub/a.bin" /\ Decoder.file_name self = None)
    /\ (110 <> 47 ->
        exists name,
          Decoder.file_name self = Some name
          /\ Decoder.file_path self ++ name = lit "/o/sub/a.bin"
          /\ (47 ∉ name)
          /\ (Decoder.file_path self = [] \/ last (Decoder.file_path self) = Some 47)).
Proof.
  apply (X24_Decoder_new_splits_path (lit "/o/sub/a.bin") (lit "/p/") false 110).
  - right. reflexivity.
  - reflexivity.
Defined.

(** ** Data given as an int *)

Lemma bit_length_bound (n : Z) : 0 <= n -> n < 2 ^ bit_length n.
Proof.
  intros Hn. unfold bit_length. destruct (Z.eqb_spec n 0) as [->|Hne]; [done|].
  rewrite Z.abs_eq by lia. apply Z.log2_spec. lia.
Qed.

(** X25. Data given as an int is stored big-endian on
    [bit_length // 8 + 1] bytes: the value of the bytes is the int, and an
    int whose bit length is a multiple of 8 gets a leading zero byte.  A
    negative int is not converted: the constructor raises [OverflowError]
    for every pid that is not negative. *)
Theorem X25_int_data_big_endian (st : Packet.pstate) (n pid : Z) (kw : option Z) :
  (0 <= n ->
   exists b, Packet.to_bytearray (Packet.DInt n) = Ok b
     /\ len b = bit_length n / 8 + 1
     /\ be_value b = n)
  /\ (n < 0 -> 0 <= pid ->
      Packet.init st (Packet.DInt n) pid kw = Raise OverflowError).
Proof.
  split.
  - intros Hn. cbn [Packet.to_bytearray].
    pose proof (bit_length_bound n Hn) as Hb.
    assert (Hbl : 0 <= bit_length n).
    { unfold bit_length. destruct (n =? 0); [done|].
      pose proof (Z.log2_nonneg (Z.abs n)). lia. }
    set (k := Z.to_nat (bit_length n / 8 + 1)).
    assert (Hk : Z.of_nat k = bit_length n / 8 + 1).
    { unfold k. rewrite Z2Nat.id; [done|]. pose proof (Z.div_pos (bit_length n) 8). lia. }
    assert (Hlt : n < 256 ^ Z.of_nat k).
    { change 256 with (2 ^ 8). rewrite <- Z.pow_mul_r by lia.
      eapply Z.lt_le_trans; [exact Hb|].
      apply Z.pow_le_mono_r; [lia|]. rewrite Hk.
      pose proof (Z.div_mod (bit_length n) 8 ltac:(lia)).
      pose proof (Z.mod_pos_bound (bit_length n) 8 ltac:(lia)). lia. }
    exists (be_bytes k n). split; [apply to_bytes_ok; lia|]. split.
    + unfold len. by rewrite length_be_bytes.
    + unfold be_value. rewrite unpack_be_bytes. apply Z.mod_small. lia.
  - intros Hn Hpid. unfold Packet.init.
    destruct (Z.ltb_spec pid 0); [lia|].
    cbn [Packet.to_bytearray]. unfold to_bytes.
    destruct (Z.ltb_spec n 0); [|lia]. reflexivity.
Qed.

Lemma X25_witness :
  (exists b, Packet.to_bytearray (Packet.DInt 255) = Ok b
     /\ len b = bit_length 255 / 8 + 1
     /\ be_value b = 255)
  /\ Packet.init Packet.initial (Packet.DInt (-1)) 0 None = Raise OverflowError.
Proof.
  split.
  - apply (X25_int_data_big_endian Packet.initial 255 0 None). lia.
  - apply (X25_int_data_big_endian Packet.initial (-1) 0 None); lia.
Defined.

(** ** What the decoder leaves alone *)

Lemma keeps_bind {A B} (m : M A) (f : A -> M B) :
  keeps_units m -> (forall a, keeps_units (f a)) -> keeps_units (m ≫= f).
Proof.
  intros Hm Hf w. unfold mbind, M_bind. specialize (Hm w).
  destruct (m w) as [[a|e] w1]; [|exact Hm].
  cbn [snd] in Hm. destruct (Hf a w1) as (H1 & H2 & H3), Hm as (H4 & H5 & H6).
  repeat split; congruence.
Qed.

Lemma keeps_try {A} (m h : M A) (c : exn -> bool) :
  keeps_units m -> keeps_units h -> keeps_units (try_except m c h).
Proof.
  intros Hm Hh w. unfold try_except. specialize (Hm w).
  destruct (m w) as [[a|e] w1]; [exact Hm|].
  destruct (c e); [|exact Hm].
  cbn [snd] in Hm. destruct (Hh w1) as (H1 & H2 & H3), Hm as (H4 & H5 & H6).
  repeat split; congruence.
Qed.

Lemma keeps_handle {A} (e : exn) (cl : list ((exn -> bool) * M A)) :
  Forall (fun p => keeps_units p.2) cl -> keeps_units (handle e cl).
Proof.
  induction 1 as [|[c h] cl Hh _ IH]; cbn [handle]; [by intros w|].
  by destruct (c e).
Qed.

Lemma keeps_try_clauses {A} (m : M A) (cl : list ((exn -> bool) * M A)) :
  keeps_units m -> Forall (fun p => keeps_units p.2) cl ->
  keeps_units (try_clauses m cl).
Proof.
  intros Hm Hcl w. unfold try_clauses. specialize (Hm w).
  destruct (m w) as [[a|e] w1]; [exact Hm|].
  cbn [snd] in Hm. destruct (keeps_handle e cl Hcl w1) as (H1 & H2 & H3).
  destruct Hm as (H4 & H5 & H6). repeat split; congruence.
Qed.

Lemma keeps_lift {A} (r : res A) : keeps_units (lift r).
Proof. by intros w. Qed.

Lemma keeps_mret {A} (a : A) : keeps_units (mret a : M A).
Proof. by intros w. Qed.

Lemma keeps_raise {A} (e : exn) : keeps_units (raise e : M A).
Proof. by intros w. Qed.

Lemma keeps_set_files (f : gmap pystr bytes -> gmap pystr bytes) :
  keeps_units (set_files f).
Proof. by intros w. Qed.

Lemma keeps_read_file (path : pystr) : keeps_units (read_file path).
Proof. intros w. unfold read_file. by destruct (files (fs w) !! path). Qed.

Lemma keeps_read_unit (pid : Z) : keeps_units (read_unit pid).
Proof. intros w. unfold read_unit. by destruct (units (fs w) !! pid). Qed.

Lemma keeps_unit_exists (pid : Z) : keeps_units (unit_exists pid).
Proof. by intros w. Qed.

Lemma keeps_path_exists (path : pystr) : keeps_units (path_exists path).
Proof. by intros w. Qed.

Lemma keeps_bulk_fuel : keeps_units Decoder.bulk_fuel.
Proof. by intros w. Qed.

Create HintDb keeps.
#[local] Hint Resolve keeps_lift keeps_mret keeps_raise keeps_set_files keeps_read_file
  keeps_read_unit keeps_unit_exists keeps_path_exists keeps_bulk_fuel : keeps.

Ltac keeps_step :=
  match goal with
  | |- keeps_units (_ ≫= _) => apply keeps_bind
  | |- keeps_units (try_except _ _ _) => apply keeps_try
  | |- keeps_units (try_clauses _ _) => apply keeps_try_clauses
  | |- Forall _ _ => constructor; cbn [snd]
  | |- keeps_units (match ?x with _ => _ end) => destruct x
  | |- forall _, _ => intro
  | |- _ => solve [auto with keeps]
  end.

Lemma keeps_os_remove (path : pystr) : keeps_units (os_remove path).
Proof. unfold os_remove. repeat keeps_step. Qed.

Lemma keeps_os_rename (src dst : pystr) : keeps_units (os_rename src dst).
Proof. unfold os_rename. repeat keeps_step. Qed.

Lemma keeps_readInit (set_iter : list Z -> list Z) :
  keeps_units (Decoder.readInit set_iter).
Proof.
  unfold Decoder.readInit. apply keeps_try; [|auto with keeps].
  intros w. cbv beta. destruct (init_qp (fs w)) eqn:E; cbn [snd]; by rewrite ?E.
Qed.

Lemma keeps_init (set_iter : list Z -> list Z) (self : Decoder.t) :
  keeps_units (Decoder.init set_iter self).
Proof.
  unfold Decoder.init. apply keeps_bind; [apply keeps_readInit|].
  repeat keeps_step.
Qed.

Lemma keeps_bulk_step (set_iter : list Z -> list Z) (path : pystr) (pid : Z)
    (scaffold_data : pystr) (missed : list Z) :
  keeps_units (Decoder.bulk_step set_iter path pid scaffold_data missed).
Proof. unfold Decoder.bulk_step, Decoder.write_at_start. repeat keeps_step. Qed.

Lemma keeps_bulk_loop (set_iter : list Z -> list Z) (path : pystr) (fuel : nat) :
  forall pid scaffold_data missed,
    keeps_units (Decoder.bulk_loop set_iter fuel path pid scaffold_data missed).
Proof.
  induction fuel as [|fuel IH]; intros pid scaffold_data missed; cbn [Decoder.bulk_loop].
  - auto with keeps.
  - apply keeps_bind; [apply keeps_bulk_step|].
    intros [[sd ms]|]; [apply IH|auto with keeps].
Qed.

Lemma keeps_bulkDecode (set_iter : list Z -> list Z) (self : Decoder.t) :
  keeps_units (Decoder.bulkDecode set_iter self).
Proof.
  pose proof keeps_os_remove. pose proof keeps_os_rename.
  pose proof (keeps_bulk_loop set_iter).
  unfold Decoder.bulkDecode, Decoder.buildScaffold. repeat keeps_step.
Qed.

Lemma keeps_asyncDecode (set_iter : list Z -> list Z) (self : Decoder.t) (pid : Z) :
  keeps_units (Decoder.asyncDecode set_iter self pid).
Proof.
  pose proof (keeps_init set_iter).
  unfold Decoder.asyncDecode. repeat keeps_step.
Qed.


